(** * A model of the management API client (package api_go_sdk, APIClient.go)

    The client is embedded as a state-and-error monad over the client
    object and the world it talks to (the management server, the local
    fingerprint file, the operator's terminal).  One goroutine is modelled:
    the three mutexes of the client are then no-ops, and a busy-wait loop
    whose condition cannot change without another goroutine spins until the
    fuel of the model runs out.  Console output is not part of the model. *)

From Stdlib Require Import ZArith String Ascii List Bool Lia DecimalString DecimalZ.
From stdpp Require Import base option gmap strings list fin_maps.

Set Warnings "-register-all".
Open Scope Z_scope.
Open Scope string_scope.

(** ** Go values *)

(** A Go [error], by its message. *)
Definition Err : Type := string.

(** Go's [int] on the 64-bit targets of the provider. *)
Definition wrap64 (z : Z) : Z := (z + 2 ^ 63) mod 2 ^ 64 - 2 ^ 63.
Definition int_add (a b : Z) : Z := wrap64 (a + b).
Definition int_sub (a b : Z) : Z := wrap64 (a - b).
Definition int_mul (a b : Z) : Z := wrap64 (a * b).

(** [strconv.Itoa]. *)
Definition Itoa (z : Z) : string := NilZero.string_of_int (Z.to_int z).

(** The dynamic values an [interface{}] holds in this file.  [VNum] is a
    JSON number as [encoding/json] decodes it (a float64; the model carries
    the integral ones, which is what counts and cursors are), [VInt] a Go
    [int] stored by the client, [VArr] a [[]interface{}], [VObjs] a
    [[]map[string]interface{}] and [VStrs] a [[]string]. *)
Inductive value : Type :=
| VNil
| VBool (b : bool)
| VInt (n : Z)
| VNum (n : Z)
| VStr (s : string)
| VStrs (l : list string)
| VArr (l : list value)
| VObj (m : gmap string value)
| VObjs (l : list (gmap string value)).

(** [a == b] on two interface values: [None] is the run-time panic Go
    raises when both hold the same uncomparable type. *)
Definition iface_eq (a b : value) : option bool :=
  match a, b with
  | VNil, VNil => Some true
  | VBool x, VBool y => Some (bool_decide (x = y))
  | VInt x, VInt y => Some (Z.eqb x y)
  | VNum x, VNum y => Some (Z.eqb x y)
  | VStr x, VStr y => Some (String.eqb x y)
  | VStrs _, VStrs _ | VArr _, VArr _ | VObj _, VObj _ | VObjs _, VObjs _ => None
  | _, _ => Some false
  end.

(** [v == "lit"] against a string constant. *)
Definition is_str (v : option value) (lit : string) : bool :=
  match v with Some (VStr s) => String.eqb s lit | _ => false end.

(** [v, ok := m[k]; v != nil]. *)
Definition non_nil (v : option value) : bool :=
  match v with None | Some VNil => false | Some _ => true end.

(** ** Constants of the package *)

Definition InProgress : string := "in progress".
Definition DefaultPort : Z := 443.
Definition Limit : Z := 50.
Definition Filename : string := "fingerprints.json".
Definition Second : Z := 1000000000.
Definition TimeOut : Z := Second * 10.
Definition SleepTime : Z := Second * 2.
Definition GaiaContext : string := "gaia_api".
Definition WebContext : string := "web_api".
Definition DefaultProxyPort : Z := -1.
Definition DefaultProxyHost : string := "".
Definition AutoPublishBatchSize : Z := 100.

(** ** The response object

    The struct is declared next to the response model; these are the fields
    this file reads and writes.  A nil [data] map and an empty one read the
    same, and the file never writes to a nil one. *)
Record APIResponse : Type := mkResp {
  Success : bool;
  StatusCode : string;
  data : gmap string value;
  ErrorMsg : string
}.

(** [APIResponse{}]. *)
Definition emptyResponse : APIResponse := mkResp false "" ∅ "".

(** Modelled from the spec: the two setters of the response object, which
    live with the response model outside this file; "the overall response is
    downgraded to failure and given a generic error message". *)
Definition setSuccessStatus (status : bool) (r : APIResponse) : APIResponse :=
  mkResp status (StatusCode r) (data r) (ErrorMsg r).
Definition setErrMsg (msg : string) (r : APIResponse) : APIResponse :=
  mkResp (Success r) (StatusCode r) (data r) msg.

(** The direct field assignments of this file. *)
Definition with_ErrorMsg (msg : string) (r : APIResponse) : APIResponse :=
  mkResp (Success r) (StatusCode r) (data r) msg.

Definition setStatusCode (code : string) (r : APIResponse) : APIResponse :=
  mkResp (Success r) code (data r) (ErrorMsg r).
Definition setData (d : gmap string value) (r : APIResponse) : APIResponse :=
  mkResp (Success r) (StatusCode r) d (ErrorMsg r).

(** ** The client object (the mutexes left out) *)
Record ApiClient : Type := mkClient {
  port : Z;
  isPortDefault_ : bool;
  fingerprint : string;
  sid : string;
  server : string;
  domain : string;
  proxyHost : string;
  proxyPort : Z;
  isProxyUsed : bool;
  apiVersion : string;
  ignoreServerCertificate : bool;
  acceptServerCertificate : bool;
  debugFile : string;
  httpDebugLevel : string;
  context : string;
  timeout : Z;
  sleep : Z;
  userAgent : string;
  cloudMgmtId : string;
  autoPublishBatchSize : Z;
  duringPublish : bool;
  activeCallsCtr : Z;
  totalCallsCtr : Z
}.

Definition with_fingerprint (fp : string) (c : ApiClient) : ApiClient :=
  mkClient (port c) (isPortDefault_ c) fp (sid c) (server c) (domain c)
    (proxyHost c) (proxyPort c) (isProxyUsed c) (apiVersion c)
    (ignoreServerCertificate c) (acceptServerCertificate c) (debugFile c)
    (httpDebugLevel c) (context c) (timeout c) (sleep c) (userAgent c)
    (cloudMgmtId c) (autoPublishBatchSize c) (duringPublish c)
    (activeCallsCtr c) (totalCallsCtr c).

Definition with_sid (x : string) (c : ApiClient) : ApiClient :=
  mkClient (port c) (isPortDefault_ c) (fingerprint c) x (server c) (domain c)
    (proxyHost c) (proxyPort c) (isProxyUsed c) (apiVersion c)
    (ignoreServerCertificate c) (acceptServerCertificate c) (debugFile c)
    (httpDebugLevel c) (context c) (timeout c) (sleep c) (userAgent c)
    (cloudMgmtId c) (autoPublishBatchSize c) (duringPublish c)
    (activeCallsCtr c) (totalCallsCtr c).

Definition with_domain (x : string) (c : ApiClient) : ApiClient :=
  mkClient (port c) (isPortDefault_ c) (fingerprint c) (sid c) (server c) x
    (proxyHost c) (proxyPort c) (isProxyUsed c) (apiVersion c)
    (ignoreServerCertificate c) (acceptServerCertificate c) (debugFile c)
    (httpDebugLevel c) (context c) (timeout c) (sleep c) (userAgent c)
    (cloudMgmtId c) (autoPublishBatchSize c) (duringPublish c)
    (activeCallsCtr c) (totalCallsCtr c).

Definition with_apiVersion (x : string) (c : ApiClient) : ApiClient :=
  mkClient (port c) (isPortDefault_ c) (fingerprint c) (sid c) (server c) (domain c)
    (proxyHost c) (proxyPort c) (isProxyUsed c) x
    (ignoreServerCertificate c) (acceptServerCertificate c) (debugFile c)
    (httpDebugLevel c) (context c) (timeout c) (sleep c) (userAgent c)
    (cloudMgmtId c) (autoPublishBatchSize c) (duringPublish c)
    (activeCallsCtr c) (totalCallsCtr c).

Definition with_autoPublishBatchSize (x : Z) (c : ApiClient) : ApiClient :=
  mkClient (port c) (isPortDefault_ c) (fingerprint c) (sid c) (server c) (domain c)
    (proxyHost c) (proxyPort c) (isProxyUsed c) (apiVersion c)
    (ignoreServerCertificate c) (acceptServerCertificate c) (debugFile c)
    (httpDebugLevel c) (context c) (timeout c) (sleep c) (userAgent c)
    (cloudMgmtId c) x (duringPublish c) (activeCallsCtr c) (totalCallsCtr c).

Definition with_duringPublish (x : bool) (c : ApiClient) : ApiClient :=
  mkClient (port c) (isPortDefault_ c) (fingerprint c) (sid c) (server c) (domain c)
    (proxyHost c) (proxyPort c) (isProxyUsed c) (apiVersion c)
    (ignoreServerCertificate c) (acceptServerCertificate c) (debugFile c)
    (httpDebugLevel c) (context c) (timeout c) (sleep c) (userAgent c)
    (cloudMgmtId c) (autoPublishBatchSize c) x (activeCallsCtr c) (totalCallsCtr c).

Definition with_activeCallsCtr (x : Z) (c : ApiClient) : ApiClient :=
  mkClient (port c) (isPortDefault_ c) (fingerprint c) (sid c) (server c) (domain c)
    (proxyHost c) (proxyPort c) (isProxyUsed c) (apiVersion c)
    (ignoreServerCertificate c) (acceptServerCertificate c) (debugFile c)
    (httpDebugLevel c) (context c) (timeout c) (sleep c) (userAgent c)
    (cloudMgmtId c) (autoPublishBatchSize c) (duringPublish c) x (totalCallsCtr c).

Definition with_totalCallsCtr (x : Z) (c : ApiClient) : ApiClient :=
  mkClient (port c) (isPortDefault_ c) (fingerprint c) (sid c) (server c) (domain c)
    (proxyHost c) (proxyPort c) (isProxyUsed c) (apiVersion c)
    (ignoreServerCertificate c) (acceptServerCertificate c) (debugFile c)
    (httpDebugLevel c) (context c) (timeout c) (sleep c) (userAgent c)
    (cloudMgmtId c) (autoPublishBatchSize c) (duringPublish c) (activeCallsCtr c) x.

(** The constructor's arguments (declared with the client's arguments
    outside this file), by the fields the constructor reads. *)
Record ApiClientArgs : Type := mkArgs {
  Port : Z;
  Fingerprint : string;
  Sid : string;
  Server : string;
  ProxyHost : string;
  ProxyPort : Z;
  ApiVersion : string;
  IgnoreServerCertificate : bool;
  AcceptServerCertificate : bool;
  DebugFile : string;
  HttpDebugLevel : string;
  Context : string;
  Timeout : Z;
  Sleep_ : Z;
  UserAgent : string;
  CloudMgmtId : string;
  AutoPublishBatchSize_ : Z
}.

Definition APIClient (apiCA : ApiClientArgs) : ApiClient :=
  let isPortDefault := (Port apiCA =? -1)%Z || (Port apiCA =? DefaultPort)%Z in
  let port := if isPortDefault then DefaultPort else Port apiCA in
  let proxyUsed :=
    negb (ProxyPort apiCA =? DefaultProxyPort)%Z
    && negb (String.eqb (ProxyHost apiCA) DefaultProxyHost) in
  let context := if String.eqb (Context apiCA) "" then WebContext else Context apiCA in
  let timeout :=
    if (Timeout apiCA =? -1)%Z || (Timeout apiCA =? TimeOut)%Z then TimeOut
    else int_mul (Timeout apiCA) Second in
  let sleep := if (Sleep_ apiCA =? -1)%Z then SleepTime else Sleep_ apiCA in
  let userAgent :=
    if String.eqb (UserAgent apiCA) "" then "golang-api-wrapper" else UserAgent apiCA in
  mkClient port isPortDefault (Fingerprint apiCA) (Sid apiCA) (Server apiCA) ""
    (ProxyHost apiCA) (ProxyPort apiCA) proxyUsed (ApiVersion apiCA)
    (IgnoreServerCertificate apiCA) (AcceptServerCertificate apiCA)
    (DebugFile apiCA) (HttpDebugLevel apiCA) context timeout sleep userAgent
    (CloudMgmtId apiCA) (AutoPublishBatchSize_ apiCA) false 0 0.

(** ** The HTTP request as [apiCall] builds it *)
Record Request : Type := mkReq {
  req_method : string;
  req_url : string;
  req_header : gmap string string;
  req_body : gmap string value
}.

Definition header_set (k v : string) (r : Request) : Request :=
  mkReq (req_method r) (req_url r) (<[k := v]> (req_header r)) (req_body r).

(** ** The fingerprint file, by what reading and decoding it gives *)
Inductive FileContent : Type :=
| NoFile
| NotJson
| JsonNull
| JsonMap (m : gmap string string).

(** What the client did to the world, latest first.  [EvSend] is a request
    handed to the transport, whether or not an answer comes back. *)
Inductive Event : Type :=
| EvProbe (server : string) (port : Z)
| EvWrite (content : gmap string string)
| EvAsk (question : string)
| EvSend (command : string) (r : Request)
| EvSleep (d : Z).

(** The contents written to the fingerprint file, latest first. *)
Definition writes (l : list Event) : list (gmap string string) :=
  omap (fun e => match e with EvWrite m => Some m | _ => None end) l.

(** The commands sent, oldest first. *)
Definition commands (l : list Event) : list string :=
  rev (omap (fun e => match e with EvSend command _ => Some command | _ => None end) l).

(** The requests sent, oldest first. *)
Definition requests (l : list Event) : list Request :=
  rev (omap (fun e => match e with EvSend _ r => Some r | _ => None end) l).

(** The log as a list of words, oldest first. *)
Definition story (l : list Event) : list string :=
  rev (map (fun e => match e with
                     | EvProbe _ _ => "probe"
                     | EvWrite _ => "write"
                     | EvAsk _ => "ask"
                     | EvSend command _ => command
                     | EvSleep _ => "sleep"
                     end) l).

(** ** Outcomes of a run *)
Inductive Res (S A : Type) : Type :=
| Done (a : A) (s : S)
| Panic (s : S)
| Exit (code : Z) (s : S)
| OutOfFuel.
Arguments Done {S A} a s.
Arguments Panic {S A} s.
Arguments Exit {S A} code s.
Arguments OutOfFuel {S A}.

(** The state a run ends in ([s] when the fuel ran out). *)
Definition final {S A} (r : Res S A) (s : S) : S :=
  match r with
  | Done _ s' | Panic s' | Exit _ s' => s'
  | OutOfFuel => s
  end.

Definition returned {S A} (r : Res S A) : option A :=
  match r with
  | Done a _ => Some a
  | _ => None
  end.

(** ** What the file takes from the rest of the SDK and from the network *)
Class Platform : Type := {
  ServerState : Type;
  HttpResponse : Type;
  Client : Type;
  (** [getFingerprint(server, port)]: the certificate the server presents. *)
  probe : ServerState -> string -> Z -> Err + string;
  CreateClient : string -> string -> Z -> Err + Client;
  CreateProxyClient : string -> string -> string -> Z -> Z -> Err + Client;
  (** [client.fingerprint = fp] and [client.SetDebugLevel(level)]. *)
  pin : string -> Client -> Client;
  SetDebugLevel : string -> Client -> Client;
  (** the error [http.NewRequest] reports for a URL, if any *)
  url_error : string -> option Err;
  (** [client.client.Do(req)] *)
  Do : Client -> Request -> ServerState -> (Err + HttpResponse) * ServerState;
  fromHTTPResponse : HttpResponse -> string -> Err + APIResponse;
  buildGenericErrMsg : APIResponse -> string
}.

Section Model.
Context {P : Platform}.

Record World : Type := mkWorld {
  w_srv : ServerState;
  w_file : FileContent;
  w_writable : bool;
  w_stdin : list string;
  w_log : list Event
}.

Record St : Type := mkSt { cl : ApiClient; wd : World }.

Definition M (A : Type) : Type := St -> Res St A.

Definition ret {A} (a : A) : M A := fun s => Done a s.
Definition bind {A B} (m : M A) (k : A -> M B) : M B :=
  fun s =>
    match m s with
    | Done a s' => k a s'
    | Panic s' => Panic s'
    | Exit c s' => Exit c s'
    | OutOfFuel => OutOfFuel
    end.

Notation "x <- m ; k" := (bind m (fun x => k))
  (at level 20, m at level 100, k at level 200, only parsing).
Notation "' p <- m ; k" := (bind m (fun x => match x with p => k end))
  (at level 20, p pattern, m at level 100, k at level 200, only parsing).

Definition panic {A} : M A := fun s => Panic s.
Definition os_Exit {A} (code : Z) : M A := fun s => Exit code s.
Definition out_of_fuel {A} : M A := fun _ => OutOfFuel.

Definition self : M ApiClient := fun s => Done (cl s) s.
Definition update (f : ApiClient -> ApiClient) : M unit :=
  fun s => Done tt (mkSt (f (cl s)) (wd s)).
Definition world : M World := fun s => Done (wd s) s.
Definition set_world (f : World -> World) : M unit :=
  fun s => Done tt (mkSt (cl s) (f (wd s))).

Definition emit (e : Event) : M unit :=
  set_world (fun w => mkWorld (w_srv w) (w_file w) (w_writable w) (w_stdin w) (e :: w_log w)).

(** [time.Sleep(d)] *)
Definition Sleep (d : Z) : M unit := emit (EvSleep d).

(** An [x.(T)] assertion: the value when it has the type, a panic otherwise. *)
Definition assert {A} (o : option A) : M A :=
  match o with Some a => ret a | None => panic end.

(** ** Utils *)

Definition lower_ascii (a : ascii) : ascii :=
  let n := N_of_ascii a in
  if ((65 <=? n) && (n <=? 90))%N then ascii_of_N (n + 32) else a.

Fixpoint ToLower (s : string) : string :=
  match s with
  | EmptyString => EmptyString
  | String a s' => String (lower_ascii a) (ToLower s')
  end.

(** [strings.Replace(s, ":", "", -1)] *)
Fixpoint remove_colons (s : string) : string :=
  match s with
  | EmptyString => EmptyString
  | String a s' => if Ascii.eqb a ":" then remove_colons s' else String a (remove_colons s')
  end.

(** [fmt.Scanln(&answer)]: the next line of the terminal; the answer stays
    empty when there is none. *)
Definition Scanln : M string :=
  fun s =>
    let w := wd s in
    Done (hd "" (w_stdin w))
         (mkSt (cl s) (mkWorld (w_srv w) (w_file w) (w_writable w) (tl (w_stdin w)) (w_log w))).

Definition askYesOrNoQuestion (question : string) : M bool :=
  _ <- emit (EvAsk question);
  answer <- Scanln;
  ret (String.eqb (ToLower answer) "y" || String.eqb (ToLower answer) "yes").

Definition isValidHTTPMethod (method : string) : bool :=
  existsb (fun validMethod => String.eqb method validMethod) ["GET"; "POST"; "PUT"; "DELETE"].

(** The answers [askYesOrNoQuestion] takes for a yes. *)
Definition accepts (answer : string) : bool :=
  String.eqb (ToLower answer) "y" || String.eqb (ToLower answer) "yes".

(** ** Fingerprint area *)

(** [getFingerprint(server, port)], a TLS dial to the server. *)
Definition getFingerprint (srv : string) (prt : Z) : M (string * option Err) :=
  _ <- emit (EvProbe srv prt);
  w <- world;
  match probe (w_srv w) srv prt with
  | inl e => ret ("", Some e)
  | inr fp => ret (fp, None)
  end.

Definition set_file (f : FileContent) : M unit :=
  set_world (fun w => mkWorld (w_srv w) f (w_writable w) (w_stdin w) (w_log w)).

(** [ioutil.WriteFile(Filename, json, 0644)] *)
Definition WriteFile (m : gmap string string) : M (option Err) :=
  w <- world;
  if w_writable w then _ <- set_file (JsonMap m); _ <- emit (EvWrite m); ret None
  else ret (Some "open fingerprints.json: permission denied").

Definition createEmptyJsonFile : M (option Err) :=
  w <- world;
  match w_file w with
  | NoFile =>
      if w_writable w then _ <- set_file (JsonMap ∅); _ <- emit (EvWrite ∅); ret None
      else ret (Some "open fingerprints.json: permission denied")
  | _ => ret None
  end.

(** The map is [None] for Go's nil map. *)
Definition fpFileToMap : M (option (gmap string string) * option Err) :=
  _ <- createEmptyJsonFile;
  w <- world;
  match w_file w with
  | NoFile => ret (None, Some "open fingerprints.json: no such file or directory")
  | NotJson => ret (None, Some "invalid character looking for beginning of value")
  | JsonNull => ret (None, None)
  | JsonMap m => ret (Some m, None)
  end.

Definition saveFingerprintToFile (srv : string) (fp : string) : M (option Err) :=
  '(objmap, err) <- fpFileToMap;
  match err with
  | Some e => ret (Some e)
  | None =>
      c <- self;
      if bool_decide ((objmap ≫= (.!! server c)) = Some fp) then ret None
      else
        m <- assert objmap;
        WriteFile (<[server c := fp]> m)
  end.

Definition loadFingerprintFromFile : M (string * option Err) :=
  '(objmap, err) <- fpFileToMap;
  match err with
  | Some e => ret ("", Some e)
  | None =>
      c <- self;
      match objmap ≫= (.!! server c) with
      | Some val => ret (val, None)
      | None =>
          err <- saveFingerprintToFile (server c) (fingerprint c);
          match err with
          | Some e => ret ("", Some e)
          | None => ret (fingerprint c, None)
          end
      end
  end.

Definition CheckFingerprint : M (bool * option Err) :=
  c <- self;
  if ignoreServerCertificate c then ret (true, None)
  else
    '(localFp, err) <- loadFingerprintFromFile;
    match err with
    | Some e => ret (false, Some e)
    | None =>
        '(serverFp, errFP) <- getFingerprint (server c) (port c);
        match errFP with
        | Some e => ret (false, Some e)
        | None =>
            if String.eqb (fingerprint c) serverFp then ret (true, None)
            else if String.eqb localFp ""
                    || negb (String.eqb (remove_colons localFp) (remove_colons serverFp))
            then
              if String.eqb serverFp "" then ret (false, None)
              else if acceptServerCertificate c then
                _ <- saveFingerprintToFile (server c) (fingerprint c);
                ret (true, None)
              else
                accepted <- askYesOrNoQuestion "Do you accept this fingerprint?";
                if (accepted : bool) then
                  _ <- saveFingerprintToFile (server c) serverFp;
                  _ <- update (with_fingerprint serverFp);
                  ret (true, None)
                else ret (false, None)
            else
              _ <- update (with_fingerprint serverFp);
              ret (true, None)
        end
    end.

(** ** Type assertions *)

Definition as_string (v : option value) : option string :=
  match v with Some (VStr s) => Some s | _ => None end.
Definition as_arr (v : option value) : option (list value) :=
  match v with Some (VArr l) => Some l | _ => None end.
Definition as_obj (v : value) : option (gmap string value) :=
  match v with VObj m => Some m | _ => None end.
Definition as_objs (v : option value) : option (list (gmap string value)) :=
  match v with Some (VObjs l) => Some l | _ => None end.

(** ** Task poller *)

Definition task_failed (task : gmap string value) : bool :=
  is_str (task !! "status") "failed" || is_str (task !! "status") "partially succeeded".

(** The scan of [checkTasksStatus]: whether it reached a failed task; [None]
    when a task before it is not an object. *)
Fixpoint scan_tasks (tasks : list value) : option bool :=
  match tasks with
  | [] => Some false
  | VObj task :: rest => if task_failed task then Some true else scan_tasks rest
  | _ :: _ => None
  end.

Definition checkTasksStatus (taskResult : APIResponse) : option APIResponse :=
  if non_nil (data taskResult !! "tasks") then
    tasks ← as_arr (data taskResult !! "tasks");
    found ← scan_tasks tasks;
    if (found : bool) then
      let r := setStatusCode "" (setSuccessStatus false taskResult) in
      Some (setErrMsg (buildGenericErrMsg r) r)
    else Some taskResult
  else Some taskResult.

(** The counting loop of [waitForTask]; the two counters are bounded by the
    length of the slice. *)
Fixpoint count_tasks (tasks : list value) (completedTasks totalTasks : Z) : option (Z * Z) :=
  match tasks with
  | [] => Some (completedTasks, totalTasks)
  | VObj taskMap :: rest =>
      match taskMap !! "status" with
      | None | Some VNil => count_tasks rest completedTasks (totalTasks + 1)
      | Some (VStr status) =>
          count_tasks rest
            (if String.eqb status InProgress then completedTasks else completedTasks + 1)
            (totalTasks + 1)
      | Some _ => None
      end
  | _ :: _ => None
  end.

Definition apiCallT : Type :=
  string -> option (gmap string value) -> string -> bool -> bool -> bool -> list string ->
  M (APIResponse * option Err).

Definition show_task_payload (taskId : value) : gmap string value :=
  <["details-level" := VStr "full"]> (<["task-id" := taskId]> ∅).

(** The loop [for taskResult.Success == false]: [inl e] when the function
    returns the error [e] from inside it, [inr r] when the loop is left with
    [taskResult = r]. *)
Fixpoint poll_retries (call : apiCallT) (payload : gmap string value) (fuel : nat)
    (attemptsCounter : Z) (taskResult : APIResponse) : M (Err + APIResponse) :=
  match fuel with
  | O => out_of_fuel
  | S fuel' =>
      if negb (Success taskResult) then
        if (attemptsCounter <? 5)%Z then
          c <- self;
          _ <- Sleep (sleep c);
          c <- self;
          '(taskResult', err) <- call "show-task" (Some payload) (sid c) false (isProxyUsed c) true [];
          match err with
          | Some e => ret (inl e)
          | None => poll_retries call payload fuel' (attemptsCounter + 1) taskResult'
          end
        else
          (* the branch only prints *)
          poll_retries call payload fuel' attemptsCounter taskResult
      else ret (inr taskResult)
  end.

(** The loop [for !taskComplete]. *)
Fixpoint poll_task (call : apiCallT) (payload : gmap string value) (fuel : nat)
    : M (Err + APIResponse) :=
  match fuel with
  | O => out_of_fuel
  | S fuel' =>
      c <- self;
      '(taskResult, err) <- call "show-task" (Some payload) (sid c) false (isProxyUsed c) true [];
      match err with
      | Some e => ret (inl e)
      | None =>
          r <- poll_retries call payload fuel' 0 taskResult;
          match r with
          | inl e => ret (inl e)
          | inr taskResult =>
              tasks <- assert (as_arr (data taskResult !! "tasks"));
              '(completedTasks, totalTasks) <- assert (count_tasks tasks 0 0);
              if (completedTasks =? totalTasks)%Z then ret (inr taskResult)
              else
                c <- self;
                _ <- Sleep (sleep c);
                poll_task call payload fuel'
          end
      end
  end.

Definition waitForTask_with (call : apiCallT) (fuel : nat) (taskId : string)
    : M (APIResponse * option Err) :=
  r <- poll_task call (show_task_payload (VStr taskId)) fuel;
  match r with
  | inl e => ret (emptyResponse, Some e)
  | inr taskResult =>
      taskResult <- assert (checkTasksStatus taskResult);
      ret (taskResult, None)
  end.

Fixpoint wait_each (call : apiCallT) (fuel : nat) (taskObjects : list value)
    (tasks : list string) : M (list string) :=
  match taskObjects with
  | [] => ret tasks
  | taskObj :: rest =>
      m <- assert (as_obj taskObj);
      taskId <- assert (as_string (m !! "task-id"));
      _ <- waitForTask_with call fuel taskId;
      wait_each call fuel rest (tasks ++ [taskId])%list
  end.

Definition waitForTasks_with (call : apiCallT) (fuel : nat) (taskObjects : list value)
    : M APIResponse :=
  tasks <- wait_each call fuel taskObjects [];
  c <- self;
  '(taskRes, _) <- call "show-task" (Some (show_task_payload (VStrs tasks))) (sid c) false
                     (isProxyUsed c) true [];
  assert (checkTasksStatus taskRes).

(** ** Auto-publish accounting *)

Definition gate_on (internal : bool) (c : ApiClient) : bool :=
  negb internal && (0 <? autoPublishBatchSize c)%Z.

Definition may_enter (c : ApiClient) : bool :=
  (int_add (totalCallsCtr c) 1 <=? autoPublishBatchSize c)%Z && negb (duringPublish c).

(** The loop [for waitToRun]; the test is made twice, the second time under
    [totalCallsLock]. *)
Fixpoint wait_to_run (fuel : nat) : M unit :=
  match fuel with
  | O => out_of_fuel
  | S fuel' =>
      c <- self;
      if may_enter c then
        c <- self;
        if may_enter c then update (fun c => with_totalCallsCtr (int_add (totalCallsCtr c) 1) c)
        else _ <- Sleep Second; wait_to_run fuel'
      else _ <- Sleep Second; wait_to_run fuel'
  end.

Definition increaseActiveCalls : M unit :=
  update (fun c => with_activeCallsCtr (int_add (activeCallsCtr c) 1) c).
Definition decreaseActiveCalls : M unit :=
  update (fun c => with_activeCallsCtr (int_sub (activeCallsCtr c) 1) c).

Definition ResetTotalCallsCounter : M unit := update (with_totalCallsCtr 0).
Definition DisableAutoPublish : M unit :=
  _ <- update (with_autoPublishBatchSize (-1)); update (with_totalCallsCtr 0).

(** [if !internal && c.autoPublishBatchSize > 0 { c.decreaseActiveCalls() }] *)
Definition leave (internal : bool) : M unit :=
  c <- self;
  if gate_on internal c then decreaseActiveCalls else ret tt.

Definition publish_due (c : ApiClient) : bool :=
  (0 <? totalCallsCtr c)%Z
  && (Z.rem (totalCallsCtr c) (autoPublishBatchSize c) =? 0)%Z
  && negb (duringPublish c).

(** The loop [for c.activeCallsCtr > 0]. *)
Fixpoint drain (fuel : nat) : M unit :=
  match fuel with
  | O => out_of_fuel
  | S fuel' =>
      c <- self;
      if (0 <? activeCallsCtr c)%Z then _ <- Sleep Second; drain fuel' else ret tt
  end.

(** The tail of [apiCall], lines 467-494. *)
Definition auto_publish (call : apiCallT) (fuel : nat) (internal : bool) : M unit :=
  c <- self;
  if gate_on internal c then
    _ <- decreaseActiveCalls;
    c <- self;
    if publish_due c then
      (* under autoPublishLock, the same test again *)
      c <- self;
      if publish_due c then
        _ <- update (with_duringPublish true);
        _ <- drain fuel;
        c <- self;
        '(publishRes, _) <- call "publish" (Some ∅) (sid c) true (isProxyUsed c) true [];
        _ <- update (with_totalCallsCtr 0);
        update (with_duringPublish false)
      else ret tt
    else ret tt
  else ret tt.

(** ** The call itself *)

Definition resolve_method (method : list string) : Err + string :=
  match method with
  | [] => inr "POST"
  | providedMethod :: _ =>
      if isValidHTTPMethod providedMethod then inr providedMethod
      else inl ("invalid HTTP method: " +:+ providedMethod)
  end.

Definition build_url (c : ApiClient) (command : string) : string :=
  let url := "https://" +:+ server c +:+ ":" +:+ Itoa (port c) in
  let url := if String.eqb (cloudMgmtId c) "" then url else url +:+ "/" +:+ cloudMgmtId c in
  let url := url +:+ "/" +:+ context c in
  let url := if String.eqb (apiVersion c) "" then url else url +:+ "/v" +:+ apiVersion c in
  url +:+ "/" +:+ command.

Definition build_request (c : ApiClient) (reqMethod url command sid_ : string)
    (payload : gmap string value) : Request :=
  let req := mkReq reqMethod url ∅ payload in
  let req := header_set "Content-Type" "application/json" req in
  let req := header_set "User-Agent" (userAgent c) req in
  let req := header_set "Accept" "*/*" req in
  if String.eqb command "login" then req else header_set "X-chkp-sid" sid_ req.

(** [client.client.Do(req)] *)
Definition transport (client : Client) (req : Request) : M (Err + HttpResponse) :=
  fun s =>
    let w := wd s in
    let '(r, srv') := Do client req (w_srv w) in
    Done r (mkSt (cl s) (mkWorld srv' (w_file w) (w_writable w) (w_stdin w) (w_log w))).

Definition send (client : Client) (command : string) (req : Request) : M (Err + HttpResponse) :=
  _ <- emit (EvSend command req);
  transport client req.

(** Lines 450-465: following the task or tasks of a response. *)
Definition follow_tasks (call : apiCallT) (fuel : nat) (command : string) (waitForTask : bool)
    (res : APIResponse) : M (Err + APIResponse) :=
  if waitForTask && Success res && negb (String.eqb command "show-task") then
    match data res !! "task-id" with
    | Some v =>
        taskId <- assert (as_string (Some v));
        '(res', err) <- waitForTask_with call fuel taskId;
        match err with
        | Some e => ret (inl e)
        | None => ret (inr res')
        end
    | None =>
        match data res !! "tasks" with
        | Some v =>
            tasks <- assert (as_arr (Some v));
            if (0 <? Z.of_nat (length tasks))%Z then
              res' <- waitForTasks_with call fuel tasks;
              ret (inr res')
            else ret (inr res)
        | None => ret (inr res)
        end
    end
  else ret (inr res).

(** Lines 411-496: the gate, the exchange with the server, the tasks and
    the publish cycle. *)
Definition apiCall_exchange (call : apiCallT) (fuel : nat) (command : string)
    (waitForTask internal : bool) (client : Client) (req : Request)
    : M (APIResponse * option Err) :=
  c <- self;
  _ <- (if gate_on internal c then _ <- wait_to_run fuel; increaseActiveCalls else ret tt);
  response <- send client command req;
  match response with
  | inl e => _ <- leave internal; ret (emptyResponse, Some e)
  | inr response =>
      match fromHTTPResponse response "" with
      | inl e => _ <- leave internal; ret (emptyResponse, Some e)
      | inr res =>
          let res := if negb (Success res) then with_ErrorMsg (buildGenericErrMsg res) res else res in
          r <- follow_tasks call fuel command waitForTask res;
          match r with
          | inl e => _ <- leave internal; ret (emptyResponse, Some e)
          | inr res => _ <- auto_publish call fuel internal; ret (res, None)
          end
      end
  end.

(** Lines 344-409: the trust check and the request; [inl e] when the call
    returns [APIResponse{}, e] from there.  [json.Marshal] cannot fail on a
    payload of the values above. *)
Definition apiCall_verified (command : string) (payload : option (gmap string value))
    (sid_ : string) (useProxy : bool) (reqMethod : string) : M (Err + Client * Request) :=
  '(fpAuthentication, err) <- CheckFingerprint;
  if negb fpAuthentication then
    ret (inl "fingerprint doesn't match, someone might be trying to steal your information")
  else
    match err with
    | Some e => ret (inl e)
    | None =>
        c <- self;
        let payload := default ∅ payload in
        let sid_ := if String.eqb sid_ "" then sid c else sid_ in
        match (if useProxy
               then CreateProxyClient (server c) (proxyHost c) sid_ (proxyPort c) (timeout c)
               else CreateClient (server c) sid_ (timeout c)) with
        | inl e => ret (inl e)
        | inr client =>
            let url := build_url c command in
            let client := SetDebugLevel (httpDebugLevel c) (pin (fingerprint c) client) in
            match url_error url with
            | Some e => ret (inl e)
            | None => ret (inr (client, build_request c reqMethod url command sid_ payload))
            end
        end
    end.

(** Lines 330-409: the method, the probe of the server's certificate, the
    overwrite of the configured fingerprint, and the above. *)
Definition apiCall_prepare (command : string) (payload : option (gmap string value))
    (sid_ : string) (useProxy : bool) (method : list string) : M (Err + Client * Request) :=
  match resolve_method method with
  | inl e => ret (inl e)
  | inr reqMethod =>
      c <- self;
      '(fp, errFP) <- getFingerprint (server c) (port c);
      match errFP with
      | Some e => ret (inl e)
      | None =>
          _ <- update (with_fingerprint fp);
          apiCall_verified command payload sid_ useProxy reqMethod
      end
  end.

Definition apiCall_finish (call : apiCallT) (fuel : nat) (command : string)
    (waitForTask internal : bool) (r : Err + Client * Request) : M (APIResponse * option Err) :=
  match r with
  | inl e => ret (emptyResponse, Some e)
  | inr (client, req) => apiCall_exchange call fuel command waitForTask internal client req
  end.

Definition apiCall_body (call : apiCallT) (fuel : nat) : apiCallT :=
  fun command payload sid_ waitForTask useProxy internal method =>
    r <- apiCall_prepare command payload sid_ useProxy method;
    apiCall_finish call fuel command waitForTask internal r.

(** [apiCall] calls itself (for show-task and publish) and loops; the fuel
    bounds both. *)
Fixpoint apiCall (fuel : nat) : apiCallT :=
  match fuel with
  | O => fun _ _ _ _ _ _ _ => out_of_fuel
  | S fuel' => apiCall_body (apiCall fuel') fuel'
  end.

Definition ApiCall (fuel : nat) (command : string) (payload : option (gmap string value))
    (sid_ : string) (waitForTask useProxy : bool) (method : list string)
    : M (APIResponse * option Err) :=
  apiCall fuel command payload sid_ waitForTask useProxy false method.

Definition ApiCallSimple (fuel : nat) (command : string) (payload : option (gmap string value))
    : M (APIResponse * option Err) :=
  c <- self;
  apiCall fuel command payload (sid c) true (isProxyUsed c) false [].

Definition waitForTask (fuel : nat) (taskId : string) : M (APIResponse * option Err) :=
  waitForTask_with (apiCall fuel) fuel taskId.

Definition waitForTasks (fuel : nat) (taskObjects : list value) : M APIResponse :=
  waitForTasks_with (apiCall fuel) fuel taskObjects.

(** ** Pagination engine *)

(** The three assignments to [payload] that precede every round. *)
Definition query_payload (payload : gmap string value) (detailsLevel : string)
    (iterations : Z) : gmap string value :=
  <["details-level" := VStr detailsLevel]>
    (<["offset" := VInt (int_mul iterations Limit)]>
       (<["limit" := VInt Limit]> payload)).

(** The scan of the first response, lines 612-624. *)
Definition lacks_key (containerKeys : list string) (apiRes : APIResponse) : bool :=
  existsb (fun containerKey => negb (bool_decide (is_Some (data apiRes !! containerKey))))
    containerKeys.

Fixpoint objects_of (l : list value) : option (list (gmap string value)) :=
  match l with
  | [] => Some []
  | v :: rest => m ← as_obj v; ms ← objects_of rest; Some (m :: ms)
  end.

(** Lines 640-647: the objects of one response appended to what was
    received so far, and the response rewritten to hold all of them. *)
Fixpoint collect (containerKeys : list string)
    (allObjects : gmap string (list (gmap string value))) (apiRes : APIResponse)
    : option (gmap string (list (gmap string value)) * APIResponse) :=
  match containerKeys with
  | [] => Some (allObjects, apiRes)
  | containerKey :: rest =>
      arr ← as_arr (data apiRes !! containerKey);
      objs ← objects_of arr;
      let all := (default [] (allObjects !! containerKey) ++ objs)%list in
      collect rest (<[containerKey := all]> allObjects)
        (setData (<[containerKey := VObjs all]> (data apiRes)) apiRes)
  end.

(** The loop [for !finished]. *)
Fixpoint query_rounds (call : apiCallT) (fuel : nat) (command detailsLevel : string)
    (containerKeys : list string) (payload : gmap string value) (iterations : Z)
    (allObjects : gmap string (list (gmap string value)))
    (serverResponse : list APIResponse) (apiRes : APIResponse)
    : M (list APIResponse * option Err) :=
  match fuel with
  | O => out_of_fuel
  | S fuel' =>
      if negb (Success apiRes) then os_Exit 1
      else
        let totalObjects := default VNil (data apiRes !! "total") in
        let receivedObjects :=
          match data apiRes !! "to" with
          | None | Some VNil => VNum 0
          | Some v => v
          end in
        '(allObjects, apiRes) <- assert (collect containerKeys allObjects apiRes);
        let serverResponse := (serverResponse ++ [apiRes])%list in
        stop <- assert (iface_eq totalObjects receivedObjects);
        if (stop : bool) then ret (serverResponse, None)
        else
          let iterations := int_add iterations 1 in
          let payload := query_payload payload detailsLevel iterations in
          c <- self;
          '(apiRes, err) <- call command (Some payload) (sid c) false (isProxyUsed c) true [];
          match err with
          | Some e => ret ([], Some e)
          | None =>
              query_rounds call fuel' command detailsLevel containerKeys payload iterations
                allObjects serverResponse apiRes
          end
  end.

(** The second component is what the function leaves in [*err_output].
    The function writes its three fields into the caller's own [payload] map;
    the model keeps the map it sends and leaves the caller's out. *)
Definition genApiQuery_with (call : apiCallT) (fuel : nat) (command detailsLevel : string)
    (containerKeys : list string) (payload : option (gmap string value))
    : M (list APIResponse * option Err) :=
  let containerKeys := match containerKeys with [] => ["objects"] | _ => containerKeys end in
  let allObjects : gmap string (list (gmap string value)) :=
    foldl (fun acc key => <[key := []]> acc) ∅ containerKeys in
  let payload := query_payload (default ∅ payload) detailsLevel 0 in
  c <- self;
  '(apiRes, _) <- call command (Some payload) (sid c) false (isProxyUsed c) true [];
  if lacks_key containerKeys apiRes then ret ([apiRes], None)
  else
    query_rounds call fuel command detailsLevel containerKeys payload 0 allObjects [] apiRes.

Definition genApiQuery (fuel : nat) : string -> string -> list string ->
    option (gmap string value) -> M (list APIResponse * option Err) :=
  genApiQuery_with (apiCall fuel) fuel.

(** [m[fmt.Sprintf("%d", y)] = x] over the objects. *)
Fixpoint index_objects (y : Z) (objs : list (gmap string value)) (m : gmap string value)
    : gmap string value :=
  match objs with
  | [] => m
  | x :: rest => index_objects (y + 1) rest (<[Itoa y := VObj x]> m)
  end.

Definition ApiQuery (fuel : nat) (command detailsLevel containerKey : string)
    (includeContainerKey : bool) (payload : option (gmap string value))
    : M (APIResponse * option Err) :=
  let containerKey := if String.eqb containerKey "" then "objects" else containerKey in
  '(serverResponse, err) <- genApiQuery fuel command detailsLevel [containerKey] payload;
  match err with
  | Some e => ret (emptyResponse, Some e)
  | None =>
      match last serverResponse with
      | None => ret (emptyResponse, None)
      | Some apiRes =>
          if Success apiRes && negb includeContainerKey
             && bool_decide (is_Some (data apiRes !! containerKey))
          then
            objs <- assert (as_objs (data apiRes !! containerKey));
            ret (setData (index_objects 0 objs ∅) apiRes, None)
          else ret (apiRes, None)
      end
  end.

(** ** Login *)

(** Lines 273-286: what [commonLoginLogic] adds to the credentials. *)
Definition login_credentials (c : ApiClient) (credentials : gmap string value)
    (continueLastSession : bool) (domain_ : string) (readOnly : bool)
    (payload : option (gmap string value)) : gmap string value :=
  let credentials :=
    if String.eqb (context c) WebContext
    then <["read-only" := VBool readOnly]>
           (<["continue-last-session" := VBool continueLastSession]> credentials)
    else credentials in
  let credentials :=
    if String.eqb domain_ "" then credentials else <["domain" := VStr domain_]> credentials in
  match payload with
  | Some payload => map_fold (fun k v acc => <[k := v]> acc) credentials payload
  | None => credentials
  end.

Definition commonLoginLogic (fuel : nat) (credentials : gmap string value)
    (continueLastSession : bool) (domain_ : string) (readOnly : bool)
    (payload : option (gmap string value)) : M (APIResponse * option Err) :=
  c <- self;
  let credentials := login_credentials c credentials continueLastSession domain_ readOnly payload in
  '(loginRes, errCall) <- apiCall fuel "login" (Some credentials) "" false (isProxyUsed c) true [];
  match errCall with
  | Some e => ret (loginRes, Some e)
  | None =>
      _ <- (if Success loginRes then
         s <- assert (as_string (data loginRes !! "sid"));
         _ <- update (with_sid s);
         _ <- update (with_domain domain_);
         c <- self;
         if String.eqb (apiVersion c) "" then
           v <- assert (as_string (data loginRes !! "api-server-version"));
           update (with_apiVersion v)
         else ret tt
       else ret tt);
      ret (loginRes, None)
  end.

Definition ApiLogin (fuel : nat) (username password : string) (continueLastSession : bool)
    (domain_ : string) (readOnly : bool) (payload : option (gmap string value))
    : M (APIResponse * option Err) :=
  commonLoginLogic fuel (<["password" := VStr password]> (<["user" := VStr username]> ∅))
    continueLastSession domain_ readOnly payload.

Definition ApiLoginWithApiKey (fuel : nat) (apiKey : string) (continueLastSession : bool)
    (domain_ : string) (readOnly : bool) (payload : option (gmap string value))
    : M (APIResponse * option Err) :=
  commonLoginLogic fuel (<["api-key" := VStr apiKey]> ∅)
    continueLastSession domain_ readOnly payload.

End Model.

Arguments World P : clear implicits.
Arguments St P : clear implicits.

(** [st'] differs from [st] at most by the client's fingerprint, the
    fingerprint file, the terminal and log entries other than requests. *)
Definition quiet {P : Platform} (st st' : St P) : Prop :=
  with_fingerprint "" (cl st') = with_fingerprint "" (cl st)
  /\ w_srv (wd st') = w_srv (wd st)
  /\ requests (w_log (wd st')) = requests (w_log (wd st)).

(** What a listing request asks for: limit, offset and details level. *)
Definition asked (body : gmap string value) : option value * option value * option value :=
  (body !! "limit", body !! "offset", body !! "details-level").

(** The value of [iterations] in round [k] of the pagination loop. *)
Definition iterations_in_round (k : nat) : Z := Nat.iter k (fun i => int_add i 1) 0%Z.

(** A response [apiCall] does not follow through the task poller: task
    waiting is off, or the response is a failure, or the command is
    "show-task", or the response names no task. *)
Definition unfollowed (waitForTask : bool) (command : string) (res : APIResponse) : Prop :=
  waitForTask && Success res && negb (String.eqb command "show-task") = false
  \/ (data res !! "task-id" = None /\ data res !! "tasks" = None).

(** The client once an external call is let in, and once it is over. *)
Definition entered (c : ApiClient) : ApiClient :=
  with_activeCallsCtr (int_add (activeCallsCtr c) 1)
    (with_totalCallsCtr (int_add (totalCallsCtr c) 1) c).
Definition gone (c : ApiClient) : ApiClient :=
  with_activeCallsCtr (int_sub (activeCallsCtr c) 1) c.

(** A request after_send: the server moves on and the log has the request. *)
Definition after_send {P : Platform} (c : ApiClient) (w : World P) (srv' : ServerState)
    (command : string) (req : Request) : St P :=
  mkSt c (mkWorld srv' (w_file w) (w_writable w) (w_stdin w) (EvSend command req :: w_log w)).

(** ** The port of the client *)

Definition with_port (x : Z) (c : ApiClient) : ApiClient :=
  mkClient x (isPortDefault_ c) (fingerprint c) (sid c) (server c) (domain c)
    (proxyHost c) (proxyPort c) (isProxyUsed c) (apiVersion c)
    (ignoreServerCertificate c) (acceptServerCertificate c) (debugFile c)
    (httpDebugLevel c) (context c) (timeout c) (sleep c) (userAgent c)
    (cloudMgmtId c) (autoPublishBatchSize c) (duringPublish c)
    (activeCallsCtr c) (totalCallsCtr c).

Definition with_isPortDefault_ (x : bool) (c : ApiClient) : ApiClient :=
  mkClient (port c) x (fingerprint c) (sid c) (server c) (domain c)
    (proxyHost c) (proxyPort c) (isProxyUsed c) (apiVersion c)
    (ignoreServerCertificate c) (acceptServerCertificate c) (debugFile c)
    (httpDebugLevel c) (context c) (timeout c) (sleep c) (userAgent c)
    (cloudMgmtId c) (autoPublishBatchSize c) (duringPublish c)
    (activeCallsCtr c) (totalCallsCtr c).

Definition SetPort {P : Platform} (portToSet : Z) : M unit :=
  bind (update (with_isPortDefault_ (portToSet =? DefaultPort)%Z))
    (fun _ => update (with_port portToSet)).

(** ** What a run leaves of the client *)

(** [c'] is [c] but for the fingerprint. *)
Definition same_but_fingerprint (c c' : ApiClient) : Prop :=
  with_fingerprint "" c' = with_fingerprint "" c.

(** [c'] is [c] but for the fingerprint and the counter of calls. *)
Definition same_but_fingerprint_and_count (c c' : ApiClient) : Prop :=
  with_totalCallsCtr 0 (with_fingerprint "" c') = with_totalCallsCtr 0 (with_fingerprint "" c).

(** However [m] ends, it leaves the client as it found it but for the
    fingerprint. *)
Definition frames {P : Platform} {A : Type} (m : M A) : Prop :=
  forall st : St P,
    match m st with
    | Done _ st' | Panic st' | Exit _ st' => same_but_fingerprint (cl st) (cl st')
    | OutOfFuel => True
    end.

(** The same of every internal call made through [call]. *)
Definition internal_frames {P : Platform} (call : apiCallT) : Prop :=
  forall command payload sid_ waitForTask useProxy method,
    frames (call command payload sid_ waitForTask useProxy true method).

(** ** A simulated management server

    The transport hands over responses already decoded; the server answers
    the [n]-th request it receives by a handler over [n] and the request. *)
Module Sim.

Record Server : Type := mkServer {
  cert : Err + string;
  handler : nat -> Request -> Err + APIResponse;
  served : nat
}.

#[export] Instance platform : Platform := {|
  ServerState := Server;
  HttpResponse := APIResponse;
  Client := string;
  probe := fun s _ _ => cert s;
  CreateClient := fun _ _ _ => inr "";
  CreateProxyClient := fun _ _ _ _ _ => inr "";
  pin := fun fp _ => fp;
  SetDebugLevel := fun _ c => c;
  url_error := fun _ => None;
  Do := fun _ req s => (handler s (served s) req, mkServer (cert s) (handler s) (S (served s)));
  fromHTTPResponse := fun r _ => inr r;
  buildGenericErrMsg := fun r => "APICall failed with status code " +:+ StatusCode r
|}.

Definition args : ApiClientArgs :=
  mkArgs (-1) "" "" "mgmt" DefaultProxyHost DefaultProxyPort "" true false "" "" "" (-1) (-1) "" "" 0.

(** A client that ignores the server certificate, for the scenarios in
    which only the exchange with the server matters. *)
Definition client : ApiClient := APIClient args.

Definition start (c : ApiClient) (h : nat -> Request -> Err + APIResponse) : St platform :=
  mkSt c (mkWorld (mkServer (inr "AA:BB") h 0) NoFile true [] []).

Definition ok (d : gmap string value) : Err + APIResponse := inr (mkResp true "200" d "").
Definition failure (code : string) (d : gmap string value) : Err + APIResponse :=
  inr (mkResp false code d "").

(** The command of a request, read off the URL the client builds. *)
Definition asks (c : ApiClient) (command : string) (req : Request) : bool :=
  String.eqb (req_url req) (build_url c command).

Definition task (status : string) : value := VObj (<["status" := VStr status]> ∅).
Definition tasks (statuses : list string) : gmap string value :=
  <["tasks" := VArr (map task statuses)]> ∅.

(** A listing of [total] objects, served a page at a time. *)
Definition object (i : Z) : value := VObj (<["uid" := VInt i]> ∅).
Definition page (total : Z) (req : Request) : Err + APIResponse :=
  match req_body req !! "offset", req_body req !! "limit" with
  | Some (VInt offset), Some (VInt limit) =>
      let to := Z.min total (offset + limit) in
      ok (<["objects" := VArr (map (fun i => object (offset + Z.of_nat i))
                                  (seq 1 (Z.to_nat (to - offset))))]>
            (<["from" := VNum (offset + 1)]>
               (<["to" := VNum to]> (<["total" := VNum total]> ∅))))
  | _, _ => failure "400" ∅
  end.

(** A server by its script: the [n]-th request gets the [n]-th answer. *)
Definition scripted (answers : list (Err + APIResponse)) : nat -> Request -> Err + APIResponse :=
  fun n _ => nth n answers (failure "500" ∅).

(** A server none of whose answers is a success. *)
Definition failing : nat -> Request -> Err + APIResponse :=
  fun _ _ => failure "500" ∅.

(** A client that checks the server certificate and asks the operator. *)
Definition strict_args : ApiClientArgs :=
  mkArgs (-1) "" "" "mgmt" DefaultProxyHost DefaultProxyPort "" false false "" "" "" (-1) (-1) "" "" 0.
Definition strict : ApiClient := APIClient strict_args.

Definition state (c : ApiClient) (crt : string) (h : nat -> Request -> Err + APIResponse)
    (file : FileContent) (stdin : list string) : St platform :=
  mkSt c (mkWorld (mkServer (inr crt) h 0) file true stdin []).

(** The server is on record as "AB:CD" and presents "abcd"; the operator
    is going to refuse. *)
Definition recorded_upper : St platform :=
  state strict "abcd" failing (JsonMap (<["mgmt" := "AB:CD"]> ∅)) ["no"].

(** The server is on record as "AB:CD" and presents "ABCD". *)
Definition recorded_colons : St platform :=
  state strict "ABCD" failing (JsonMap (<["mgmt" := "AB:CD"]> ∅)) [].

(** The server is on record as "AA" and presents "CC"; the operator
    refuses, then accepts. *)
Definition changed_mind : St platform :=
  state strict "CC" failing (JsonMap (<["mgmt" := "AA"]> ∅)) ["n"; "y"].

(** The same, the operator accepting both times. *)
Definition accepting : St platform :=
  state strict "CC" failing (JsonMap (<["mgmt" := "AA"]> ∅)) ["y"; "y"].

(** A show-task response with sub-tasks of the given statuses. *)
Definition polled (statuses : list string) : APIResponse := mkResp true "200" (tasks statuses) "".

(** A task whose second sub-task finishes between two polls. *)
Definition finishing : St platform :=
  start client (scripted [inr (polled ["succeeded"; "in progress"]);
                          inr (polled ["succeeded"; "succeeded"])]).

(** A task one of whose sub-tasks failed. *)
Definition failed_task : St platform :=
  start client (scripted [inr (polled ["succeeded"; "failed"])]).

(** A task one of whose sub-tasks succeeded in part, and one whose
    sub-tasks all succeeded. *)
Definition partly_failed_task : St platform :=
  start client (scripted [inr (polled ["partially succeeded"; "succeeded"])]).
Definition succeeded_task : St platform :=
  start client (scripted [inr (polled ["succeeded"; "succeeded"])]).

(** A client that ignores the server certificate and publishes after
    every [n] calls. *)
Definition batching (n : Z) : ApiClient :=
  APIClient (mkArgs (-1) "" "" "mgmt" DefaultProxyHost DefaultProxyPort "" true false "" "" ""
               (-1) (-1) "" "" n).

(** A server that drops the connection of the first request. *)
Definition dropping : nat -> Request -> Err + APIResponse :=
  fun n _ => match n with O => inl "connection reset by peer" | _ => ok ∅ end.

Definition dropped : St platform := start (batching 1) dropping.

(** [k] external calls, one after the other. *)
Fixpoint calls (k : nat) : M unit :=
  match k with
  | O => ret tt
  | S k' => bind (ApiCall 3 "add-host" None "" true false []) (fun _ => calls k')
  end.

Definition steady : St platform := start (batching 2) (fun _ _ => ok ∅).

(** A listing of 120 objects. *)
Definition paging : St platform := start client (fun _ => page 120).

(** The same listing, the server failing from the second page on. *)
Definition second_page_fails : nat -> Request -> Err + APIResponse :=
  fun n req => match n with O => page 120 req | _ => failure "500" ∅ end.
Definition paging_broken : St platform := start client second_page_fails.

(** A server that refuses everything. *)
Definition refused : St platform := start client failing.

(** The transport handle and the request a prepared call is about to use. *)
Definition handle_of (r : Res (St platform) (Err + string * Request)) : string :=
  match returned r with Some (inr (h, _)) => h | _ => "" end.
Definition request_of (r : Res (St platform) (Err + string * Request)) : Request :=
  match returned r with Some (inr (_, q)) => q | _ => mkReq "" "" ∅ ∅ end.

(** A server whose login response names a task. *)
Definition session : gmap string value :=
  <["task-id" := VStr "T1"]>
    (<["api-server-version" := VStr "1.9"]> (<["sid" := VStr "S1"]> ∅)).
Definition login_server : nat -> Request -> Err + APIResponse :=
  fun _ req => if asks client "login" req then ok session else inr (polled ["succeeded"]).
Definition logging_in : St platform := start client login_server.
Definition admin : gmap string value :=
  <["password" := VStr "secret"]> (<["user" := VStr "admin"]> ∅).

(** A server that answers every request with an empty success. *)
Definition obliging : nat -> Request -> Err + APIResponse := fun _ _ => ok ∅.

(** The batching client between two calls, [t] calls into the batch, and
    the state it is in. *)
Definition counting (N t : Z) (fp : string) : ApiClient :=
  with_totalCallsCtr t (with_fingerprint fp (batching N)).
Definition between_calls (N t : Z) (fp : string) (n : nat) (log : list Event) : St platform :=
  mkSt (counting N t fp) (mkWorld (mkServer (inr "AA:BB") obliging n) NoFile true [] log).

(** The publish calls among the commands sent. *)
Definition publishes (l : list Event) : nat :=
  length (List.filter (fun command => String.eqb command "publish") (commands l)).

(** The states the client is in while it polls the [failing] server. *)
Definition polling_failing (st : St platform) : Prop :=
  exists x n file wr stdin log,
    st = mkSt (with_fingerprint x client)
           (mkWorld (mkServer (inr "AA:BB") failing n) file wr stdin log).

(** The server is not on record and presents "CC"; the operator is going
    to refuse. *)
Definition unrecorded : St platform := state strict "CC" failing (JsonMap ∅) ["n"].

(** The fingerprint file is not JSON; the fingerprint file holds [null]. *)
Definition unreadable : St platform := state strict "CC" failing NotJson [].
Definition null_file : St platform := state strict "CC" failing JsonNull [].

(** A client configured with the fingerprint "AA" that accepts whatever
    certificate the server presents; the server is on record as "BB" and
    presents "CC". *)
Definition trusting : ApiClient :=
  APIClient (mkArgs (-1) "AA" "" "mgmt" DefaultProxyHost DefaultProxyPort "" false true "" ""
               "" (-1) (-1) "" "" 0).
Definition changed : St platform :=
  state trusting "CC" failing (JsonMap (<["mgmt" := "BB"]> ∅)) [].

(** The server is on record as "AA" and presents "CC", the operator
    accepts and the file cannot be written. *)
Definition read_only : St platform :=
  mkSt strict (mkWorld (mkServer (inr "CC") failing 0) (JsonMap (<["mgmt" := "AA"]> ∅)) false
                 ["y"] []).

(** The objects [a+1 .. a+cnt] of a listing, and the listing of [total]
    objects. *)
Definition host (i : Z) : gmap string value := <["uid" := VInt i]> ∅.
Definition span (a : Z) (cnt : nat) : list (gmap string value) :=
  map (fun i => host (a + Z.of_nat i)) (seq 1 cnt).
Definition listing (total : Z) : St platform := start client (fun _ => page total).

(** The page of that listing that starts after object [o]. *)
Definition page_from (total o : Z) : APIResponse :=
  mkResp true "200"
    (<["objects" := VArr (map VObj (span o (Z.to_nat (Z.min total (o + 50) - o))))]>
       (<["from" := VNum (o + 1)]>
          (<["to" := VNum (Z.min total (o + 50))]> (<["total" := VNum total]> ∅)))) "".

(** A server whose listings carry objects and no counts. *)
Definition uncounted_page : APIResponse := mkResp true "200" (<["objects" := VArr []]> ∅) "".
Definition bare : nat -> Request -> Err + APIResponse := fun _ _ => inr uncounted_page.

(** A listing whose first request is dropped, and one whose second is. *)
Definition cut_off : St platform := start client dropping.
Definition second_page_drops : nat -> Request -> Err + APIResponse :=
  fun n req => match n with O => page 120 req | _ => inl "connection reset by peer" end.
Definition cut_short : St platform := start client second_page_drops.

(** A task whose first two polls fail, and the states in which the server
    has [k] more failures to give. *)
Definition recovering : nat -> Request -> Err + APIResponse :=
  scripted [failure "500" ∅; failure "500" ∅; inr (polled ["succeeded"])].
Definition failures_left (k : nat) (st : St platform) : Prop :=
  exists x file wr stdin log,
    st = mkSt (with_fingerprint x client)
           (mkWorld (mkServer (inr "AA:BB") recovering (2 - k)) file wr stdin log).

End Sim.

(** * Properties *)

(** ** Fingerprint area *)

Section Fingerprints.
Context {P : Platform}.

Ltac mrun :=
  cbn [bind ret self world update set_world emit set_file
       WriteFile assert panic out_of_fuel os_Exit Sleep Scanln
       cl wd w_srv w_file w_writable w_stdin w_log fst snd option_bind mbind] in *;
  cbv beta delta [ret panic os_Exit out_of_fuel] in *.

Lemma fpFileToMap_eq c srv file wr stdin log :
  fpFileToMap (mkSt c (mkWorld srv file wr stdin log)) =
  match file with
  | NoFile =>
      if wr then Done (Some ∅, None) (mkSt c (mkWorld srv (JsonMap ∅) wr stdin (EvWrite ∅ :: log)))
      else Done (None, Some "open fingerprints.json: no such file or directory")
             (mkSt c (mkWorld srv file wr stdin log))
  | NotJson => Done (None, Some "invalid character looking for beginning of value")
                 (mkSt c (mkWorld srv file wr stdin log))
  | JsonNull => Done (None, None) (mkSt c (mkWorld srv file wr stdin log))
  | JsonMap m => Done (Some m, None) (mkSt c (mkWorld srv file wr stdin log))
  end.
Proof. destruct file, wr; reflexivity. Qed.

(** A save writes the file unless the server is recorded with that very
    fingerprint; on a file holding [null] it panics (assignment to a nil
    map). *)
Lemma saveFingerprintToFile_eq x fp c srv file wr stdin log :
  saveFingerprintToFile x fp (mkSt c (mkWorld srv file wr stdin log)) =
  match file with
  | NoFile =>
      if wr then Done None (mkSt c (mkWorld srv (JsonMap (<[server c := fp]> ∅)) wr stdin
                                      (EvWrite (<[server c := fp]> ∅) :: EvWrite ∅ :: log)))
      else Done (Some "open fingerprints.json: no such file or directory")
             (mkSt c (mkWorld srv file wr stdin log))
  | NotJson => Done (Some "invalid character looking for beginning of value")
                 (mkSt c (mkWorld srv file wr stdin log))
  | JsonNull => Panic (mkSt c (mkWorld srv file wr stdin log))
  | JsonMap m =>
      if bool_decide (m !! server c = Some fp) then Done None (mkSt c (mkWorld srv file wr stdin log))
      else if wr then Done None (mkSt c (mkWorld srv (JsonMap (<[server c := fp]> m)) wr stdin
                                           (EvWrite (<[server c := fp]> m) :: log)))
      else Done (Some "open fingerprints.json: permission denied")
             (mkSt c (mkWorld srv file wr stdin log))
  end.
Proof.
  unfold saveFingerprintToFile. unfold bind at 1.
  rewrite fpFileToMap_eq.
  destruct file, wr; try reflexivity; mrun; case_bool_decide; reflexivity.
Qed.

Lemma loadFingerprintFromFile_eq c srv file wr stdin log :
  loadFingerprintFromFile (mkSt c (mkWorld srv file wr stdin log)) =
  match file with
  | NoFile =>
      if wr then Done (fingerprint c, None)
                   (mkSt c (mkWorld srv (JsonMap (<[server c := fingerprint c]> ∅)) wr stdin
                              (EvWrite (<[server c := fingerprint c]> ∅) :: EvWrite ∅ :: log)))
      else Done ("", Some "open fingerprints.json: no such file or directory")
             (mkSt c (mkWorld srv file wr stdin log))
  | NotJson => Done ("", Some "invalid character looking for beginning of value")
                 (mkSt c (mkWorld srv file wr stdin log))
  | JsonNull => Panic (mkSt c (mkWorld srv file wr stdin log))
  | JsonMap m =>
      match m !! server c with
      | Some val => Done (val, None) (mkSt c (mkWorld srv file wr stdin log))
      | None =>
          if wr then Done (fingerprint c, None)
                       (mkSt c (mkWorld srv (JsonMap (<[server c := fingerprint c]> m)) wr stdin
                                  (EvWrite (<[server c := fingerprint c]> m) :: log)))
          else Done ("", Some "open fingerprints.json: permission denied")
                 (mkSt c (mkWorld srv file wr stdin log))
      end
  end.
Proof.
  unfold loadFingerprintFromFile. unfold bind at 1.
  rewrite fpFileToMap_eq.
  destruct file, wr; try reflexivity; mrun.
  - destruct (m !! server c) eqn:Hm; [reflexivity|].
    unfold bind at 1. rewrite saveFingerprintToFile_eq, Hm.
    rewrite bool_decide_eq_false_2 by done. reflexivity.
  - destruct (m !! server c) eqn:Hm; [reflexivity|].
    unfold bind at 1. rewrite saveFingerprintToFile_eq, Hm.
    rewrite bool_decide_eq_false_2 by done. reflexivity.
Qed.

Lemma getFingerprint_eq x p c srv file wr stdin log :
  getFingerprint x p (mkSt c (mkWorld srv file wr stdin log)) =
  Done (match probe srv x p with inl e => ("", Some e) | inr fp => (fp, None) end)
    (mkSt c (mkWorld srv file wr stdin (EvProbe x p :: log))).
Proof. unfold getFingerprint. mrun. destruct (probe srv x p); reflexivity. Qed.

Lemma askYesOrNoQuestion_eq q c srv file wr stdin log :
  askYesOrNoQuestion q (mkSt c (mkWorld srv file wr stdin log)) =
  Done (accepts (hd "" stdin)) (mkSt c (mkWorld srv file wr (tl stdin) (EvAsk q :: log))).
Proof. reflexivity. Qed.

Ltac use_eqs :=
  repeat match goal with
  | H : ?x = _ |- context [?x] => rewrite H
  end.

(** Symbolic execution of the fingerprint functions, in the goal and in a
    hypothesis. *)
Ltac exec :=
  repeat first
    [ rewrite loadFingerprintFromFile_eq
    | rewrite saveFingerprintToFile_eq
    | rewrite getFingerprint_eq
    | rewrite askYesOrNoQuestion_eq
    | rewrite lookup_insert_eq
    | rewrite bool_decide_eq_true_2 by reflexivity
    | rewrite String.eqb_refl
    | progress mrun
    | progress unfold bind
    | progress cbn [negb orb andb fingerprint server port ignoreServerCertificate
                    acceptServerCertificate with_fingerprint]
    | progress use_eqs ].

Ltac exec_in H :=
  repeat first
    [ rewrite loadFingerprintFromFile_eq in H
    | rewrite saveFingerprintToFile_eq in H
    | rewrite getFingerprint_eq in H
    | rewrite askYesOrNoQuestion_eq in H
    | rewrite lookup_insert_eq in H
    | rewrite bool_decide_eq_true_2 in H by reflexivity
    | progress mrun
    | progress unfold bind in H ].

Ltac split_in H :=
  match type of H with
  | context [match ?x with _ => _ end] =>
      lazymatch x with
      | context [match _ with _ => _ end] => fail
      | _ => destruct x eqn:?
      end
  end.

Ltac split_goal :=
  match goal with
  | |- context [match ?x with _ => _ end] =>
      lazymatch x with
      | context [match _ with _ => _ end] => fail
      | _ => destruct x eqn:?
      end
  end.

(** C9 (as amended).  Verifying twice in a row, the server presenting the
    same certificate and the operator answering a repeated question the same
    way, gives the same decision both times, and the second verification
    leaves the fingerprint file as it is and writes nothing. *)
Theorem CheckFingerprint_idempotent (st st1 : St P) (d : bool * option Err) :
  CheckFingerprint st = Done d st1 ->
  accepts (hd "" (tl (w_stdin (wd st)))) = accepts (hd "" (w_stdin (wd st))) ->
  exists st2,
    CheckFingerprint st1 = Done d st2
    /\ w_file (wd st2) = w_file (wd st1)
    /\ writes (w_log (wd st2)) = writes (w_log (wd st1)).
Proof.
  destruct st as [c [srv file wr stdin log]].
  intros H Hans. unfold CheckFingerprint in H.
  repeat (exec_in H; try split_in H).
  all: simplify_eq.
  all: unfold CheckFingerprint; repeat (exec; try split_goal).
  all: solve [eauto | congruence].
Qed.

(** C4 (as amended).  A recorded fingerprint that is not empty and equals
    the server's once the colons are removed, letter case included, is a
    match: the check trusts the server without a question to the operator
    and without a write, and the client's fingerprint becomes the server's. *)
Theorem CheckFingerprint_colon_insensitive (st : St P) (m : gmap string string)
    (localFp serverFp : string) :
  ignoreServerCertificate (cl st) = false ->
  w_file (wd st) = JsonMap m ->
  m !! server (cl st) = Some localFp ->
  probe (w_srv (wd st)) (server (cl st)) (port (cl st)) = inr serverFp ->
  localFp <> "" ->
  remove_colons localFp = remove_colons serverFp ->
  CheckFingerprint st =
  Done (true, None)
    (mkSt (with_fingerprint serverFp (cl st))
       (mkWorld (w_srv (wd st)) (w_file (wd st)) (w_writable (wd st)) (w_stdin (wd st))
          (EvProbe (server (cl st)) (port (cl st)) :: w_log (wd st)))).
Proof.
  destruct st as [c [srv file wr stdin log]]. cbn [cl wd w_srv w_file w_writable w_stdin w_log].
  intros Hig -> Hm Hp Hne Hcol.
  apply String.eqb_neq in Hne.
  unfold CheckFingerprint. exec.
  destruct (fingerprint c =? serverFp) eqn:Hfp; [|reflexivity].
  apply String.eqb_eq in Hfp. destruct c; cbn in *; subst; reflexivity.
Qed.

Lemma CheckFingerprint_ignoring (st : St P) :
  ignoreServerCertificate (cl st) = true -> CheckFingerprint st = Done (true, None) st.
Proof. intros H. unfold CheckFingerprint. exec. reflexivity. Qed.

(** C10.  A call with an acceptable method first probes the server's
    certificate.  When the probe fails the call returns the probe's error:
    no request is sent, and nothing but the probe is logged.  When it gives a
    fingerprint, that fingerprint replaces the configured one and the trust
    check and the rest of the call run from there, so that the fingerprint
    configured before has no influence on the call; with
    [ignoreServerCertificate] set the overwrite happens all the same and the
    probed fingerprint is the one the client holds when the request is
    built. *)
Theorem apiCall_probe_overwrites_fingerprint (fuel : nat) (command : string)
    (payload : option (gmap string value)) (sid_ : string)
    (waitForTask useProxy internal : bool) (method : list string) (reqMethod : string)
    (st : St P) :
  resolve_method method = inr reqMethod ->
  let c := cl st in
  let probed :=
    mkWorld (w_srv (wd st)) (w_file (wd st)) (w_writable (wd st)) (w_stdin (wd st))
      (EvProbe (server c) (port c) :: w_log (wd st)) in
  match probe (w_srv (wd st)) (server c) (port c) with
  | inl e =>
      apiCall (S fuel) command payload sid_ waitForTask useProxy internal method st
      = Done (emptyResponse, Some e) (mkSt c probed)
  | inr fp =>
      apiCall (S fuel) command payload sid_ waitForTask useProxy internal method st
      = bind (apiCall_verified command payload sid_ useProxy reqMethod)
          (apiCall_finish (apiCall fuel) fuel command waitForTask internal)
          (mkSt (with_fingerprint fp c) probed)
      /\ (forall x,
            apiCall (S fuel) command payload sid_ waitForTask useProxy internal method
              (mkSt (with_fingerprint x c) (wd st))
            = apiCall (S fuel) command payload sid_ waitForTask useProxy internal method st)
      /\ (ignoreServerCertificate c = true ->
          forall r st',
            apiCall_verified command payload sid_ useProxy reqMethod
              (mkSt (with_fingerprint fp c) probed) = Done r st' ->
            fingerprint (cl st') = fp)
  end.
Proof.
  intros Hm c probed. subst c probed.
  destruct st as [c [srv file wr stdin log]]. cbn [cl wd w_srv w_file w_writable w_stdin w_log].
  assert (Hrun : forall x,
    apiCall (S fuel) command payload sid_ waitForTask useProxy internal method
      (mkSt (with_fingerprint x c) (mkWorld srv file wr stdin log))
    = match probe srv (server c) (port c) with
      | inl e => Done (emptyResponse, Some e)
                   (mkSt (with_fingerprint x c)
                      (mkWorld srv file wr stdin (EvProbe (server c) (port c) :: log)))
      | inr fp =>
          bind (apiCall_verified command payload sid_ useProxy reqMethod)
            (apiCall_finish (apiCall fuel) fuel command waitForTask internal)
            (mkSt (with_fingerprint fp c)
               (mkWorld srv file wr stdin (EvProbe (server c) (port c) :: log)))
      end).
  { intros x. cbn [apiCall]. unfold apiCall_body, apiCall_prepare. rewrite Hm.
    unfold bind at 1. unfold bind at 1. unfold bind at 1. cbn [self cl].
    rewrite getFingerprint_eq. cbn [server port with_fingerprint].
    destruct (probe srv (server c) (port c)); reflexivity. }
  assert (Hid : with_fingerprint (fingerprint c) c = c) by (destruct c; reflexivity).
  pose proof (Hrun (fingerprint c)) as H0. rewrite Hid in H0.
  destruct (probe srv (server c) (port c)) as [e|fp] eqn:Hp; [exact H0|].
  split; [exact H0|]. split.
  - intros x. rewrite Hrun, H0. reflexivity.
  - intros Hig r st' H. unfold apiCall_verified in H. unfold bind at 1 in H.
    rewrite CheckFingerprint_ignoring in H by exact Hig.
    cbn [negb] in H. unfold bind in H. cbn [self cl] in H.
    repeat (split_in H; try discriminate).
    all: unfold ret in H; simplify_eq; reflexivity.
Qed.

(** The trust check touches neither the server nor the counters of the
    client, and sends nothing. *)
Lemma CheckFingerprint_quiet (st : St P) :
  match CheckFingerprint st with
  | Done _ st' | Panic st' | Exit _ st' => quiet st st'
  | OutOfFuel => False
  end.
Proof.
  destruct st as [c [srv file wr stdin log]].
  unfold CheckFingerprint. repeat (exec; try split_goal).
  all: unfold quiet; cbn [cl wd w_srv w_log requests omap]; repeat split.
  all: destruct c; reflexivity.
Qed.

Lemma apiCall_prepare_quiet (command : string) (payload : option (gmap string value))
    (sid_ : string) (useProxy : bool) (method : list string) (st : St P) :
  match apiCall_prepare command payload sid_ useProxy method st with
  | Done r st' =>
      quiet st st'
      /\ forall client req, r = inr (client, req) -> req_body req = default ∅ payload
  | Panic st' | Exit _ st' => quiet st st'
  | OutOfFuel => False
  end.
Proof.
  assert (Hrefl : forall s : St P, quiet s s) by (intros s; repeat split).
  destruct st as [c [srv file wr stdin log]].
  unfold apiCall_prepare. destruct (resolve_method method) as [e|reqMethod].
  { cbn. split; [apply Hrefl|discriminate]. }
  unfold bind at 1. cbn [self cl]. unfold bind at 1. rewrite getFingerprint_eq.
  destruct (probe srv (server c) (port c)) as [e|fp].
  { cbn. split; [|discriminate]. repeat split. }
  unfold bind at 1. cbn [update cl wd]. unfold apiCall_verified. unfold bind at 1.
  match goal with |- context [CheckFingerprint ?s] =>
    pose proof (CheckFingerprint_quiet s) as Hq; destruct (CheckFingerprint s) as [[ok err] s'| | |]
  end; try contradiction.
  2, 3: destruct Hq as (Hc & Hs & Hr); repeat split; cbn [cl wd w_srv w_log] in *;
        [destruct c; exact Hc | exact Hs | exact Hr].
  assert (Hq' : quiet (mkSt c (mkWorld srv file wr stdin log)) s').
  { destruct Hq as (Hc & Hs & Hr); repeat split; cbn [cl wd w_srv w_log] in *;
      [destruct c; exact Hc | exact Hs | exact Hr]. }
  destruct ok; cbn [negb]; [|cbn; split; [exact Hq'|discriminate]].
  destruct err as [e|]; [cbn; split; [exact Hq'|discriminate]|].
  unfold bind at 1. cbn [self].
  destruct useProxy.
  - destruct (CreateProxyClient _ _ _ _ _); [cbn; split; [exact Hq'|discriminate]|].
    destruct (url_error _); cbn; (split; [exact Hq'|]); [discriminate|].
    intros client req H. simplify_eq. unfold build_request.
    destruct (command =? "login"); reflexivity.
  - destruct (CreateClient _ _ _); [cbn; split; [exact Hq'|discriminate]|].
    destruct (url_error _); cbn; (split; [exact Hq'|]); [discriminate|].
    intros client req H. simplify_eq. unfold build_request.
    destruct (command =? "login"); reflexivity.
Qed.

(** *** The method and the request of a call *)

Lemma isValidHTTPMethod_spec (method : string) :
  isValidHTTPMethod method = true <-> In method ["GET"; "POST"; "PUT"; "DELETE"].
Proof.
  unfold isValidHTTPMethod. rewrite existsb_exists. split.
  - intros (x & Hx & He). apply String.eqb_eq in He. subst. exact Hx.
  - intros H. exists method. split; [exact H|apply String.eqb_refl].
Qed.

(** X1.  A call whose first method argument is not one of GET, POST, PUT
    and DELETE, written so, returns the empty response with the error that
    names the method, and does nothing else: the server is not probed, no
    request is built, the client is as it was. *)
Theorem apiCall_rejects_unknown_method (fuel : nat) (command : string)
    (payload : option (gmap string value)) (sid_ : string)
    (waitForTask useProxy internal : bool) (providedMethod : string) (others : list string)
    (st : St P) :
  ~ In providedMethod ["GET"; "POST"; "PUT"; "DELETE"] ->
  apiCall (S fuel) command payload sid_ waitForTask useProxy internal
    (providedMethod :: others) st
  = Done (emptyResponse, Some ("invalid HTTP method: " +:+ providedMethod)) st.
Proof.
  intros H. rewrite <- isValidHTTPMethod_spec in H. apply not_true_is_false in H.
  cbn [apiCall]. unfold apiCall_body, apiCall_prepare, resolve_method. rewrite H.
  reflexivity.
Qed.

Lemma quiet_client (c c' : ApiClient) :
  with_fingerprint "" c' = with_fingerprint "" c -> c' = with_fingerprint (fingerprint c') c.
Proof. destruct c, c'. cbn. intros H. simplify_eq. reflexivity. Qed.

Lemma build_url_with_fingerprint (x : string) (c : ApiClient) (command : string) :
  build_url (with_fingerprint x c) command = build_url c command.
Proof. destruct c; reflexivity. Qed.

Lemma build_request_with_fingerprint (x : string) (c : ApiClient)
    (reqMethod url command s : string) (p : gmap string value) :
  build_request (with_fingerprint x c) reqMethod url command s p
  = build_request c reqMethod url command s p.
Proof. destruct c; reflexivity. Qed.

Lemma resolve_method_hd (method : list string) (reqMethod : string) :
  resolve_method method = inr reqMethod ->
  reqMethod = hd "POST" method /\ In reqMethod ["GET"; "POST"; "PUT"; "DELETE"].
Proof.
  destruct method as [|m rest]; cbn [resolve_method hd].
  - intros H. simplify_eq. split; [reflexivity|]. right; left; reflexivity.
  - destruct (isValidHTTPMethod m) eqn:Hm; intros H; simplify_eq.
    split; [reflexivity|]. apply isValidHTTPMethod_spec. exact Hm.
Qed.

Lemma build_request_header (c : ApiClient) (reqMethod url command s : string)
    (p : gmap string value) (k : string) :
  req_header (build_request c reqMethod url command s p) !! k
  = if String.eqb k "X-chkp-sid" then (if String.eqb command "login" then None else Some s)
    else if String.eqb k "Accept" then Some "*/*"
    else if String.eqb k "User-Agent" then Some (userAgent c)
    else if String.eqb k "Content-Type" then Some "application/json"
    else None.
Proof.
  unfold build_request, header_set.
  destruct (String.eqb command "login"); cbn [req_header];
    (destruct (String.eqb_spec k "X-chkp-sid") as [->|H1];
     [|destruct (String.eqb_spec k "Accept") as [->|H2];
       [|destruct (String.eqb_spec k "User-Agent") as [->|H3];
         [|destruct (String.eqb_spec k "Content-Type") as [->|H4]]]]);
    repeat first [rewrite lookup_insert_eq | rewrite lookup_insert_ne by congruence];
    reflexivity.
Qed.

(** X2.  The request a call hands to the transport: its method is the
    first method argument, POST when there is none; its URL is built from
    the client as it was when the call began; its body is the payload, the
    empty object for a nil payload; its headers are the content type, the
    user agent, the accept header and, for every command but "login", the
    session id given, or the client's own when the one given is empty.  The
    login request carries no session header. *)
Theorem apiCall_prepare_builds_request (command : string)
    (payload : option (gmap string value)) (sid_ : string) (useProxy : bool)
    (method : list string) (st st' : St P) (client : Client) (req : Request) :
  apiCall_prepare command payload sid_ useProxy method st = Done (inr (client, req)) st' ->
  let c := cl st in
  let sid' := if String.eqb sid_ "" then sid c else sid_ in
  req_method req = hd "POST" method
  /\ In (req_method req) ["GET"; "POST"; "PUT"; "DELETE"]
  /\ req_url req = build_url c command
  /\ req_body req = default ∅ payload
  /\ forall k,
       req_header req !! k
       = if String.eqb k "X-chkp-sid"
         then (if String.eqb command "login" then None else Some sid')
         else if String.eqb k "Accept" then Some "*/*"
         else if String.eqb k "User-Agent" then Some (userAgent c)
         else if String.eqb k "Content-Type" then Some "application/json"
         else None.
Proof.
  intros H c sid'. subst c sid'.
  unfold apiCall_prepare in H.
  destruct (resolve_method method) as [e|reqMethod] eqn:Hm; [discriminate|].
  apply resolve_method_hd in Hm. destruct Hm as [Hhd Hin].
  destruct st as [c [srv file wr stdin log]].
  unfold bind at 1 in H. cbn [self cl] in H. unfold bind at 1 in H.
  rewrite getFingerprint_eq in H.
  destruct (probe srv (server c) (port c)) as [e|fp]; [discriminate|].
  unfold bind at 1 in H. cbn [update cl wd] in H.
  unfold apiCall_verified in H. unfold bind at 1 in H.
  match type of H with context [CheckFingerprint ?s] =>
    pose proof (CheckFingerprint_quiet s) as Hq;
    destruct (CheckFingerprint s) as [[ok err] s1| | |]
  end; try discriminate.
  destruct Hq as (Hc & _ & _). cbn [cl] in Hc.
  assert (Hc1 : cl s1 = with_fingerprint (fingerprint (cl s1)) c).
  { apply quiet_client. rewrite Hc. destruct c; reflexivity. }
  destruct ok; cbn [negb] in H; [|discriminate].
  destruct err as [e|]; [discriminate|].
  unfold bind at 1 in H. cbn [self] in H. rewrite Hc1 in H.
  rewrite build_url_with_fingerprint, build_request_with_fingerprint in H.
  assert (Hsid : sid (with_fingerprint (fingerprint (cl s1)) c) = sid c)
    by (destruct c; reflexivity).
  rewrite Hsid in H. cbn [cl].
  match type of H with context [match ?x with inl _ => _ | inr _ => _ end] =>
    destruct x as [e|client0]
  end; [discriminate|].
  destruct (url_error (build_url c command)); [discriminate|].
  unfold ret in H. simplify_eq.
  split; [unfold build_request; destruct (String.eqb command "login"); reflexivity|].
  split; [unfold build_request; destruct (String.eqb command "login"); exact Hin|].
  split; [unfold build_request; destruct (String.eqb command "login"); reflexivity|].
  split; [unfold build_request; destruct (String.eqb command "login"); reflexivity|].
  intros k. apply build_request_header.
Qed.

(** *** The trust check inside a call *)

Ltac fields c :=
  repeat match goal with
  | |- context [?f (with_fingerprint ?x c)] =>
      lazymatch f with
      | fingerprint => fail
      | _ => replace (f (with_fingerprint x c)) with (f c) by (destruct c; reflexivity)
      end
  end.

(** X3.  Inside a call the trust check never compares the fingerprint on
    record: the call has just overwritten the client's fingerprint with the
    one the server presents, so the check finds the two equal and trusts the
    server.  Whatever is recorded for the server, the operator is not asked,
    the file is not written, and the transport is pinned to the fingerprint
    the server presented.  (The server presents the same certificate to the
    two probes of the call.) *)
Theorem apiCall_prepare_never_compares_record (command : string)
    (payload : option (gmap string value)) (sid_ : string) (useProxy : bool)
    (method : list string) (reqMethod : string) (st : St P) (m : gmap string string)
    (recorded fp : string) (client0 : Client) :
  let c := cl st in
  let sid' := if String.eqb sid_ "" then sid c else sid_ in
  resolve_method method = inr reqMethod ->
  ignoreServerCertificate c = false ->
  w_file (wd st) = JsonMap m ->
  m !! server c = Some recorded ->
  probe (w_srv (wd st)) (server c) (port c) = inr fp ->
  (if useProxy then CreateProxyClient (server c) (proxyHost c) sid' (proxyPort c) (timeout c)
   else CreateClient (server c) sid' (timeout c)) = inr client0 ->
  url_error (build_url c command) = None ->
  apiCall_prepare command payload sid_ useProxy method st
  = Done (inr (SetDebugLevel (httpDebugLevel c) (pin fp client0),
               build_request c reqMethod (build_url c command) command sid' (default ∅ payload)))
      (mkSt (with_fingerprint fp c)
         (mkWorld (w_srv (wd st)) (JsonMap m) (w_writable (wd st)) (w_stdin (wd st))
            (EvProbe (server c) (port c) :: EvProbe (server c) (port c) :: w_log (wd st)))).
Proof.
  destruct st as [c [srv file wr stdin log]]. cbn [cl wd w_srv w_file w_writable w_stdin w_log].
  intros Hm Hig -> Hrec Hp Hcl Hurl.
  unfold apiCall_prepare. rewrite Hm. unfold bind at 1. cbn [self cl].
  unfold bind at 1. rewrite getFingerprint_eq, Hp. unfold bind at 1. cbn [update cl wd].
  unfold apiCall_verified. unfold bind at 1. unfold CheckFingerprint.
  exec. cbn [negb]. fields c.
  rewrite Hcl, Hurl. reflexivity.
Qed.

(** X4.  The first call to a server that is not on record writes the
    fingerprint the server presents into the file and goes on, without a
    question to the operator and whether or not the client is set to accept
    server certificates. *)
Theorem apiCall_prepare_records_first_contact (command : string)
    (payload : option (gmap string value)) (sid_ : string) (useProxy : bool)
    (method : list string) (reqMethod : string) (st : St P) (m : gmap string string)
    (fp : string) (client0 : Client) :
  let c := cl st in
  let sid' := if String.eqb sid_ "" then sid c else sid_ in
  resolve_method method = inr reqMethod ->
  ignoreServerCertificate c = false ->
  w_file (wd st) = JsonMap m ->
  w_writable (wd st) = true ->
  m !! server c = None ->
  probe (w_srv (wd st)) (server c) (port c) = inr fp ->
  (if useProxy then CreateProxyClient (server c) (proxyHost c) sid' (proxyPort c) (timeout c)
   else CreateClient (server c) sid' (timeout c)) = inr client0 ->
  url_error (build_url c command) = None ->
  apiCall_prepare command payload sid_ useProxy method st
  = Done (inr (SetDebugLevel (httpDebugLevel c) (pin fp client0),
               build_request c reqMethod (build_url c command) command sid' (default ∅ payload)))
      (mkSt (with_fingerprint fp c)
         (mkWorld (w_srv (wd st)) (JsonMap (<[server c := fp]> m)) true (w_stdin (wd st))
            (EvProbe (server c) (port c) :: EvWrite (<[server c := fp]> m)
               :: EvProbe (server c) (port c) :: w_log (wd st)))).
Proof.
  destruct st as [c [srv file wr stdin log]]. cbn [cl wd w_srv w_file w_writable w_stdin w_log].
  intros Hm Hig -> -> Hrec Hp Hcl Hurl.
  unfold apiCall_prepare. rewrite Hm. unfold bind at 1. cbn [self cl].
  unfold bind at 1. rewrite getFingerprint_eq, Hp. unfold bind at 1. cbn [update cl wd].
  unfold apiCall_verified. unfold bind at 1. unfold CheckFingerprint.
  exec. cbn [negb]. fields c.
  rewrite Hcl, Hurl. reflexivity.
Qed.

(** X5.  With a fingerprint file that cannot be read (not JSON, or missing
    and not creatable) a call returns the empty response and the fingerprint
    mismatch error, not the error of the file: [apiCall] tests the verdict of
    the trust check before it looks at the check's error.  The server was
    probed once and no request is sent. *)
Theorem apiCall_unreadable_fingerprint_file (fuel : nat) (command : string)
    (payload : option (gmap string value)) (sid_ : string)
    (waitForTask useProxy internal : bool) (method : list string) (reqMethod : string)
    (st : St P) (fp : string) :
  let c := cl st in
  resolve_method method = inr reqMethod ->
  ignoreServerCertificate c = false ->
  w_file (wd st) = NotJson \/ (w_file (wd st) = NoFile /\ w_writable (wd st) = false) ->
  probe (w_srv (wd st)) (server c) (port c) = inr fp ->
  exists e,
    apiCall (S fuel) command payload sid_ waitForTask useProxy internal method st
    = Done (emptyResponse, Some e)
        (mkSt (with_fingerprint fp c)
           (mkWorld (w_srv (wd st)) (w_file (wd st)) (w_writable (wd st)) (w_stdin (wd st))
              (EvProbe (server c) (port c) :: w_log (wd st))))
    /\ String.prefix "fingerprint doesn't match" e = true.
Proof.
  destruct st as [c [srv file wr stdin log]]. cbn [cl wd w_srv w_file w_writable w_stdin w_log].
  intros Hm Hig Hfile Hp. eexists.
  cbn [apiCall]. unfold apiCall_body. unfold bind at 1.
  unfold apiCall_prepare. rewrite Hm. unfold bind at 1. cbn [self cl].
  unfold bind at 1. rewrite getFingerprint_eq, Hp. unfold bind at 1. cbn [update cl wd].
  unfold apiCall_verified. unfold bind at 1. unfold CheckFingerprint.
  destruct Hfile as [->|[-> ->]]; exec; cbn [negb apiCall_finish]; split; reflexivity.
Qed.

(** X6.  A fingerprint file that holds the JSON value [null] decodes to a
    nil map without an error; the save that follows the failed lookup
    assigns into that nil map, and the call panics before any request is
    built. *)
Theorem apiCall_null_fingerprint_file_panics (fuel : nat) (command : string)
    (payload : option (gmap string value)) (sid_ : string)
    (waitForTask useProxy internal : bool) (method : list string) (reqMethod : string)
    (st : St P) (fp : string) :
  let c := cl st in
  resolve_method method = inr reqMethod ->
  ignoreServerCertificate c = false ->
  w_file (wd st) = JsonNull ->
  probe (w_srv (wd st)) (server c) (port c) = inr fp ->
  apiCall (S fuel) command payload sid_ waitForTask useProxy internal method st
  = Panic (mkSt (with_fingerprint fp c)
             (mkWorld (w_srv (wd st)) JsonNull (w_writable (wd st)) (w_stdin (wd st))
                (EvProbe (server c) (port c) :: w_log (wd st)))).
Proof.
  destruct st as [c [srv file wr stdin log]]. cbn [cl wd w_srv w_file w_writable w_stdin w_log].
  intros Hm Hig -> Hp.
  cbn [apiCall]. unfold apiCall_body. unfold bind at 1.
  unfold apiCall_prepare. rewrite Hm. unfold bind at 1. cbn [self cl].
  unfold bind at 1. rewrite getFingerprint_eq, Hp. unfold bind at 1. cbn [update cl wd].
  unfold apiCall_verified. unfold bind at 1. unfold CheckFingerprint.
  exec. reflexivity.
Qed.

(** *** The trust check on its own *)

(** X7.  What the verdicts of [CheckFingerprint] mean.  A trusted verdict
    comes without an error, and (unless the client ignores or accepts
    server certificates) leaves the client holding the very fingerprint the
    server presents.  An untrusted verdict leaves the client as it was.  The
    check panics only on a fingerprint file holding [null], and it neither
    exits nor loops. *)
Theorem CheckFingerprint_verdicts (st : St P) :
  match CheckFingerprint st with
  | Done (true, err) st' =>
      err = None
      /\ (ignoreServerCertificate (cl st) = false -> acceptServerCertificate (cl st) = false ->
          probe (w_srv (wd st)) (server (cl st)) (port (cl st)) = inr (fingerprint (cl st')))
  | Done (false, _) st' => cl st' = cl st
  | Panic _ => ignoreServerCertificate (cl st) = false /\ w_file (wd st) = JsonNull
  | Exit _ _ | OutOfFuel => False
  end.
Proof.
  destruct st as [c [srv file wr stdin log]].
  destruct (CheckFingerprint _) as [[[|] err] st'|st'|code st'|] eqn:H;
    unfold CheckFingerprint in H; repeat (exec_in H; try split_in H); simplify_eq;
    cbn [cl wd w_srv w_file fingerprint with_fingerprint server port
         ignoreServerCertificate acceptServerCertificate] in *;
    try solve [repeat split; congruence].
  all: try (split; [reflexivity|]; intros; try congruence).
  all: try (match goal with H : (fingerprint _ =? _) = true |- _ => apply String.eqb_eq in H end;
            congruence).
  all: try (destruct c; cbn in *; congruence).
Qed.

(** X8.  A client set to accept server certificates trusts a server whose
    fingerprint matches neither the configured nor the recorded one, without
    a question to the operator, and what it then has on record for the
    server is its own configured fingerprint, not the one the server
    presented; the client's fingerprint stays the configured one. *)
Theorem CheckFingerprint_accepting_records_configured (st : St P) (m : gmap string string)
    (serverFp : string) :
  let c := cl st in
  let localFp := default (fingerprint c) (m !! server c) in
  ignoreServerCertificate c = false ->
  acceptServerCertificate c = true ->
  w_file (wd st) = JsonMap m ->
  w_writable (wd st) = true ->
  probe (w_srv (wd st)) (server c) (port c) = inr serverFp ->
  serverFp <> "" ->
  fingerprint c <> serverFp ->
  localFp = "" \/ remove_colons localFp <> remove_colons serverFp ->
  exists st',
    CheckFingerprint st = Done (true, None) st'
    /\ cl st' = c
    /\ w_file (wd st') = JsonMap (<[server c := fingerprint c]> m)
    /\ w_stdin (wd st') = w_stdin (wd st)
    /\ forall q, In (EvAsk q) (w_log (wd st')) -> In (EvAsk q) (w_log (wd st)).
Proof.
  destruct st as [c [srv file wr stdin log]]. cbn [cl wd w_srv w_file w_writable w_stdin w_log].
  intros Hig Hacc -> -> Hp Hne Hcfg Hmis.
  apply String.eqb_neq in Hne, Hcfg.
  assert (Hcond : forall l, l = "" \/ remove_colons l <> remove_colons serverFp ->
                  String.eqb l "" || negb (String.eqb (remove_colons l) (remove_colons serverFp))
                  = true).
  { intros l [->|Hl]; [reflexivity|].
    apply String.eqb_neq in Hl. rewrite Hl. apply orb_true_r. }
  unfold CheckFingerprint.
  destruct (m !! server c) as [localFp|] eqn:Hrec; cbn [default] in Hmis; unfold id in Hmis;
    apply Hcond in Hmis; exec.
  - destruct (bool_decide (Some localFp = Some (fingerprint c))) eqn:Hsame.
    + apply bool_decide_eq_true_1 in Hsame. simplify_eq.
      eexists. split; [reflexivity|]. cbn [cl wd w_file w_stdin w_log].
      repeat split; [f_equal; symmetry; apply insert_id; exact Hrec|].
      intros q [Hq|Hq]; [discriminate|exact Hq].
    + eexists. split; [reflexivity|]. cbn [cl wd w_file w_stdin w_log].
      repeat split. intros q [Hq|[Hq|Hq]]; [discriminate|discriminate|exact Hq].
  - eexists. split; [reflexivity|]. cbn [cl wd w_file w_stdin w_log].
    repeat split. intros q [Hq|[Hq|Hq]]; [discriminate|discriminate|exact Hq].
Qed.

(** X9.  Loading the record of a server that has none writes the client's
    configured fingerprint into the file before anything is compared: when
    the operator then refuses the server's fingerprint the verdict is
    untrusted, and the file all the same holds a record for the server, of
    the configured fingerprint. *)
Theorem CheckFingerprint_refusal_leaves_record (st : St P) (m : gmap string string)
    (serverFp : string) :
  let c := cl st in
  ignoreServerCertificate c = false ->
  acceptServerCertificate c = false ->
  w_file (wd st) = JsonMap m ->
  w_writable (wd st) = true ->
  m !! server c = None ->
  probe (w_srv (wd st)) (server c) (port c) = inr serverFp ->
  serverFp <> "" ->
  fingerprint c <> serverFp ->
  fingerprint c = "" \/ remove_colons (fingerprint c) <> remove_colons serverFp ->
  accepts (hd "" (w_stdin (wd st))) = false ->
  CheckFingerprint st
  = Done (false, None)
      (mkSt c
         (mkWorld (w_srv (wd st)) (JsonMap (<[server c := fingerprint c]> m)) true
            (tl (w_stdin (wd st)))
            (EvAsk "Do you accept this fingerprint?" :: EvProbe (server c) (port c)
               :: EvWrite (<[server c := fingerprint c]> m) :: w_log (wd st)))).
Proof.
  destruct st as [c [srv file wr stdin log]]. cbn [cl wd w_srv w_file w_writable w_stdin w_log].
  intros Hig Hacc -> -> Hrec Hp Hne Hcfg Hmis Hans.
  apply String.eqb_neq in Hne, Hcfg.
  assert (Hcond : String.eqb (fingerprint c) ""
                  || negb (String.eqb (remove_colons (fingerprint c))
                             (remove_colons serverFp)) = true).
  { destruct Hmis as [->|Hmis]; [reflexivity|].
    apply String.eqb_neq in Hmis. rewrite Hmis. apply orb_true_r. }
  unfold CheckFingerprint. exec. reflexivity.
Qed.

(** X10.  When the operator accepts a fingerprint and the file cannot be
    written, the server is trusted all the same and the client takes the
    server's fingerprint; the file keeps the old record. *)
Theorem CheckFingerprint_trusts_when_save_fails (st : St P) (m : gmap string string)
    (localFp serverFp : string) :
  let c := cl st in
  ignoreServerCertificate c = false ->
  acceptServerCertificate c = false ->
  w_file (wd st) = JsonMap m ->
  w_writable (wd st) = false ->
  m !! server c = Some localFp ->
  probe (w_srv (wd st)) (server c) (port c) = inr serverFp ->
  serverFp <> "" ->
  fingerprint c <> serverFp ->
  localFp = "" \/ remove_colons localFp <> remove_colons serverFp ->
  accepts (hd "" (w_stdin (wd st))) = true ->
  CheckFingerprint st
  = Done (true, None)
      (mkSt (with_fingerprint serverFp c)
         (mkWorld (w_srv (wd st)) (JsonMap m) false (tl (w_stdin (wd st)))
            (EvAsk "Do you accept this fingerprint?" :: EvProbe (server c) (port c)
               :: w_log (wd st)))).
Proof.
  destruct st as [c [srv file wr stdin log]]. cbn [cl wd w_srv w_file w_writable w_stdin w_log].
  intros Hig Hacc -> -> Hrec Hp Hne Hcfg Hmis Hans.
  apply String.eqb_neq in Hne, Hcfg.
  assert (Hcond : String.eqb localFp "" || negb (String.eqb (remove_colons localFp)
                                                   (remove_colons serverFp)) = true).
  { destruct Hmis as [->|Hmis]; [reflexivity|].
    apply String.eqb_neq in Hmis. rewrite Hmis. apply orb_true_r. }
  unfold CheckFingerprint. exec.
  destruct (bool_decide (Some localFp = Some serverFp)) eqn:Hsame.
  - apply bool_decide_eq_true_1 in Hsame. simplify_eq.
    destruct Hmis as [->|Hmis]; [apply String.eqb_neq in Hne|]; congruence.
  - reflexivity.
Qed.

(** X11.  A fingerprint saved without an error is the one loaded next, and
    the load then changes nothing.  The record is kept under the client's
    own server, whatever server the save was called with, and the records of
    the other servers are as they were. *)
Theorem saveFingerprintToFile_then_load (x fp : string) (st st1 : St P) :
  saveFingerprintToFile x fp st = Done None st1 ->
  loadFingerprintFromFile st1 = Done (fp, None) st1
  /\ cl st1 = cl st
  /\ exists m1,
       w_file (wd st1) = JsonMap m1
       /\ m1 !! server (cl st) = Some fp
       /\ forall k, k <> server (cl st) ->
            m1 !! k = match w_file (wd st) with JsonMap m => m !! k | _ => None end.
Proof.
  destruct st as [c [srv file wr stdin log]].
  rewrite saveFingerprintToFile_eq. cbn [cl wd w_file].
  destruct file as [| | |m].
  - destruct wr; intros H; simplify_eq.
    rewrite loadFingerprintFromFile_eq, lookup_insert_eq.
    split; [reflexivity|]. split; [reflexivity|].
    eexists. split; [reflexivity|]. split; [apply lookup_insert_eq|].
    intros k Hk. rewrite lookup_insert_ne by congruence. apply lookup_empty.
  - discriminate.
  - discriminate.
  - destruct (bool_decide (m !! server c = Some fp)) eqn:Hsame.
    + apply bool_decide_eq_true_1 in Hsame. intros H; simplify_eq.
      rewrite loadFingerprintFromFile_eq, Hsame.
      split; [reflexivity|]. split; [reflexivity|].
      exists m. split; [reflexivity|]. split; [exact Hsame|reflexivity].
    + destruct wr; intros H; simplify_eq.
      rewrite loadFingerprintFromFile_eq, lookup_insert_eq.
      split; [reflexivity|]. split; [reflexivity|].
      eexists. split; [reflexivity|]. split; [apply lookup_insert_eq|].
      intros k Hk. rewrite lookup_insert_ne by congruence. reflexivity.
Qed.

End Fingerprints.

(** ** Task poller *)

Section Poller.
Context {P : Platform}.

(** [v == "lit"] holds of the string [lit] and of nothing else. *)
Lemma is_str_spec (v : option value) (lit : string) :
  is_str v lit = true <-> v = Some (VStr lit).
Proof.
  unfold is_str. destruct v as [[]|]; try (split; [discriminate|congruence]).
  rewrite String.eqb_eq. split; congruence.
Qed.

Lemma scan_tasks_statuses (tasks : list (gmap string value)) :
  exists found : bool,
    scan_tasks (map VObj tasks) = Some found
    /\ (Exists (fun task => task !! "status" = Some (VStr "failed")
                            \/ task !! "status" = Some (VStr "partially succeeded")) tasks ->
        found = true)
    /\ (Forall (fun task => task !! "status" <> Some (VStr "failed")
                            /\ task !! "status" <> Some (VStr "partially succeeded")) tasks ->
        found = false).
Proof.
  induction tasks as [|t tasks (found & IH & Hyes & Hno)].
  - exists false. split; [reflexivity|]. split; [|reflexivity].
    intros H. inversion H.
  - cbn [map scan_tasks]. unfold task_failed.
    destruct (is_str (t !! "status") "failed") eqn:Hf.
    { exists true. split; [reflexivity|]. split; [reflexivity|].
      intros H. inversion H as [|? ? [Hn _] _]; subst.
      apply is_str_spec in Hf. contradiction. }
    destruct (is_str (t !! "status") "partially succeeded") eqn:Hp.
    { exists true. split; [reflexivity|]. split; [reflexivity|].
      intros H. inversion H as [|? ? [_ Hn] _]; subst.
      apply is_str_spec in Hp. contradiction. }
    cbn [orb]. exists found. split; [exact IH|]. split.
    + intros H. inversion H as [? ? [Hs|Hs]|]; subst.
      * apply is_str_spec in Hs. congruence.
      * apply is_str_spec in Hs. congruence.
      * apply Hyes. assumption.
    + intros H. inversion H; subst. apply Hno. assumption.
Qed.

(** C7.  Once the sub-tasks are all objects, a response with a sub-task
    whose status is "failed" or "partially succeeded" comes out of
    [checkTasksStatus] with its success flag false, an empty status code and
    the generic error message, whatever the flag was before; a response none
    of whose sub-tasks has either status comes out unchanged.  That is the
    response [waitForTask] returns once its loop is left with the polled
    response, and the one [waitForTasks] returns for the answer to its last
    "show-task". *)
Theorem checkTasksStatus_downgrades_failed_tasks (r : APIResponse)
    (tasks : list (gmap string value)) :
  data r !! "tasks" = Some (VArr (map VObj tasks)) ->
  exists r',
    checkTasksStatus r = Some r'
    /\ (Exists (fun task => task !! "status" = Some (VStr "failed")
                            \/ task !! "status" = Some (VStr "partially succeeded")) tasks ->
        Success r' = false
        /\ StatusCode r' = ""
        /\ ErrorMsg r' = buildGenericErrMsg (setStatusCode "" (setSuccessStatus false r))
        /\ data r' = data r)
    /\ (Forall (fun task => task !! "status" <> Some (VStr "failed")
                            /\ task !! "status" <> Some (VStr "partially succeeded")) tasks ->
        r' = r)
    /\ (forall call fuel taskId (st st' : St P),
          poll_task call (show_task_payload (VStr taskId)) fuel st = Done (inr r) st' ->
          waitForTask_with call fuel taskId st = Done (r', None) st')
    /\ (forall call fuel taskObjects ids e (st st1 st2 : St P),
          wait_each call fuel taskObjects [] st = Done ids st1 ->
          call "show-task" (Some (show_task_payload (VStrs ids))) (sid (cl st1)) false
            (isProxyUsed (cl st1)) true [] st1 = Done (r, e) st2 ->
          waitForTasks_with call fuel taskObjects st = Done r' st2).
Proof.
  intros Hd. destruct (scan_tasks_statuses tasks) as (found & Hscan & Hyes & Hno).
  assert (Hc : checkTasksStatus r
               = Some (if found
                       then setErrMsg (buildGenericErrMsg (setStatusCode "" (setSuccessStatus false r)))
                              (setStatusCode "" (setSuccessStatus false r))
                       else r)).
  { unfold checkTasksStatus. rewrite Hd. cbn [non_nil as_arr mbind option_bind].
    rewrite Hscan. cbn [mbind option_bind]. destruct found; reflexivity. }
  eexists. split; [exact Hc|]. split; [|split; [|split]].
  - intros H. rewrite (Hyes H). repeat split; reflexivity.
  - intros H. rewrite (Hno H). reflexivity.
  - intros call fuel taskId st st' H. unfold waitForTask_with. unfold bind at 1.
    rewrite H, Hc. reflexivity.
  - intros call fuel taskObjects ids e st st1 st2 H1 H2.
    unfold waitForTasks_with. unfold bind at 1. rewrite H1.
    unfold bind at 1. unfold bind at 1. cbn [self]. rewrite H2, Hc. reflexivity.
Qed.

(** Sub-tasks that are objects never make the scan panic. *)
Lemma scan_tasks_with_statuses (ts : list (gmap string value * string)) :
  exists found : bool,
    scan_tasks (map (fun t => VObj (<["status" := VStr (snd t)]> (fst t))) ts) = Some found.
Proof.
  destruct (scan_tasks_statuses (map (fun t => <["status" := VStr (snd t)]> (fst t)) ts))
    as (found & H & _).
  rewrite map_map in H. exists found. exact H.
Qed.

Lemma count_tasks_statuses (ts : list (gmap string value * string)) (c0 t0 : Z) :
  exists d : Z,
    count_tasks (map (fun t => VObj (<["status" := VStr (snd t)]> (fst t))) ts) c0 t0
    = Some (c0 + d, t0 + Z.of_nat (length ts))
    /\ (0 <= d <= Z.of_nat (length ts))%Z
    /\ (d = Z.of_nat (length ts) <-> Forall (fun t => snd t <> InProgress) ts).
Proof.
  revert c0 t0. induction ts as [|[m s] ts IH]; intros c0 t0.
  - exists 0%Z. cbn [map count_tasks length]. rewrite !Z.add_0_r.
    split; [reflexivity|]. split; [lia|]. split; [constructor|reflexivity].
  - cbn [map count_tasks fst snd]. rewrite lookup_insert_eq.
    destruct (String.eqb s InProgress) eqn:Hs.
    + apply String.eqb_eq in Hs. destruct (IH c0 (t0 + 1)%Z) as (d & -> & Hr & Hiff).
      exists d. split; [f_equal; f_equal; cbn [length]; lia|].
      split; [cbn [length]; lia|]. split.
      * intros Hd. cbn [length] in Hd. lia.
      * intros HF. inversion HF; subst. cbn [snd] in *. congruence.
    + apply String.eqb_neq in Hs. destruct (IH (c0 + 1)%Z (t0 + 1)%Z) as (d & -> & Hr & Hiff).
      exists (d + 1)%Z. split; [f_equal; f_equal; cbn [length]; lia|].
      split; [cbn [length]; lia|]. split.
      * intros Hd. constructor; [exact Hs|]. apply Hiff. cbn [length] in Hd. lia.
      * intros HF. inversion HF; subst. cbn [length]. apply Hiff in H2. lia.
Qed.

(** One round of the loop of [waitForTask] on a successful poll whose
    sub-tasks all have a status string: the loop is left with the response
    when none of them is "in progress", and sleeps before another round
    when one of them is. *)
Lemma poll_task_round (call : apiCallT) (payload : gmap string value) (fuel : nat)
    (st st1 : St P) (r : APIResponse) (ts : list (gmap string value * string)) :
  call "show-task" (Some payload) (sid (cl st)) false (isProxyUsed (cl st)) true [] st
  = Done (r, None) st1 ->
  Success r = true ->
  data r !! "tasks" = Some (VArr (map (fun t => VObj (<["status" := VStr (snd t)]> (fst t))) ts)) ->
  (Forall (fun t => snd t <> "in progress") ts ->
   poll_task call payload (S (S fuel)) st = Done (inr r) st1)
  /\ (Exists (fun t => snd t = "in progress") ts ->
      poll_task call payload (S (S fuel)) st
      = bind (Sleep (sleep (cl st1))) (fun _ => poll_task call payload (S fuel)) st1).
Proof.
  intros Hcall Hr Hd.
  assert (Hround : poll_task call payload (S (S fuel)) st
                   = bind (assert (count_tasks
                                     (map (fun t => VObj (<["status" := VStr (snd t)]> (fst t))) ts)
                                     0 0))
                       (fun '(completedTasks, totalTasks) =>
                          if (completedTasks =? totalTasks)%Z then ret (inr r)
                          else bind self (fun c =>
                                 bind (Sleep (sleep c))
                                   (fun _ => poll_task call payload (S fuel)))) st1).
  { cbn [poll_task]. unfold bind at 1. cbn [self]. unfold bind at 1. rewrite Hcall.
    unfold bind at 1. cbn [poll_retries]. rewrite Hr. cbn [negb ret].
    unfold bind at 1. rewrite Hd. cbn [as_arr assert ret]. reflexivity. }
  destruct (count_tasks_statuses ts 0 0) as (d & Hcount & Hrange & Hiff).
  rewrite Hcount in Hround.
  rewrite !Z.add_0_l in Hround.
  assert (Hstep : poll_task call payload (S (S fuel)) st
                  = if (d =? Z.of_nat (length ts))%Z then Done (inr r) st1
                    else bind (Sleep (sleep (cl st1)))
                           (fun _ => poll_task call payload (S fuel)) st1).
  { rewrite Hround. unfold bind at 1. cbn [assert ret].
    destruct (d =? Z.of_nat (length ts))%Z; reflexivity. }
  rewrite Hstep. split.
  - intros HF. apply Hiff in HF. subst d. rewrite Z.eqb_refl. reflexivity.
  - intros HE. destruct (d =? Z.of_nat (length ts))%Z eqn:Hdone; [|reflexivity].
    apply Z.eqb_eq, Hiff in Hdone. apply Exists_exists in HE as (t & Hin & Ht).
    rewrite Forall_forall in Hdone. specialize (Hdone t Hin). contradiction.
Qed.

(** The loop of [waitForTask] over an unsuccessful poll result never ends
    once the five retries are used: the branch taken then changes neither the
    result nor the counter. *)
Lemma poll_retries_spins (call : apiCallT) (payload : gmap string value) (fuel : nat)
    (attemptsCounter : Z) (taskResult : APIResponse) (st : St P) :
  Success taskResult = false ->
  (5 <= attemptsCounter)%Z ->
  poll_retries call payload fuel attemptsCounter taskResult st = OutOfFuel.
Proof.
  intros Hs Ha. induction fuel as [|fuel IH]; [reflexivity|].
  cbn [poll_retries]. rewrite Hs. cbn [negb].
  destruct (attemptsCounter <? 5)%Z eqn:Hlt; [apply Z.ltb_lt in Hlt; lia|exact IH].
Qed.

(** Against a server whose polls never succeed, neither loop returns. *)
Lemma poll_retries_unanswered (call : apiCallT) (Inv : St P -> Prop) :
  (forall st p s px, Inv st ->
     match call "show-task" p s false px true [] st with
     | Done (r, None) st' => Success r = false /\ Inv st'
     | OutOfFuel => True
     | _ => False
     end) ->
  (forall st d, Inv st -> Inv (final (Sleep d st) st)) ->
  forall fuel payload attemptsCounter taskResult st,
    Inv st -> Success taskResult = false ->
    poll_retries call payload fuel attemptsCounter taskResult st = OutOfFuel.
Proof.
  intros Hcall Hsleep. induction fuel as [|fuel IH]; intros payload a r st Hst Hr; [reflexivity|].
  cbn [poll_retries]. rewrite Hr. cbn [negb].
  destruct (a <? 5)%Z; [|apply IH; assumption].
  unfold bind at 1. cbn [self]. unfold bind at 1.
  specialize (Hsleep st (sleep (cl st)) Hst). cbn in Hsleep. cbn [Sleep emit set_world].
  unfold bind at 1. cbn [self]. unfold bind at 1.
  match goal with |- context [call ?a ?b ?c ?d ?e ?f ?g ?s] =>
    specialize (Hcall s b c e Hsleep); destruct (call a b c d e f g s) as [[r' [e'|]] st'| | |]
  end; try contradiction; try reflexivity.
  destruct Hcall as [Hr' Hst']. apply IH; assumption.
Qed.

Lemma poll_task_unanswered (call : apiCallT) (Inv : St P -> Prop) :
  (forall st p s px, Inv st ->
     match call "show-task" p s false px true [] st with
     | Done (r, None) st' => Success r = false /\ Inv st'
     | OutOfFuel => True
     | _ => False
     end) ->
  (forall st d, Inv st -> Inv (final (Sleep d st) st)) ->
  forall fuel payload st, Inv st -> poll_task call payload fuel st = OutOfFuel.
Proof.
  intros Hcall Hsleep fuel payload st Hst. destruct fuel as [|fuel]; [reflexivity|].
  cbn [poll_task]. unfold bind at 1. cbn [self]. unfold bind at 1.
  match goal with |- context [call ?a ?b ?c ?d ?e ?f ?g ?s] =>
    specialize (Hcall s b c e Hst) as Hc; destruct (call a b c d e f g s) as [[r' [e'|]] st'| | |]
  end; try contradiction; try reflexivity.
  destruct Hc as [Hr' Hst']. unfold bind at 1.
  rewrite (poll_retries_unanswered call Inv Hcall Hsleep) by assumption. reflexivity.
Qed.

End Poller.

(** ** Auto-publish accounting *)

Section Gate.
Context {P : Platform}.

(** With the batch full and no publish cycle to empty it, the admission
    loop of an external call never lets the call in. *)
Lemma wait_to_run_blocked (fuel : nat) (st : St P) :
  may_enter (cl st) = false -> wait_to_run fuel st = OutOfFuel.
Proof.
  revert st. induction fuel as [|fuel IH]; intros st H; [reflexivity|].
  cbn [wait_to_run]. unfold bind at 1. cbn [self]. rewrite H.
  unfold bind at 1. cbn [Sleep emit set_world]. apply IH. exact H.
Qed.

Lemma apiCall_exchange_blocked (call : apiCallT) (fuel : nat) (command : string)
    (waitForTask : bool) (client : Client) (req : Request) (st : St P) :
  gate_on false (cl st) = true ->
  may_enter (cl st) = false ->
  apiCall_exchange call fuel command waitForTask false client req st = OutOfFuel.
Proof.
  intros Hg Hm. unfold apiCall_exchange. unfold bind at 1. cbn [self]. rewrite Hg.
  unfold bind at 1. unfold bind at 1. rewrite wait_to_run_blocked by exact Hm. reflexivity.
Qed.

(** A publish cycle ends with the counter of calls at zero and the publish
    flag cleared, whatever the publish call returned. *)
Lemma auto_publish_resets (call : apiCallT) (fuel : nat) (st st' : St P)
    (publishRes : APIResponse) (err : option Err) :
  let c := with_activeCallsCtr (int_sub (activeCallsCtr (cl st)) 1) (cl st) in
  gate_on false (cl st) = true ->
  publish_due c = true ->
  (activeCallsCtr c <= 0)%Z ->
  call "publish" (Some ∅) (sid c) true (isProxyUsed c) true []
    (mkSt (with_duringPublish true c) (wd st)) = Done (publishRes, err) st' ->
  auto_publish call (S fuel) false st
  = Done tt (mkSt (with_duringPublish false (with_totalCallsCtr 0 (cl st'))) (wd st')).
Proof.
  intros c Hg Hdue Hact Hcall. unfold auto_publish.
  unfold bind at 1. cbn [self]. rewrite Hg.
  unfold bind at 1. cbn [decreaseActiveCalls update cl wd].
  unfold bind at 1. cbn [self cl]. fold c. rewrite Hdue.
  unfold bind at 1. cbn [self cl]. rewrite Hdue.
  unfold bind at 1. cbn [update cl wd].
  unfold bind at 1. cbn [drain]. unfold bind at 1. cbn [self cl].
  replace (0 <? activeCallsCtr (with_duringPublish true c))%Z with false
    by (symmetry; apply Z.ltb_ge; destruct (cl st); exact Hact).
  cbn [ret]. unfold bind at 1. cbn [self cl].
  unfold bind at 1.
  replace (sid (with_duringPublish true c)) with (sid c) by (destruct (cl st); reflexivity).
  replace (isProxyUsed (with_duringPublish true c)) with (isProxyUsed c)
    by (destruct (cl st); reflexivity).
  rewrite Hcall. reflexivity.
Qed.

End Gate.

(** ** The exchange with the server *)

Section Exchange.
Context {P : Platform}.

Lemma send_eq (client : Client) (command : string) (req : Request) (st : St P) :
  send client command req st
  = Done (fst (Do client req (w_srv (wd st))))
      (after_send (cl st) (wd st) (snd (Do client req (w_srv (wd st)))) command req).
Proof.
  unfold send, transport, emit, set_world, bind, after_send. cbn [cl wd w_srv w_file
    w_writable w_stdin w_log].
  destruct (Do client req (w_srv (wd st))); reflexivity.
Qed.

(** An internal call that does not wait for tasks is one request and its
    decoded answer. *)
Lemma apiCall_exchange_internal (call : apiCallT) (fuel : nat) (command : string)
    (client : Client) (req : Request) (st : St P) :
  apiCall_exchange call fuel command false true client req st
  = Done (match fst (Do client req (w_srv (wd st))) with
          | inl e => (emptyResponse, Some e)
          | inr resp =>
              match fromHTTPResponse resp "" with
              | inl e => (emptyResponse, Some e)
              | inr res =>
                  (if negb (Success res) then with_ErrorMsg (buildGenericErrMsg res) res
                   else res, None)
              end
          end)
      (after_send (cl st) (wd st) (snd (Do client req (w_srv (wd st)))) command req).
Proof.
  unfold apiCall_exchange. unfold bind at 1. cbn [self gate_on negb andb].
  unfold bind at 1. cbn [ret]. unfold bind at 1. rewrite send_eq.
  destruct (fst (Do client req (w_srv (wd st)))) as [e|resp]; [reflexivity|].
  destruct (fromHTTPResponse resp "") as [e|res]; [reflexivity|].
  reflexivity.
Qed.

Lemma follow_tasks_unfollowed (call : apiCallT) (fuel : nat) (command : string)
    (waitForTask : bool) (res : APIResponse) (st : St P) :
  unfollowed waitForTask command res ->
  follow_tasks call fuel command waitForTask
    (if negb (Success res) then with_ErrorMsg (buildGenericErrMsg res) res else res) st
  = Done (inr (if negb (Success res) then with_ErrorMsg (buildGenericErrMsg res) res else res)) st.
Proof.
  intros H. unfold follow_tasks.
  replace (Success (if negb (Success res) then with_ErrorMsg (buildGenericErrMsg res) res
                    else res)) with (Success res) by (destruct res as [[|] ? ? ?]; reflexivity).
  replace (data (if negb (Success res) then with_ErrorMsg (buildGenericErrMsg res) res
                 else res)) with (data res) by (destruct res as [[|] ? ? ?]; reflexivity).
  destruct H as [->|[-> ->]]; [reflexivity|].
  destruct (waitForTask && Success res && negb (String.eqb command "show-task")); reflexivity.
Qed.

(** With the gate off, a response that is not followed through the task
    poller is returned as it is, but for the error message of a failure. *)
Lemma apiCall_exchange_unfollowed (call : apiCallT) (fuel : nat) (command : string)
    (waitForTask internal : bool) (client : Client) (req : Request) (st : St P)
    (resp : HttpResponse) (srv' : ServerState) (res : APIResponse) :
  gate_on internal (cl st) = false ->
  Do client req (w_srv (wd st)) = (inr resp, srv') ->
  fromHTTPResponse resp "" = inr res ->
  unfollowed waitForTask command res ->
  apiCall_exchange call fuel command waitForTask internal client req st
  = Done (if negb (Success res) then with_ErrorMsg (buildGenericErrMsg res) res else res, None)
      (after_send (cl st) (wd st) srv' command req).
Proof.
  intros Hg HDo Hdec Hf. unfold apiCall_exchange. unfold bind at 1. cbn [self]. rewrite Hg.
  unfold bind at 1. cbn [ret]. unfold bind at 1. rewrite send_eq, HDo. cbn [fst snd].
  rewrite Hdec. unfold bind at 1. rewrite follow_tasks_unfollowed by exact Hf.
  unfold bind at 1. unfold auto_publish.
  unfold bind at 1. cbn [self after_send cl]. rewrite Hg. reflexivity.
Qed.

(** The same with the gate on, for a call that is let in and does not
    complete a batch. *)
Lemma apiCall_exchange_counted (call : apiCallT) (fuel : nat) (command : string)
    (waitForTask : bool) (client : Client) (req : Request) (st : St P)
    (resp : HttpResponse) (srv' : ServerState) (res : APIResponse) :
  gate_on false (cl st) = true ->
  may_enter (cl st) = true ->
  publish_due (gone (entered (cl st))) = false ->
  Do client req (w_srv (wd st)) = (inr resp, srv') ->
  fromHTTPResponse resp "" = inr res ->
  unfollowed waitForTask command res ->
  apiCall_exchange call (S fuel) command waitForTask false client req st
  = Done (if negb (Success res) then with_ErrorMsg (buildGenericErrMsg res) res else res, None)
      (after_send (gone (entered (cl st))) (wd st) srv' command req).
Proof.
  intros Hg Hm Hdue HDo Hdec Hf. unfold apiCall_exchange. unfold bind at 1. cbn [self].
  rewrite Hg. unfold bind at 1. unfold bind at 1. cbn [wait_to_run]. unfold bind at 1.
  cbn [self]. rewrite Hm. unfold bind at 1. cbn [self]. rewrite Hm.
  cbn [update increaseActiveCalls cl wd]. unfold bind at 1. rewrite send_eq.
  cbn [cl wd w_srv]. rewrite HDo. cbn [fst snd]. rewrite Hdec. unfold bind at 1. rewrite follow_tasks_unfollowed by exact Hf.
  unfold bind at 1. unfold auto_publish.
  unfold bind at 1. cbn [self after_send cl].
  replace (gate_on false _) with true by (rewrite <- Hg; destruct (cl st); reflexivity).
  unfold bind at 1. cbn [decreaseActiveCalls update cl wd]. unfold bind at 1. cbn [self cl].
  match goal with |- context [publish_due ?x] => change x with (gone (entered (cl st))) end.
  rewrite Hdue. reflexivity.
Qed.

(** The same for the call that completes a batch: the publish call is made
    once the call is over, and whatever it returns the counter of calls is
    back at zero and the publish flag cleared when the call returns. *)
Lemma apiCall_exchange_publishes (call : apiCallT) (fuel : nat) (command : string)
    (waitForTask : bool) (client : Client) (req : Request) (st st' : St P)
    (resp : HttpResponse) (srv' : ServerState) (res publishRes : APIResponse)
    (err : option Err) :
  gate_on false (cl st) = true ->
  may_enter (cl st) = true ->
  publish_due (gone (entered (cl st))) = true ->
  (activeCallsCtr (gone (entered (cl st))) <= 0)%Z ->
  Do client req (w_srv (wd st)) = (inr resp, srv') ->
  fromHTTPResponse resp "" = inr res ->
  unfollowed waitForTask command res ->
  call "publish" (Some ∅) (sid (cl st)) true (isProxyUsed (cl st)) true []
    (after_send (with_duringPublish true (gone (entered (cl st)))) (wd st) srv' command req)
  = Done (publishRes, err) st' ->
  apiCall_exchange call (S fuel) command waitForTask false client req st
  = Done (if negb (Success res) then with_ErrorMsg (buildGenericErrMsg res) res else res, None)
      (mkSt (with_duringPublish false (with_totalCallsCtr 0 (cl st'))) (wd st')).
Proof.
  intros Hg Hm Hdue Hact HDo Hdec Hf Hpub. unfold apiCall_exchange. unfold bind at 1.
  cbn [self]. rewrite Hg. unfold bind at 1. unfold bind at 1. cbn [wait_to_run].
  unfold bind at 1. cbn [self]. rewrite Hm. unfold bind at 1. cbn [self]. rewrite Hm.
  cbn [update increaseActiveCalls cl wd]. unfold bind at 1. rewrite send_eq.
  cbn [cl wd w_srv]. rewrite HDo. cbn [fst snd]. rewrite Hdec. unfold bind at 1. rewrite follow_tasks_unfollowed by exact Hf.
  unfold bind at 1.
  match goal with |- context [auto_publish call (S fuel) false ?s] =>
    rewrite (auto_publish_resets call fuel s st' publishRes err)
  end.
  - reflexivity.
  - cbn [after_send cl]. rewrite <- Hg. destruct (cl st); reflexivity.
  - exact Hdue.
  - exact Hact.
  - cbn [after_send cl wd]. rewrite <- Hpub. destruct (cl st); reflexivity.
Qed.

End Exchange.

(** ** Protocol failures *)

Section Failures.
Context {P : Platform}.

(** C3 (as amended).  A response the server marks as a failure is returned
    by [apiCall] as a response with the success flag false and no error,
    with the gate off and with the gate on when no publish cycle is due.
    The pagination engine returns such a first response only when it lacks
    a container key; otherwise, as in any later round, it ends the process
    with exit status 1. *)
Theorem protocol_failure_returned_or_fatal (command : string) (client : Client)
    (req : Request) (st st1 : St P) (resp : HttpResponse) (srv' : ServerState)
    (res : APIResponse) :
  Do client req (w_srv (wd st1)) = (inr resp, srv') ->
  fromHTTPResponse resp "" = inr res ->
  Success res = false ->
  let res' := with_ErrorMsg (buildGenericErrMsg res) res in
  Success res' = false
  /\ (forall fuel payload sid_ waitForTask useProxy internal method,
        apiCall_prepare command payload sid_ useProxy method st = Done (inr (client, req)) st1 ->
        gate_on internal (cl st1) = false ->
        apiCall (S fuel) command payload sid_ waitForTask useProxy internal method st
        = Done (res', None) (after_send (cl st1) (wd st1) srv' command req))
  /\ (forall fuel payload sid_ waitForTask useProxy method,
        apiCall_prepare command payload sid_ useProxy method st = Done (inr (client, req)) st1 ->
        gate_on false (cl st1) = true ->
        may_enter (cl st1) = true ->
        publish_due (gone (entered (cl st1))) = false ->
        apiCall (S (S fuel)) command payload sid_ waitForTask useProxy false method st
        = Done (res', None) (after_send (gone (entered (cl st1))) (wd st1) srv' command req))
  /\ (forall fuel detailsLevel containerKeys payload,
        apiCall_prepare command (Some (query_payload (default ∅ payload) detailsLevel 0))
          (sid (cl st)) (isProxyUsed (cl st)) [] st = Done (inr (client, req)) st1 ->
        genApiQuery (S fuel) command detailsLevel containerKeys payload st
        = if lacks_key (match containerKeys with [] => ["objects"] | _ => containerKeys end) res'
          then Done ([res'], None) (after_send (cl st1) (wd st1) srv' command req)
          else Exit 1 (after_send (cl st1) (wd st1) srv' command req))
  /\ (forall call fuel detailsLevel containerKeys payload iterations allObjects serverResponse s,
        query_rounds call (S fuel) command detailsLevel containerKeys payload iterations
          allObjects serverResponse res' s = Exit 1 s).
Proof.
  intros HDo Hdec Hs res'.
  assert (Hs' : Success res' = false) by (destruct res; exact Hs).
  assert (Hres : (if negb (Success res) then with_ErrorMsg (buildGenericErrMsg res) res else res)
                 = res') by (rewrite Hs; reflexivity).
  assert (Hf : forall w, unfollowed w command res)
    by (intros w; left; rewrite Hs, andb_false_r; reflexivity).
  split; [exact Hs'|]. split; [|split; [|split]].
  - intros fuel payload sid_ w px internal method Hp Hg.
    cbn [apiCall]. unfold apiCall_body. unfold bind at 1. rewrite Hp. cbn [apiCall_finish].
    rewrite (apiCall_exchange_unfollowed _ _ _ _ _ _ _ _ resp srv' res) by auto.
    rewrite Hres. reflexivity.
  - intros fuel payload sid_ w px method Hp Hg Hm Hdue.
    cbn [apiCall]. unfold apiCall_body. unfold bind at 1. rewrite Hp. cbn [apiCall_finish].
    rewrite (apiCall_exchange_counted _ _ _ _ _ _ _ resp srv' res) by auto.
    rewrite Hres. reflexivity.
  - intros fuel dl keys payload Hp.
    unfold genApiQuery, genApiQuery_with. unfold bind at 1. cbn [self]. unfold bind at 1.
    cbn [apiCall]. unfold apiCall_body. unfold bind at 1. rewrite Hp. cbn [apiCall_finish].
    rewrite apiCall_exchange_internal, HDo. cbn [fst snd]. rewrite Hdec, Hres.
    destruct (lacks_key _ res'); [reflexivity|].
    cbn [query_rounds]. rewrite Hs'. reflexivity.
  - intros. cbn [query_rounds]. rewrite Hs'. reflexivity.
Qed.

End Failures.

(** ** Login *)

Section Login.
Context {P : Platform}.

Lemma map_fold_insert_union (m0 p : gmap string value) :
  map_fold (fun k v acc => <[k := v]> acc) m0 p = p ∪ m0.
Proof.
  apply (map_fold_weak_ind (fun r m => r = m ∪ m0)).
  - symmetry. apply (left_id_L ∅ (∪)).
  - intros i x m r _ ->. apply insert_union_l.
Qed.

(** X25.  What the login request carries under a key: the extra payload's
    value if it has one, else the domain, the two session flags (in the web
    context only), else the credential. *)
Lemma login_credentials_lookup (c : ApiClient) (credentials : gmap string value)
    (continueLastSession : bool) (domain_ : string) (readOnly : bool)
    (payload : option (gmap string value)) (k : string) :
  login_credentials c credentials continueLastSession domain_ readOnly payload !! k
  = match payload ≫= (.!! k) with
    | Some v => Some v
    | None =>
        if negb (String.eqb domain_ "") && String.eqb k "domain" then Some (VStr domain_)
        else if String.eqb (context c) WebContext && String.eqb k "read-only"
        then Some (VBool readOnly)
        else if String.eqb (context c) WebContext && String.eqb k "continue-last-session"
        then Some (VBool continueLastSession)
        else credentials !! k
    end.
Proof.
  unfold login_credentials.
  set (c1 := if String.eqb (context c) WebContext then _ else credentials).
  set (c2 := if String.eqb domain_ "" then c1 else _).
  assert (H2 : c2 !! k =
    if negb (String.eqb domain_ "") && String.eqb k "domain" then Some (VStr domain_)
    else if String.eqb (context c) WebContext && String.eqb k "read-only"
    then Some (VBool readOnly)
    else if String.eqb (context c) WebContext && String.eqb k "continue-last-session"
    then Some (VBool continueLastSession)
    else credentials !! k).
  { assert (H1 : c1 !! k =
      if String.eqb (context c) WebContext && String.eqb k "read-only"
      then Some (VBool readOnly)
      else if String.eqb (context c) WebContext && String.eqb k "continue-last-session"
      then Some (VBool continueLastSession)
      else credentials !! k).
    { subst c1. destruct (String.eqb (context c) WebContext); cbn [andb]; [|reflexivity].
      destruct (String.eqb_spec k "read-only") as [->|Hk1]; [apply lookup_insert_eq|].
      rewrite lookup_insert_ne by congruence.
      destruct (String.eqb_spec k "continue-last-session") as [->|Hk2];
        [apply lookup_insert_eq|].
      rewrite lookup_insert_ne by congruence. reflexivity. }
    subst c2. destruct (String.eqb domain_ ""); cbn [negb andb]; [exact H1|].
    destruct (String.eqb_spec k "domain") as [->|Hk]; [apply lookup_insert_eq|].
    rewrite lookup_insert_ne by congruence. exact H1. }
  destruct payload as [p|]; cbn [mbind option_bind]; [|exact H2].
  rewrite map_fold_insert_union, lookup_union.
  destruct (p !! k) as [v|]; [destruct (c2 !! k); reflexivity|].
  rewrite (left_id_L None (∪)). exact H2.
Qed.

(** C5 (as amended).  The login call carries the merged credentials, is
    made without task waiting and as an internal call: whatever the state of
    the auto-publish counters, and whether or not the response names a task,
    a successful response is returned as it is after one request, the
    counters are as they were, and the client holds the returned session id,
    the domain and, if it had no API version, the server's. *)
Theorem commonLoginLogic_stores_session (fuel : nat) (credentials : gmap string value)
    (continueLastSession : bool) (domain_ : string) (readOnly : bool)
    (payload : option (gmap string value)) (st st1 : St P) (client : Client) (req : Request)
    (resp : HttpResponse) (srv' : ServerState) (loginRes : APIResponse) (s v : string) :
  let creds :=
    login_credentials (cl st) credentials continueLastSession domain_ readOnly payload in
  apiCall_prepare "login" (Some creds) "" (isProxyUsed (cl st)) [] st
    = Done (inr (client, req)) st1 ->
  Do client req (w_srv (wd st1)) = (inr resp, srv') ->
  fromHTTPResponse resp "" = inr loginRes ->
  Success loginRes = true ->
  data loginRes !! "sid" = Some (VStr s) ->
  (apiVersion (cl st) = "" -> data loginRes !! "api-server-version" = Some (VStr v)) ->
  exists c',
    commonLoginLogic (S fuel) credentials continueLastSession domain_ readOnly payload st
    = Done (loginRes, None) (after_send c' (wd st1) srv' "login" req)
    /\ req_body req = creds
    /\ sid c' = s
    /\ domain c' = domain_
    /\ apiVersion c' = (if String.eqb (apiVersion (cl st)) "" then v else apiVersion (cl st))
    /\ totalCallsCtr c' = totalCallsCtr (cl st)
    /\ activeCallsCtr c' = activeCallsCtr (cl st)
    /\ duringPublish c' = duringPublish (cl st).
Proof.
  intros creds Hp HDo Hdec Hs Hsid Hver.
  pose proof (apiCall_prepare_quiet "login" (Some creds) "" (isProxyUsed (cl st)) [] st) as Hq.
  rewrite Hp in Hq. destruct Hq as [(Hc & _ & _) Hbody].
  assert (Hfields : apiVersion (cl st1) = apiVersion (cl st)
                    /\ totalCallsCtr (cl st1) = totalCallsCtr (cl st)
                    /\ activeCallsCtr (cl st1) = activeCallsCtr (cl st)
                    /\ duringPublish (cl st1) = duringPublish (cl st)).
  { destruct (cl st), (cl st1). cbn in Hc. simplify_eq. repeat split. }
  destruct Hfields as (Hv & Ht & Ha & Hd).
  exists ((if String.eqb (apiVersion (cl st)) "" then with_apiVersion v else fun c => c)
            (with_domain domain_ (with_sid s (cl st1)))).
  split.
  - unfold commonLoginLogic. unfold bind at 1. cbn [self]. fold creds. unfold bind at 1.
    cbn [apiCall]. unfold apiCall_body. unfold bind at 1. rewrite Hp. cbn [apiCall_finish].
    rewrite apiCall_exchange_internal, HDo. cbn [fst snd]. rewrite Hdec, Hs. cbn [negb].
    rewrite Hs, Hsid. cbn [as_string assert].
    unfold bind, ret, update, self, after_send. cbn [cl wd].
    replace (apiVersion (with_domain domain_ (with_sid s (cl st1)))) with (apiVersion (cl st))
      by (rewrite <- Hv; destruct (cl st1); reflexivity).
    destruct (String.eqb_spec (apiVersion (cl st)) "") as [He|He].
    + rewrite (Hver He). reflexivity.
    + reflexivity.
  - split; [exact (Hbody client req eq_refl)|].
    destruct (String.eqb_spec (apiVersion (cl st)) "") as [He|He];
      rewrite <- ?Hv, <- Ht, <- Ha, <- Hd; destruct (cl st1); cbn; repeat split; reflexivity.
Qed.

End Login.

(** ** Pagination engine *)

Section Pagination.
Context {P : Platform}.

Lemma wrap64_add_l (a b : Z) : wrap64 (wrap64 a + b) = wrap64 (a + b).
Proof.
  unfold wrap64. f_equal.
  replace ((a + 2 ^ 63) mod 2 ^ 64 - 2 ^ 63 + b + 2 ^ 63)%Z
    with ((a + 2 ^ 63) mod 2 ^ 64 + b)%Z by lia.
  rewrite Zplus_mod_idemp_l. f_equal. lia.
Qed.

Lemma wrap64_mul_l (a b : Z) : wrap64 (wrap64 a * b) = wrap64 (a * b).
Proof.
  unfold wrap64. f_equal.
  pose proof (Z.div_mod (a + 2 ^ 63) (2 ^ 64) ltac:(lia)) as H.
  replace (((a + 2 ^ 63) mod 2 ^ 64 - 2 ^ 63) * b + 2 ^ 63)%Z
    with (a * b + 2 ^ 63 + (- ((a + 2 ^ 63) / 2 ^ 64) * b) * 2 ^ 64)%Z by lia.
  apply Z_mod_plus_full.
Qed.

(** The round counter after [k] increments. *)
Lemma iterations_after (k : nat) : iterations_in_round k = wrap64 (Z.of_nat k).
Proof.
  unfold iterations_in_round. induction k as [|k IH]; [reflexivity|].
  rewrite Nat.iter_succ, IH. unfold int_add. rewrite wrap64_add_l. f_equal. lia.
Qed.

Lemma query_payload_again (p : gmap string value) (dl : string) (i j : Z) :
  query_payload (query_payload p dl i) dl j = query_payload p dl j.
Proof.
  unfold query_payload. apply map_eq. intros k.
  destruct (decide (k = "details-level")) as [->|H1];
    [|destruct (decide (k = "offset")) as [->|H2];
      [|destruct (decide (k = "limit")) as [->|H3]]];
    repeat first [rewrite lookup_insert_eq | rewrite lookup_insert_ne by congruence];
    reflexivity.
Qed.

Lemma asked_query_payload (p : gmap string value) (dl : string) (k : nat) :
  asked (query_payload p dl (iterations_in_round k))
  = (Some (VInt 50), Some (VInt (wrap64 (Z.of_nat k * 50))), Some (VStr dl)).
Proof.
  unfold asked, query_payload. rewrite lookup_insert_eq.
  rewrite (lookup_insert_ne _ "details-level" "offset") by discriminate.
  rewrite lookup_insert_eq.
  rewrite (lookup_insert_ne _ "details-level" "limit") by discriminate.
  rewrite (lookup_insert_ne _ "offset" "limit") by discriminate.
  rewrite lookup_insert_eq.
  rewrite iterations_after. unfold int_mul, Limit. rewrite wrap64_mul_l. reflexivity.
Qed.

Lemma requests_send (command : string) (req : Request) (l : list Event) :
  requests (EvSend command req :: l) = (requests l ++ [req])%list.
Proof. reflexivity. Qed.

(** An internal call that does not wait for tasks sends at most one
    request, carrying its payload, and exactly one when it returns no
    error. *)
Lemma apiCall_internal_requests (fuel : nat) (command : string) (p : gmap string value)
    (s : string) (px : bool) (st : St P) :
  match apiCall fuel command (Some p) s false px true [] st with
  | Done (_, None) st' =>
      exists req, requests (w_log (wd st')) = (requests (w_log (wd st)) ++ [req])%list
                  /\ req_body req = p
  | Done (res, Some _) st' =>
      res = emptyResponse
      /\ (requests (w_log (wd st')) = requests (w_log (wd st))
          \/ exists req, requests (w_log (wd st')) = (requests (w_log (wd st)) ++ [req])%list
                         /\ req_body req = p)
  | Panic st' | Exit _ st' => requests (w_log (wd st')) = requests (w_log (wd st))
  | OutOfFuel => True
  end.
Proof.
  destruct fuel as [|fuel]; [exact I|].
  cbn [apiCall]. unfold apiCall_body. unfold bind at 1.
  pose proof (apiCall_prepare_quiet command (Some p) s px [] st) as Hq.
  destruct (apiCall_prepare command (Some p) s px [] st) as [[e|[client req]] st1|st1|c st1|];
    try contradiction.
  - destruct Hq as [(_ & _ & Hr) _]. cbn. split; [reflexivity|]. left. exact Hr.
  - destruct Hq as [(_ & _ & Hr) Hb]. specialize (Hb client req eq_refl). cbn in Hb.
    cbn [apiCall_finish]. rewrite apiCall_exchange_internal.
    assert (Hreq : requests (w_log (wd (after_send (cl st1) (wd st1)
                      (snd (Do client req (w_srv (wd st1)))) command req)))
                   = (requests (w_log (wd st)) ++ [req])%list).
    { unfold after_send. cbn [wd w_log]. rewrite requests_send, Hr. reflexivity. }
    destruct (fst (Do client req (w_srv (wd st1)))) as [e|resp]; [split; eauto|].
    destruct (fromHTTPResponse resp "") as [e|res]; [split; eauto|]. eauto.
  - destruct Hq as (_ & _ & Hr). exact Hr.
  - destruct Hq as (_ & _ & Hr). exact Hr.
Qed.

(** The requests of the pagination loop: from round [k] on, one request per
    further round, each with the payload of its round. *)
Lemma query_rounds_requests (f : nat) (command dl : string) (keys : list string)
    (p0 : gmap string value) (fuel : nat) :
  forall (k : nat) allObjects serverResponse apiRes (st : St P),
  exists sent n,
    requests (w_log (wd (final
      (query_rounds (apiCall f) fuel command dl keys
         (query_payload p0 dl (iterations_in_round k)) (iterations_in_round k)
         allObjects serverResponse apiRes st) st)))
    = (requests (w_log (wd st)) ++ sent)%list
    /\ map req_body sent
       = map (fun i => query_payload p0 dl (iterations_in_round i)) (seq (S k) n).
Proof.
  induction fuel as [|fuel IH]; intros k allObjects serverResponse apiRes st.
  { exists [], 0%nat. cbn. rewrite app_nil_r. split; reflexivity. }
  cbn [query_rounds].
  destruct (negb (Success apiRes)).
  { exists [], 0%nat. cbn. rewrite app_nil_r. split; reflexivity. }
  unfold bind at 1.
  destruct (collect keys allObjects apiRes) as [[all' apiRes']|]; cbn [assert];
    [|exists [], 0%nat; cbn; rewrite app_nil_r; split; reflexivity].
  cbn [ret]. unfold bind at 1.
  destruct (iface_eq _ _) as [[|]|]; cbn [assert ret panic];
    [exists [], 0%nat; cbn; rewrite app_nil_r; split; reflexivity| |
     exists [], 0%nat; cbn; rewrite app_nil_r; split; reflexivity].
  unfold bind at 1. cbn [self]. unfold bind at 1.
  change (int_add (iterations_in_round k) 1) with (iterations_in_round (S k)).
  rewrite query_payload_again.
  pose proof (apiCall_internal_requests f command
                (query_payload p0 dl (iterations_in_round (S k))) (sid (cl st))
                (isProxyUsed (cl st)) st) as Hcall.
  destruct (apiCall f command _ _ false _ true [] st) as [[res [e|]] st'|st'|c st'|].
  - destruct Hcall as [_ [Hr|(req & Hr & Hb)]]; cbn [ret final].
    + exists [], 0%nat. rewrite Hr, app_nil_r. split; reflexivity.
    + exists [req], 1%nat. rewrite Hr. split; [reflexivity|]. cbn. rewrite Hb. reflexivity.
  - destruct Hcall as (req & Hr & Hb).
    destruct (IH (S k) all' (serverResponse ++ [apiRes'])%list res st') as (sent & n & Hs & Hm).
    destruct (query_rounds (apiCall f) fuel command dl keys _ _ all' _ res st')
      as [a s1|s1|c s1|] eqn:Hrec; cbn [final] in *.
    4: { exists [], 0%nat. rewrite app_nil_r. split; reflexivity. }
    all: exists (req :: sent), (S n); rewrite Hs, Hr, <- app_assoc; split; [reflexivity|].
    all: cbn [map seq]; rewrite Hb, Hm; reflexivity.
  - cbn [final]. exists [], 0%nat. rewrite Hcall, app_nil_r. split; reflexivity.
  - cbn [final]. exists [], 0%nat. rewrite Hcall, app_nil_r. split; reflexivity.
  - cbn [final]. exists [], 0%nat. rewrite app_nil_r. split; reflexivity.
Qed.

Lemma genApiQuery_requests (fuel : nat) (command dl : string) (keys : list string)
    (payload : option (gmap string value)) (st : St P) :
  exists sent n,
    requests (w_log (wd (final (genApiQuery fuel command dl keys payload st) st)))
    = (requests (w_log (wd st)) ++ sent)%list
    /\ map (fun req => asked (req_body req)) sent
       = map (fun k => (Some (VInt 50), Some (VInt (wrap64 (Z.of_nat k * 50))),
                        Some (VStr dl))) (seq 0 n).
Proof.
  assert (Hfields : forall sent n,
    map req_body sent
    = map (fun i => query_payload (default ∅ payload) dl (iterations_in_round i)) (seq 0 n) ->
    map (fun req => asked (req_body req)) sent
    = map (fun k => (Some (VInt 50), Some (VInt (wrap64 (Z.of_nat k * 50))),
                     Some (VStr dl))) (seq 0 n)).
  { intros sent n H. rewrite <- (map_map req_body asked), H, map_map.
    apply map_ext. intros k. apply asked_query_payload. }
  assert (Hlacks : lacks_key (match keys with [] => ["objects"] | _ => keys end) emptyResponse
                   = true) by (destruct keys; reflexivity).
  unfold genApiQuery, genApiQuery_with. unfold bind at 1. cbn [self]. unfold bind at 1.
  pose proof (apiCall_internal_requests fuel command
                (query_payload (default ∅ payload) dl 0) (sid (cl st))
                (isProxyUsed (cl st)) st) as Hcall.
  destruct (apiCall fuel command _ _ false _ true [] st) as [[res [e|]] st'|st'|c st'|].
  3, 4: cbn [final]; exists [], 0%nat; rewrite Hcall, app_nil_r; split; reflexivity.
  3: cbn [final]; exists [], 0%nat; rewrite app_nil_r; split; reflexivity.
  { destruct Hcall as [-> Hcall]. rewrite Hlacks. cbn [ret final].
    destruct Hcall as [Hr|(req & Hr & Hb)].
    - exists [], 0%nat. rewrite Hr, app_nil_r. split; reflexivity.
    - exists [req], 1%nat. rewrite Hr. split; [reflexivity|].
      apply (Hfields [req] 1%nat). cbn. rewrite Hb. reflexivity. }
  destruct Hcall as (req & Hr & Hb).
  destruct (lacks_key _ res).
  { cbn [ret final]. exists [req], 1%nat. rewrite Hr. split; [reflexivity|].
    apply (Hfields [req] 1%nat). cbn. rewrite Hb. reflexivity. }
  destruct (query_rounds_requests fuel command dl
              (match keys with [] => ["objects"] | _ => keys end) (default ∅ payload) fuel
              0%nat (foldl (fun acc key => <[key := []]> acc) ∅
                       (match keys with [] => ["objects"] | _ => keys end)) [] res st')
    as (sent & n & Hs & Hm).
  change (iterations_in_round 0) with 0%Z in Hs.
  destruct (query_rounds (apiCall fuel) fuel command dl _ _ 0 _ [] res st')
    as [a s1|s1|c s1|] eqn:Hrec; cbn [final] in *.
  4: { exists [], 0%nat. rewrite app_nil_r. split; reflexivity. }
  all: exists (req :: sent), (S n); rewrite Hs, Hr, <- app_assoc; split; [reflexivity|].
  all: apply (Hfields (req :: sent) (S n)); cbn [map seq]; rewrite Hb, Hm; reflexivity.
Qed.


End Pagination.

(** ** What a call leaves of the client *)

Section Frame.
Context {P : Platform}.

Lemma same_but_fingerprint_refl (c : ApiClient) : same_but_fingerprint c c.
Proof. reflexivity. Qed.

Lemma same_but_fingerprint_trans (a b c : ApiClient) :
  same_but_fingerprint a b -> same_but_fingerprint b c -> same_but_fingerprint a c.
Proof. unfold same_but_fingerprint. congruence. Qed.

Lemma frames_ret {A} (a : A) : frames (ret a).
Proof. intros st. reflexivity. Qed.

Lemma frames_panic {A} : frames (@panic P A).
Proof. intros st. reflexivity. Qed.

Lemma frames_os_Exit {A} (code : Z) : frames (@os_Exit P A code).
Proof. intros st. reflexivity. Qed.

Lemma frames_out_of_fuel {A} : frames (@out_of_fuel P A).
Proof. intros st. exact I. Qed.

Lemma frames_bind {A B} (m : M A) (k : A -> M B) :
  frames m -> (forall a, frames (k a)) -> frames (bind m k).
Proof.
  intros Hm Hk st. unfold bind. specialize (Hm st).
  destruct (m st) as [a s1|s1|c s1|]; try exact Hm.
  specialize (Hk a s1). destruct (k a s1); try exact I;
    eapply same_but_fingerprint_trans; eassumption.
Qed.

Lemma frames_self : frames (@self P).
Proof. intros st. reflexivity. Qed.

Lemma frames_Sleep (d : Z) : frames (@Sleep P d).
Proof. intros st. reflexivity. Qed.

Lemma frames_assert {A} (o : option A) : frames (@assert P A o).
Proof. destruct o; [apply frames_ret|apply frames_panic]. Qed.

Lemma frames_send (client : Client) (command : string) (req : Request) :
  frames (send client command req).
Proof. intros st. rewrite send_eq. reflexivity. Qed.

Lemma frames_apiCall_prepare (command : string) (payload : option (gmap string value))
    (sid_ : string) (useProxy : bool) (method : list string) :
  frames (@apiCall_prepare P command payload sid_ useProxy method).
Proof.
  intros st. pose proof (apiCall_prepare_quiet command payload sid_ useProxy method st) as H.
  destruct (apiCall_prepare command payload sid_ useProxy method st);
    try contradiction; try exact I; [exact (proj1 (proj1 H))|exact (proj1 H)|exact (proj1 H)].
Qed.

(** One step of a frame proof, by the shape of the program. *)
Ltac frame :=
  repeat match goal with
  | |- frames (ret _) => apply frames_ret
  | |- frames panic => apply frames_panic
  | |- frames (os_Exit _) => apply frames_os_Exit
  | |- frames out_of_fuel => apply frames_out_of_fuel
  | |- frames self => apply frames_self
  | |- frames (Sleep _) => apply frames_Sleep
  | |- frames (assert _) => apply frames_assert
  | |- frames (send _ _ _) => apply frames_send
  | |- frames (apiCall_prepare _ _ _ _ _) => apply frames_apiCall_prepare
  | H : internal_frames ?call |- frames (?call _ _ _ _ _ true _) => apply H
  | |- frames (bind _ _) => apply frames_bind; [|intros ?]
  | |- frames (match ?x with _ => _ end) => destruct x
  end.

Lemma frames_poll_retries (call : apiCallT) (payload : gmap string value) (fuel : nat) :
  internal_frames call ->
  forall attemptsCounter taskResult,
    frames (poll_retries call payload fuel attemptsCounter taskResult).
Proof.
  intros Hcall. induction fuel as [|fuel IH]; intros a r; cbn [poll_retries]; frame.
  all: apply IH.
Qed.

Lemma frames_poll_task (call : apiCallT) (payload : gmap string value) (fuel : nat) :
  internal_frames call -> frames (poll_task call payload fuel).
Proof.
  intros Hcall. induction fuel as [|fuel IH]; cbn [poll_task]; frame.
  all: first [exact IH | apply frames_poll_retries; assumption].
Qed.

Lemma frames_waitForTask_with (call : apiCallT) (fuel : nat) (taskId : string) :
  internal_frames call -> frames (waitForTask_with call fuel taskId).
Proof.
  intros Hcall. unfold waitForTask_with. frame. apply frames_poll_task; assumption.
Qed.

Lemma frames_wait_each (call : apiCallT) (fuel : nat) (taskObjects : list value) :
  internal_frames call -> forall tasks, frames (wait_each call fuel taskObjects tasks).
Proof.
  intros Hcall. induction taskObjects as [|o rest IH]; intros tasks; cbn [wait_each]; frame.
  - apply frames_waitForTask_with; assumption.
  - apply IH.
Qed.

Lemma frames_waitForTasks_with (call : apiCallT) (fuel : nat) (taskObjects : list value) :
  internal_frames call -> frames (waitForTasks_with call fuel taskObjects).
Proof.
  intros Hcall. unfold waitForTasks_with. frame. apply frames_wait_each; assumption.
Qed.

Lemma frames_follow_tasks (call : apiCallT) (fuel : nat) (command : string)
    (waitForTask : bool) (res : APIResponse) :
  internal_frames call -> frames (follow_tasks call fuel command waitForTask res).
Proof.
  intros Hcall. unfold follow_tasks. frame.
  - apply frames_waitForTask_with; assumption.
  - apply frames_waitForTasks_with; assumption.
Qed.

Lemma frames_apiCall_exchange_internal (call : apiCallT) (fuel : nat) (command : string)
    (waitForTask : bool) (client : Client) (req : Request) :
  internal_frames call ->
  frames (apiCall_exchange call fuel command waitForTask true client req).
Proof.
  intros Hcall. unfold apiCall_exchange, leave, auto_publish.
  cbn [gate_on negb andb]. frame. apply frames_follow_tasks; assumption.
Qed.

Lemma internal_frames_apiCall (fuel : nat) : internal_frames (apiCall fuel).
Proof.
  induction fuel as [|fuel IH]; intros command payload sid_ w px method.
  - cbn [apiCall]. frame.
  - cbn [apiCall]. unfold apiCall_body, apiCall_finish. frame.
    apply frames_apiCall_exchange_internal. exact IH.
Qed.

Lemma frames_query_rounds (call : apiCallT) (fuel : nat) (command dl : string)
    (keys : list string) :
  internal_frames call ->
  forall payload iterations allObjects serverResponse apiRes,
    frames (query_rounds call fuel command dl keys payload iterations allObjects
              serverResponse apiRes).
Proof.
  intros Hcall. induction fuel as [|fuel IH]; intros p i all sr r; cbn [query_rounds]; frame.
  apply IH.
Qed.

Lemma frames_genApiQuery_with (call : apiCallT) (fuel : nat) (command dl : string)
    (keys : list string) (payload : option (gmap string value)) :
  internal_frames call -> frames (genApiQuery_with call fuel command dl keys payload).
Proof.
  intros Hcall. unfold genApiQuery_with. frame. apply frames_query_rounds. assumption.
Qed.

(** X12.  An internal call, a wait for a task or for tasks, and a query
    change nothing of the client object but its fingerprint, however they
    end: the session id, the domain, the API version, the batch size, the two
    counters of calls and the publish flag are as they were. *)
Theorem internal_calls_keep_the_client (fuel : nat) :
  (forall command payload sid_ waitForTask useProxy method,
     frames (apiCall fuel command payload sid_ waitForTask useProxy true method))
  /\ (forall taskId, frames (waitForTask fuel taskId))
  /\ (forall taskObjects, frames (waitForTasks fuel taskObjects))
  /\ (forall command detailsLevel containerKeys payload,
        frames (genApiQuery fuel command detailsLevel containerKeys payload))
  /\ (forall command detailsLevel containerKey includeContainerKey payload,
        frames (ApiQuery fuel command detailsLevel containerKey includeContainerKey payload)).
Proof.
  pose proof (internal_frames_apiCall fuel) as Hcall.
  split; [exact Hcall|]. split; [|split; [|split]].
  - intros taskId. apply frames_waitForTask_with. exact Hcall.
  - intros taskObjects. apply frames_waitForTasks_with. exact Hcall.
  - intros. apply frames_genApiQuery_with. exact Hcall.
  - intros. unfold ApiQuery. frame. apply frames_genApiQuery_with. exact Hcall.
Qed.

Lemma bind_ext_on {A B} (m : M A) (k1 k2 : A -> M B) (st : St P) :
  (forall a st', m st = Done a st' -> k1 a st' = k2 a st') ->
  bind m k1 st = bind m k2 st.
Proof. intros H. unfold bind. destruct (m st); try reflexivity. apply H. reflexivity. Qed.

Lemma gate_off (c : ApiClient) (internal : bool) :
  (autoPublishBatchSize c <= 0)%Z -> gate_on internal c = false.
Proof.
  intros H. unfold gate_on. replace (0 <? autoPublishBatchSize c)%Z with false
    by (symmetry; apply Z.ltb_ge; exact H).
  apply andb_false_r.
Qed.

Lemma same_but_fingerprint_batch (c c' : ApiClient) :
  same_but_fingerprint c c' -> autoPublishBatchSize c' = autoPublishBatchSize c.
Proof. unfold same_but_fingerprint. destruct c, c'. cbn. intros H. simplify_eq. reflexivity. Qed.

Lemma leave_gate_off (internal : bool) (st : St P) :
  (autoPublishBatchSize (cl st) <= 0)%Z -> leave internal st = Done tt st.
Proof. intros H. unfold leave, bind, self. rewrite gate_off by exact H. reflexivity. Qed.

Lemma auto_publish_gate_off (call : apiCallT) (fuel : nat) (internal : bool) (st : St P) :
  (autoPublishBatchSize (cl st) <= 0)%Z -> auto_publish call fuel internal st = Done tt st.
Proof. intros H. unfold auto_publish, bind, self. rewrite gate_off by exact H. reflexivity. Qed.

Lemma apiCall_exchange_gate_off (call : apiCallT) (fuel : nat) (command : string)
    (waitForTask internal : bool) (client : Client) (req : Request) (st : St P) :
  internal_frames call ->
  (autoPublishBatchSize (cl st) <= 0)%Z ->
  apiCall_exchange call fuel command waitForTask internal client req st
  = apiCall_exchange call fuel command waitForTask true client req st.
Proof.
  intros Hcall Hb. unfold apiCall_exchange.
  apply bind_ext_on. intros c sa Hself. unfold self in Hself.
  injection Hself as <- <-.
  rewrite !gate_off by exact Hb.
  apply bind_ext_on. intros [] sb Hret. unfold ret in Hret. injection Hret as <-.
  apply bind_ext_on. intros response s1 Hsend.
  assert (Hs1 : cl s1 = cl st).
  { rewrite send_eq in Hsend. simplify_eq. reflexivity. }
  assert (Hb1 : (autoPublishBatchSize (cl s1) <= 0)%Z) by (rewrite Hs1; exact Hb).
  destruct response as [e|response].
  { unfold bind. rewrite !leave_gate_off by exact Hb1. reflexivity. }
  destruct (fromHTTPResponse response "") as [e|res].
  { unfold bind. rewrite !leave_gate_off by exact Hb1. reflexivity. }
  apply bind_ext_on. intros r s2 Hfollow.
  assert (Hb2 : (autoPublishBatchSize (cl s2) <= 0)%Z).
  { pose proof (frames_follow_tasks call fuel command waitForTask
                  (if negb (Success res) then with_ErrorMsg (buildGenericErrMsg res) res
                   else res) Hcall s1) as Hf.
    rewrite Hfollow in Hf. rewrite (same_but_fingerprint_batch _ _ Hf). exact Hb1. }
  destruct r as [e|res'].
  - unfold bind. rewrite !leave_gate_off by exact Hb2. reflexivity.
  - unfold bind. rewrite !auto_publish_gate_off by exact Hb2. reflexivity.
Qed.

Lemma apiCall_gate_off (fuel : nat) (command : string) (payload : option (gmap string value))
    (sid_ : string) (waitForTask useProxy internal : bool) (method : list string) (st : St P) :
  (autoPublishBatchSize (cl st) <= 0)%Z ->
  apiCall fuel command payload sid_ waitForTask useProxy internal method st
  = apiCall fuel command payload sid_ waitForTask useProxy true method st.
Proof.
  intros Hb. destruct fuel as [|fuel]; [reflexivity|].
  cbn [apiCall]. unfold apiCall_body. apply bind_ext_on. intros r s1 Hprep.
  destruct r as [e|[client req]]; [reflexivity|]. cbn [apiCall_finish].
  apply apiCall_exchange_gate_off; [apply internal_frames_apiCall|].
  pose proof (frames_apiCall_prepare command payload sid_ useProxy method st) as Hf.
  rewrite Hprep in Hf. rewrite (same_but_fingerprint_batch _ _ Hf). exact Hb.
Qed.

(** X14.  With a batch size of zero or less, and so after
    [DisableAutoPublish], an external call is an internal one: it is not held
    at the gate, not counted, not followed by a publish, and it leaves the
    client as it found it but for the fingerprint. *)
Theorem ApiCall_with_batching_off (fuel : nat) (command : string)
    (payload : option (gmap string value)) (sid_ : string) (waitForTask useProxy : bool)
    (method : list string) (st : St P) :
  (autoPublishBatchSize (cl st) <= 0)%Z \/ (exists st0, DisableAutoPublish st0 = Done tt st) ->
  ApiCall fuel command payload sid_ waitForTask useProxy method st
  = apiCall fuel command payload sid_ waitForTask useProxy true method st
  /\ match ApiCall fuel command payload sid_ waitForTask useProxy method st with
     | Done _ st' | Panic st' | Exit _ st' => same_but_fingerprint (cl st) (cl st')
     | OutOfFuel => True
     end.
Proof.
  intros H.
  assert (Hb : (autoPublishBatchSize (cl st) <= 0)%Z).
  { destruct H as [H|(st0 & H)]; [exact H|].
    unfold DisableAutoPublish, bind, update in H. injection H as <-.
    cbn [cl]. destruct (cl st0). cbn. lia. }
  unfold ApiCall. rewrite apiCall_gate_off by exact Hb.
  split; [reflexivity|].
  apply (internal_frames_apiCall fuel command payload sid_ waitForTask useProxy method st).
Qed.

Lemma wait_to_run_done (fuel : nat) (st st' : St P) (u : unit) :
  wait_to_run fuel st = Done u st' ->
  may_enter (cl st) = true
  /\ st' = mkSt (with_totalCallsCtr (int_add (totalCallsCtr (cl st)) 1) (cl st)) (wd st).
Proof.
  destruct fuel as [|fuel]; [discriminate|]. cbn [wait_to_run].
  unfold bind at 1. cbn [self].
  destruct (may_enter (cl st)) eqn:Hm.
  - unfold bind at 1. cbn [self]. rewrite Hm. unfold update. intros H. simplify_eq.
    split; reflexivity.
  - unfold bind at 1. cbn [Sleep emit set_world].
    rewrite wait_to_run_blocked by exact Hm. discriminate.
Qed.

Lemma drain_done (fuel : nat) (st st' : St P) (u : unit) :
  drain fuel st = Done u st' -> cl st' = cl st.
Proof.
  revert st. induction fuel as [|fuel IH]; intros st; [discriminate|].
  cbn [drain]. unfold bind at 1. cbn [self].
  destruct (0 <? activeCallsCtr (cl st))%Z.
  - unfold bind at 1. cbn [Sleep emit set_world]. intros H. apply IH in H. exact H.
  - unfold ret. intros H. simplify_eq. reflexivity.
Qed.

Lemma int_sub_int_add (a : Z) : (- 2 ^ 63 <= a < 2 ^ 63)%Z -> int_sub (int_add a 1) 1 = a.
Proof.
  intros H. unfold int_sub, int_add.
  replace (wrap64 (a + 1) - 1)%Z with (wrap64 (a + 1) + (-1))%Z by lia.
  rewrite wrap64_add_l. replace (a + 1 + -1)%Z with a by lia.
  unfold wrap64. rewrite Z.mod_small by lia. lia.
Qed.

(** The publish cycle of an external call that returns: either none was
    due, or one ran and left the counter of calls at zero. *)
Lemma auto_publish_done (call : apiCallT) (fuel : nat) (st st' : St P) (u : unit) :
  internal_frames call ->
  gate_on false (cl st) = true ->
  auto_publish call fuel false st = Done u st' ->
  same_but_fingerprint (gone (cl st)) (cl st')
  \/ (duringPublish (cl st) = false
      /\ same_but_fingerprint (with_totalCallsCtr 0 (gone (cl st))) (cl st')).
Proof.
  intros Hcall Hg H. unfold auto_publish in H.
  unfold bind at 1 in H. cbn [self] in H. rewrite Hg in H.
  unfold bind at 1 in H. cbn [decreaseActiveCalls update cl wd] in H.
  unfold bind at 1 in H. cbn [self cl] in H.
  change (with_activeCallsCtr (int_sub (activeCallsCtr (cl st)) 1) (cl st)) with (gone (cl st)) in H.
  destruct (publish_due (gone (cl st))) eqn:Hdue.
  2: { unfold ret in H. simplify_eq. left. reflexivity. }
  unfold bind at 1 in H. cbn [self cl] in H. rewrite Hdue in H.
  unfold bind at 1 in H. cbn [update cl wd] in H.
  unfold bind at 1 in H.
  match type of H with context [drain fuel ?s] =>
    destruct (drain fuel s) as [[] s1| | |] eqn:Hd
  end; try discriminate.
  apply drain_done in Hd. cbn [cl] in Hd.
  unfold bind at 1 in H. cbn [self] in H. unfold bind at 1 in H.
  match type of H with context [call ?a ?b ?c ?d ?e ?f ?g ?s] =>
    pose proof (Hcall a b c d e g s) as Hf;
    destruct (call a b c d e f g s) as [[publishRes err] s2| | |]
  end; try discriminate.
  unfold bind, update in H. cbn [cl wd] in H. injection H as <-.
  right. cbn [cl]. rewrite Hd in Hf. unfold publish_due in Hdue.
  apply andb_true_iff in Hdue as [_ Hdp]. apply negb_true_iff in Hdp.
  split; [destruct (cl st); exact Hdp|].
  unfold same_but_fingerprint in *. destruct (cl st), (cl s2). cbn in *. simplify_eq. reflexivity.
Qed.

Lemma leave_gate_on (st : St P) :
  gate_on false (cl st) = true -> leave false st = Done tt (mkSt (gone (cl st)) (wd st)).
Proof. intros H. unfold leave, bind, self. rewrite H. reflexivity. Qed.

Lemma gate_on_same (c c' : ApiClient) :
  autoPublishBatchSize c' = autoPublishBatchSize c -> gate_on false c' = gate_on false c.
Proof. unfold gate_on. intros ->. reflexivity. Qed.

Lemma counted (c1 c3 c' : ApiClient) :
  (- 2 ^ 63 <= activeCallsCtr c1 < 2 ^ 63)%Z ->
  same_but_fingerprint (entered c1) c3 ->
  same_but_fingerprint (gone c3) c' ->
  same_but_fingerprint_and_count c1 c'
  /\ totalCallsCtr c' = int_add (totalCallsCtr c1) 1.
Proof.
  intros Ha H3 H'. pose proof (int_sub_int_add _ Ha) as Hi.
  unfold same_but_fingerprint, same_but_fingerprint_and_count, gone, entered in *.
  destruct c1, c3, c'. cbn in *. simplify_eq. rewrite Hi. split; reflexivity.
Qed.

Lemma published (c1 c3 c' : ApiClient) :
  (- 2 ^ 63 <= activeCallsCtr c1 < 2 ^ 63)%Z ->
  same_but_fingerprint (entered c1) c3 ->
  duringPublish c3 = false ->
  same_but_fingerprint (with_totalCallsCtr 0 (gone c3)) c' ->
  same_but_fingerprint_and_count c1 c' /\ totalCallsCtr c' = 0%Z.
Proof.
  intros Ha H3 Hd H'. pose proof (int_sub_int_add _ Ha) as Hi.
  unfold same_but_fingerprint, same_but_fingerprint_and_count, gone, entered in *.
  destruct c1, c3, c'. cbn in *. simplify_eq. rewrite Hi. split; reflexivity.
Qed.

Lemma uncounted (c c' : ApiClient) :
  same_but_fingerprint c c' ->
  same_but_fingerprint_and_count c c' /\ totalCallsCtr c' = totalCallsCtr c.
Proof.
  unfold same_but_fingerprint, same_but_fingerprint_and_count.
  destruct c, c'. cbn. intros H. simplify_eq. split; reflexivity.
Qed.

Lemma counted_after (c c1 c' : ApiClient) :
  same_but_fingerprint c c1 ->
  same_but_fingerprint_and_count c1 c' ->
  same_but_fingerprint_and_count c c'
  /\ totalCallsCtr c1 = totalCallsCtr c /\ activeCallsCtr c1 = activeCallsCtr c.
Proof.
  unfold same_but_fingerprint, same_but_fingerprint_and_count.
  destruct c, c1, c'. cbn. intros H H'. simplify_eq. repeat split.
Qed.

Lemma apiCall_exchange_restores (call : apiCallT) (fuel : nat) (command : string)
    (waitForTask : bool) (client : Client) (req : Request) (st st' : St P)
    (r : APIResponse * option Err) :
  internal_frames call ->
  gate_on false (cl st) = true ->
  (- 2 ^ 63 <= activeCallsCtr (cl st) < 2 ^ 63)%Z ->
  apiCall_exchange call fuel command waitForTask false client req st = Done r st' ->
  same_but_fingerprint_and_count (cl st) (cl st')
  /\ (totalCallsCtr (cl st') = int_add (totalCallsCtr (cl st)) 1 \/ totalCallsCtr (cl st') = 0%Z).
Proof.
  intros Hcall Hg Ha H. unfold apiCall_exchange in H.
  unfold bind at 1 in H. cbn [self] in H. rewrite Hg in H.
  unfold bind at 1 in H. unfold bind at 1 in H.
  destruct (wait_to_run fuel st) as [[] s1| | |] eqn:Hw; try discriminate.
  apply wait_to_run_done in Hw as [Hm ->].
  cbn [increaseActiveCalls update cl wd] in H.
  change (with_activeCallsCtr _ _) with (entered (cl st)) in H.
  unfold bind at 1 in H. rewrite send_eq in H. cbn [cl wd w_srv] in H.
  set (s2 := after_send _ _ _ _ _) in H.
  assert (Hs2 : same_but_fingerprint (entered (cl st)) (cl s2)) by reflexivity.
  clearbody s2.
  assert (Hgs : forall s, same_but_fingerprint (entered (cl st)) (cl s) ->
                  gate_on false (cl s) = true).
  { intros s Hs. rewrite <- Hg. apply gate_on_same.
    rewrite (same_but_fingerprint_batch _ _ Hs). destruct (cl st); reflexivity. }
  assert (Hleave : forall s e, same_but_fingerprint (entered (cl st)) (cl s) ->
            bind (leave false) (fun _ => ret (emptyResponse, Some e)) s = Done r st' ->
            same_but_fingerprint_and_count (cl st) (cl st')
            /\ (totalCallsCtr (cl st') = int_add (totalCallsCtr (cl st)) 1
                \/ totalCallsCtr (cl st') = 0%Z)).
  { intros s e Hs Hl. unfold bind in Hl. rewrite leave_gate_on in Hl by (apply Hgs; exact Hs).
    unfold ret in Hl. injection Hl as _ <-. cbn [cl].
    destruct (counted (cl st) (cl s) (gone (cl s)) Ha Hs (same_but_fingerprint_refl _))
      as [H1 H2].
    split; [exact H1|left; exact H2]. }
  destruct (fst (Do client req (w_srv (wd st)))) as [e|response]; [exact (Hleave _ _ Hs2 H)|].
  destruct (fromHTTPResponse response "") as [e|res]; [exact (Hleave _ _ Hs2 H)|].
  unfold bind at 1 in H.
  match type of H with context [follow_tasks ?a ?b ?c ?d ?e ?s] =>
    pose proof (frames_follow_tasks a b c d e Hcall s) as Hf;
    destruct (follow_tasks a b c d e s) as [[e1|res1] s3| | |]
  end; try discriminate.
  - apply (Hleave s3 e1); [|exact H].
    eapply same_but_fingerprint_trans; eassumption.
  - assert (Hs3 : same_but_fingerprint (entered (cl st)) (cl s3))
      by (eapply same_but_fingerprint_trans; eassumption).
    unfold bind at 1 in H.
    destruct (auto_publish call fuel false s3) as [[] s4| | |] eqn:Hp; try discriminate.
    unfold ret in H. injection H as _ <-.
    apply auto_publish_done in Hp; [|exact Hcall|apply Hgs; exact Hs3].
    destruct Hp as [Hp|[Hdp Hp]].
    + destruct (counted _ _ _ Ha Hs3 Hp) as [H1 H2]. split; [exact H1|left; exact H2].
    + destruct (published _ _ _ Ha Hs3 Hdp Hp) as [H1 H2]. split; [exact H1|right; exact H2].
Qed.

(** X13.  An external call that returns, with a response or with an error
    and on whichever of its paths, leaves the counter of active calls where
    it found it: every increment at the gate is undone.  The batch size and
    the publish flag are as before too, and the counter of calls is as
    before, or one more, or zero after a publish cycle. *)
Theorem ApiCall_restores_active_calls (fuel : nat) (command : string)
    (payload : option (gmap string value)) (sid_ : string) (waitForTask useProxy : bool)
    (method : list string) (st st' : St P) (r : APIResponse * option Err) :
  ApiCall fuel command payload sid_ waitForTask useProxy method st = Done r st' ->
  (- 2 ^ 63 <= activeCallsCtr (cl st) < 2 ^ 63)%Z ->
  same_but_fingerprint_and_count (cl st) (cl st')
  /\ (totalCallsCtr (cl st') = totalCallsCtr (cl st)
      \/ totalCallsCtr (cl st') = int_add (totalCallsCtr (cl st)) 1
      \/ totalCallsCtr (cl st') = 0%Z).
Proof.
  intros H Ha. unfold ApiCall in H. destruct fuel as [|fuel]; [discriminate|].
  cbn [apiCall] in H. unfold apiCall_body in H. unfold bind at 1 in H.
  pose proof (frames_apiCall_prepare command payload sid_ useProxy method st) as Hf.
  destruct (apiCall_prepare command payload sid_ useProxy method st)
    as [[e|[client req]] s1| | |]; try discriminate.
  - cbn [apiCall_finish] in H. unfold ret in H. injection H as _ <-.
    destruct (uncounted _ _ Hf) as [H1 H2]. split; [exact H1|left; exact H2].
  - cbn [apiCall_finish] in H.
    destruct (gate_on false (cl s1)) eqn:Hg.
    + assert (Ha1 : (- 2 ^ 63 <= activeCallsCtr (cl s1) < 2 ^ 63)%Z).
      { replace (activeCallsCtr (cl s1)) with (activeCallsCtr (cl st)); [exact Ha|].
        unfold same_but_fingerprint in Hf. destruct (cl st), (cl s1). cbn in Hf |- *.
        simplify_eq. reflexivity. }
      destruct (apiCall_exchange_restores _ _ _ _ _ _ _ _ _ (internal_frames_apiCall fuel)
                  Hg Ha1 H) as [H1 H2].
      destruct (counted_after _ _ _ Hf H1) as (H3 & H4 & _).
      split; [exact H3|]. right. rewrite <- H4. exact H2.
    + assert (Hb : (autoPublishBatchSize (cl s1) <= 0)%Z).
      { unfold gate_on in Hg. cbn [negb andb] in Hg. apply Z.ltb_ge in Hg. exact Hg. }
      rewrite apiCall_exchange_gate_off in H by (try apply internal_frames_apiCall; exact Hb).
      pose proof (frames_apiCall_exchange_internal (apiCall fuel) fuel command waitForTask
                    client req (internal_frames_apiCall fuel) s1) as Hx.
      rewrite H in Hx.
      destruct (uncounted _ _ (same_but_fingerprint_trans _ _ _ Hf Hx)) as [H1 H2].
      split; [exact H1|left; exact H2].
Qed.



End Frame.

(** ** Retries of the task poller *)

Section Retries.
Context {P : Platform}.

Lemma poll_retries_recovers (call : apiCallT) (Inv : nat -> St P -> Prop) (Post : St P -> Prop)
    (r : APIResponse) (payload : gmap string value) :
  (forall k st, Inv (S k) st ->
     exists r' st',
       call "show-task" (Some payload) (sid (cl st)) false (isProxyUsed (cl st)) true [] st
       = Done (r', None) st'
       /\ Success r' = false /\ Inv k st') ->
  (forall st, Inv 0%nat st ->
     exists st',
       call "show-task" (Some payload) (sid (cl st)) false (isProxyUsed (cl st)) true [] st
       = Done (r, None) st'
       /\ Post st') ->
  (forall k st d, Inv k st -> Inv k (final (Sleep d st) st)) ->
  Success r = true ->
  forall (k : nat) (fuel : nat) (attemptsCounter : Z) (taskResult : APIResponse) (st : St P),
    Inv k st -> Success taskResult = false ->
    (attemptsCounter + Z.of_nat k < 5)%Z ->
    (k + 2 <= fuel)%nat ->
    exists st', poll_retries call payload fuel attemptsCounter taskResult st = Done (inr r) st'
                /\ Post st'.
Proof.
  intros Hfail Hok Hsleep Hr. induction k as [|k IH]; intros fuel a r0 st Hinv Hr0 Ha Hfuel.
  - destruct fuel as [|[|fuel]]; try lia.
    cbn [poll_retries]. rewrite Hr0. cbn [negb].
    replace (a <? 5)%Z with true by (symmetry; apply Z.ltb_lt; lia).
    unfold bind at 1. cbn [self]. unfold bind at 1. cbn [Sleep emit set_world].
    unfold bind at 1. cbn [self]. unfold bind at 1.
    specialize (Hsleep _ st (sleep (cl st)) Hinv). cbn in Hsleep.
    match goal with |- context [call ?a ?b ?c ?d ?e ?f ?g ?s] =>
      destruct (Hok s Hsleep) as (st' & -> & Hpost)
    end.
    rewrite Hr. cbn [negb ret]. eauto.
  - destruct fuel as [|fuel]; try lia.
    cbn [poll_retries]. rewrite Hr0. cbn [negb].
    replace (a <? 5)%Z with true by (symmetry; apply Z.ltb_lt; lia).
    unfold bind at 1. cbn [self]. unfold bind at 1. cbn [Sleep emit set_world].
    unfold bind at 1. cbn [self]. unfold bind at 1.
    specialize (Hsleep _ st (sleep (cl st)) Hinv). cbn in Hsleep.
    match goal with |- context [call ?a ?b ?c ?d ?e ?f ?g ?s] =>
      destruct (Hfail k s Hsleep) as (r' & st' & -> & Hr' & Hinv')
    end.
    apply IH; [exact Hinv'|exact Hr'|lia|lia].
Qed.

(** X17.  [waitForTask] gets over up to five unsuccessful polls in a row.
    [Inv k] are the states in which the server is going to answer [k] more
    polls unsuccessfully and the next one with [r], a successful response
    whose sub-tasks have all left "in progress"; [Post] is what holds once
    [r] has been received.  From a state of [Inv n] with [n] at most five,
    the wait returns what [checkTasksStatus] makes of [r]. *)
Theorem waitForTask_recovers_within_five_retries (call : apiCallT)
    (Inv : nat -> St P -> Prop) (Post : St P -> Prop) (r : APIResponse)
    (tasks : list value) (completedTasks : Z) (taskId : string) :
  let payload := show_task_payload (VStr taskId) in
  (forall k st, Inv (S k) st ->
     exists r' st',
       call "show-task" (Some payload) (sid (cl st)) false (isProxyUsed (cl st)) true [] st
       = Done (r', None) st'
       /\ Success r' = false /\ Inv k st') ->
  (forall st, Inv 0%nat st ->
     exists st',
       call "show-task" (Some payload) (sid (cl st)) false (isProxyUsed (cl st)) true [] st
       = Done (r, None) st'
       /\ Post st') ->
  (forall k st d, Inv k st -> Inv k (final (Sleep d st) st)) ->
  Success r = true ->
  data r !! "tasks" = Some (VArr tasks) ->
  count_tasks tasks 0 0 = Some (completedTasks, completedTasks) ->
  forall (n fuel : nat) (st : St P),
    (n <= 5)%nat -> (n + 2 <= fuel)%nat -> Inv n st ->
    exists st',
      waitForTask_with call fuel taskId st
      = match checkTasksStatus r with
        | Some r' => Done (r', None) st'
        | None => Panic st'
        end
      /\ Post st'.
Proof.
  intros payload Hfail Hok Hsleep Hr Htasks Hcount n fuel st Hn Hfuel Hinv.
  assert (Hpoll : exists st', poll_task call payload fuel st
                              = Done (inr r) st' /\ Post st').
  { destruct fuel as [|fuel]; [lia|]. cbn [poll_task].
    unfold bind at 1. cbn [self]. unfold bind at 1.
    destruct n as [|n].
    - fold payload. destruct (Hok st Hinv) as (st' & -> & Hpost).
      unfold bind at 1. destruct fuel as [|fuel]; [lia|]. cbn [poll_retries].
      rewrite Hr. cbn [negb ret]. rewrite Htasks. cbn [as_arr].
      unfold bind, assert, ret. rewrite Hcount, Z.eqb_refl. eauto.
    - fold payload. destruct (Hfail n st Hinv) as (r' & st1 & -> & Hr' & Hinv1).
      unfold bind at 1.
      destruct (poll_retries_recovers call Inv Post r payload
                  Hfail Hok Hsleep Hr n fuel 0%Z r' st1 Hinv1 Hr' ltac:(lia) ltac:(lia))
        as (st' & -> & Hpost).
      rewrite Htasks. cbn [as_arr].
      unfold bind, assert, ret. rewrite Hcount, Z.eqb_refl. eauto. }
  destruct Hpoll as (st' & Hp & Hpost). exists st'. split; [|exact Hpost].
  unfold waitForTask_with. fold payload. unfold bind at 1. rewrite Hp.
  destruct (checkTasksStatus r); reflexivity.
Qed.

Lemma count_tasks_any_status (ms : list (gmap string value)) (c0 t0 : Z) :
  Forall (fun task => task !! "status" = None \/ task !! "status" = Some VNil
                      \/ exists s, task !! "status" = Some (VStr s)) ms ->
  exists d : Z,
    count_tasks (map VObj ms) c0 t0 = Some (c0 + d, t0 + Z.of_nat (length ms))
    /\ (0 <= d <= Z.of_nat (length ms))%Z
    /\ (d = Z.of_nat (length ms)
        <-> Forall (fun task => exists s, task !! "status" = Some (VStr s) /\ s <> InProgress) ms).
Proof.
  intros H. revert c0 t0. induction H as [|m ms Hm Hms IH]; intros c0 t0.
  - exists 0%Z. cbn [map count_tasks length]. rewrite !Z.add_0_r.
    split; [reflexivity|]. split; [lia|]. split; [constructor|reflexivity].
  - cbn [map count_tasks length].
    assert (Hskip : (m !! "status" = None \/ m !! "status" = Some VNil) ->
              exists d : Z,
                count_tasks (map VObj ms) c0 (t0 + 1) = Some (c0 + d, t0 + Z.of_nat (S (length ms)))
                /\ (0 <= d <= Z.of_nat (S (length ms)))%Z
                /\ (d = Z.of_nat (S (length ms))
                    <-> Forall (fun task => exists s, task !! "status" = Some (VStr s)
                                                      /\ s <> InProgress) (m :: ms))).
    { intros Hno. destruct (IH c0 (t0 + 1)%Z) as (d & -> & Hr & Hiff).
      exists d. split; [f_equal; f_equal; lia|]. split; [lia|]. split; [lia|].
      intros HF. inversion HF as [|? ? (s & Hs & _) _]; subst.
      destruct Hno as [Hno|Hno]; congruence. }
    destruct Hm as [Hno|[Hno|(s & Hs)]].
    + rewrite Hno. apply Hskip. left. exact Hno.
    + rewrite Hno. apply Hskip. right. exact Hno.
    + rewrite Hs. destruct (String.eqb s InProgress) eqn:Hin.
      * apply String.eqb_eq in Hin. destruct (IH c0 (t0 + 1)%Z) as (d & -> & Hr & Hiff).
        exists d. split; [f_equal; f_equal; lia|]. split; [lia|]. split; [lia|].
        intros HF. inversion HF as [|? ? (s' & Hs' & Hne) _]; subst. congruence.
      * apply String.eqb_neq in Hin. destruct (IH (c0 + 1)%Z (t0 + 1)%Z) as (d & -> & Hr & Hiff).
        exists (d + 1)%Z. split; [f_equal; f_equal; lia|]. split; [lia|]. split.
        -- intros Hd. constructor; [exists s; split; assumption|]. apply Hiff. lia.
        -- intros HF. inversion HF as [|? ? _ HF']; subst. apply Hiff in HF'. lia.
Qed.

(** X18.  The completion count of [waitForTask] takes a sub-task for
    completed only when it has a status, the status is a string and the
    string is not "in progress": a sub-task with no status, or a null one,
    is counted among the tasks and not among the completed ones, so the
    parent task is complete exactly when every sub-task has a status other
    than "in progress" (and at once when there is no sub-task). *)
Theorem count_tasks_needs_every_status (ms : list (gmap string value)) :
  Forall (fun task => task !! "status" = None \/ task !! "status" = Some VNil
                      \/ exists s, task !! "status" = Some (VStr s)) ms ->
  exists completedTasks : Z,
    count_tasks (map VObj ms) 0 0 = Some (completedTasks, Z.of_nat (length ms))
    /\ ((completedTasks =? Z.of_nat (length ms))%Z = true
        <-> Forall (fun task => exists s, task !! "status" = Some (VStr s) /\ s <> InProgress) ms).
Proof.
  intros H. destruct (count_tasks_any_status ms 0 0 H) as (d & Hc & Hr & Hiff).
  exists d. split; [exact Hc|]. rewrite <- Hiff. apply Z.eqb_eq.
Qed.

End Retries.

(** ** Results of a query *)

Lemma Itoa_inj (a b : Z) : Itoa a = Itoa b -> a = b.
Proof.
  unfold Itoa. intros H.
  assert (Hn : forall z, Z.to_int z <> Decimal.Pos Decimal.Nil
                         /\ Z.to_int z <> Decimal.Neg Decimal.Nil).
  { intros [|p|p]; cbn; split; try discriminate; intros Hp; injection Hp as Hp;
      exact (DecimalPos.Unsigned.to_uint_nonnil p Hp). }
  apply (f_equal NilZero.int_of_string) in H.
  rewrite !NilZero.isi in H by apply Hn.
  injection H as H. apply DecimalZ.to_int_inj. exact H.
Qed.

Lemma index_objects_other (objs : list (gmap string value)) (y : Z) (m : gmap string value)
    (k : string) :
  (forall i, (i < length objs)%nat -> k <> Itoa (y + Z.of_nat i)) ->
  index_objects y objs m !! k = m !! k.
Proof.
  revert y m. induction objs as [|x objs IH]; intros y m H; [reflexivity|].
  cbn [index_objects]. rewrite IH.
  - apply lookup_insert_ne. intros Hk. apply (H 0%nat); [cbn; lia|].
    rewrite Z.add_0_r. symmetry. exact Hk.
  - intros i Hi. replace (y + 1 + Z.of_nat i)%Z with (y + Z.of_nat (S i))%Z by lia.
    apply H. cbn. lia.
Qed.

Lemma index_objects_at (objs : list (gmap string value)) (y : Z) (m : gmap string value)
    (i : nat) (x : gmap string value) :
  objs !! i = Some x -> index_objects y objs m !! Itoa (y + Z.of_nat i) = Some (VObj x).
Proof.
  revert y m i. induction objs as [|x0 objs IH]; intros y m i H; [discriminate|].
  cbn [index_objects]. destruct i as [|i].
  - cbn in H. injection H as ->. rewrite Z.add_0_r.
    rewrite index_objects_other; [apply lookup_insert_eq|].
    intros j _ Hj. apply Itoa_inj in Hj. lia.
  - cbn in H. replace (y + Z.of_nat (S i))%Z with (y + 1 + Z.of_nat i)%Z by lia.
    apply IH. exact H.
Qed.

Lemma index_objects_only (objs : list (gmap string value)) (y : Z) (m : gmap string value)
    (k : string) (v : value) :
  index_objects y objs m !! k = Some v ->
  m !! k = Some v
  \/ exists i x, k = Itoa (y + Z.of_nat i) /\ objs !! i = Some x /\ v = VObj x.
Proof.
  revert y m. induction objs as [|x0 objs IH]; intros y m H; [left; exact H|].
  cbn [index_objects] in H. apply IH in H. destruct H as [H|(i & x & -> & Hx & ->)].
  - destruct (decide (k = Itoa y)) as [->|Hk].
    + rewrite lookup_insert_eq in H. injection H as <-. right. exists 0%nat, x0.
      rewrite Z.add_0_r. repeat split.
    + rewrite lookup_insert_ne in H by congruence. left. exact H.
  - right. exists (S i), x. split; [f_equal; lia|]. split; [exact Hx|reflexivity].
Qed.

Section Results.
Context {P : Platform}.

(** X21.  Asked to leave the container key out, [ApiQuery] returns the
    objects of the last response keyed by their position, written in
    decimal from "0" on, and nothing else: the counts of the response
    ("total", "from", "to") are gone from the data. *)
Theorem ApiQuery_indexes_objects (fuel : nat) (command detailsLevel containerKey : string)
    (payload : option (gmap string value)) (st st' : St P)
    (serverResponse : list APIResponse) (apiRes : APIResponse)
    (objs : list (gmap string value)) :
  let key := if String.eqb containerKey "" then "objects" else containerKey in
  genApiQuery fuel command detailsLevel [key] payload st = Done (serverResponse, None) st' ->
  last serverResponse = Some apiRes ->
  Success apiRes = true ->
  data apiRes !! key = Some (VObjs objs) ->
  exists d,
    ApiQuery fuel command detailsLevel containerKey false payload st
    = Done (setData d apiRes, None) st'
    /\ (forall i x, objs !! i = Some x -> d !! Itoa (Z.of_nat i) = Some (VObj x))
    /\ (forall k v, d !! k = Some v ->
          exists i x, k = Itoa (Z.of_nat i) /\ objs !! i = Some x /\ v = VObj x).
Proof.
  intros key Hgen Hlast Hs Hd. exists (index_objects 0 objs ∅). split; [|split].
  - unfold ApiQuery. fold key. unfold bind at 1. rewrite Hgen. rewrite Hlast, Hs, Hd.
    cbn [negb andb]. rewrite bool_decide_eq_true_2 by eauto.
    cbn [as_objs assert]. reflexivity.
  - intros i x Hx. apply (index_objects_at objs 0 ∅ i x Hx).
  - intros k v Hk. apply index_objects_only in Hk. destruct Hk as [Hk|Hk]; [discriminate|].
    exact Hk.
Qed.

(** X22.  An error of the first request of a query (no connection, a bad
    certificate) is printed and dropped: the query returns the empty
    response, whose success flag is false, and no error. *)
Theorem ApiQuery_swallows_first_transport_error (fuel : nat)
    (command detailsLevel containerKey : string) (includeContainerKey : bool)
    (payload : option (gmap string value)) (st st' : St P) (res : APIResponse) (e : Err) :
  apiCall fuel command (Some (query_payload (default ∅ payload) detailsLevel 0))
    (sid (cl st)) false (isProxyUsed (cl st)) true [] st = Done (res, Some e) st' ->
  ApiQuery fuel command detailsLevel containerKey includeContainerKey payload st
  = Done (emptyResponse, None) st'.
Proof.
  intros H.
  pose proof (apiCall_internal_requests fuel command
                (query_payload (default ∅ payload) detailsLevel 0) (sid (cl st))
                (isProxyUsed (cl st)) st) as Hres.
  rewrite H in Hres. destruct Hres as [-> _].
  unfold ApiQuery, genApiQuery, genApiQuery_with.
  unfold bind at 1. unfold bind at 1. cbn [self]. unfold bind at 1. rewrite H.
  reflexivity.
Qed.

(** X23.  An error of the request for a later page is returned: the query
    gives the empty response and that error, and the objects received so far
    are dropped. *)
Theorem ApiQuery_returns_later_transport_error (fuel : nat)
    (command detailsLevel containerKey : string) (includeContainerKey : bool)
    (payload : option (gmap string value)) (st st1 st2 : St P) (res1 res2 : APIResponse)
    (e : Err) (page1 : list value) (objs : list (gmap string value)) :
  let key := if String.eqb containerKey "" then "objects" else containerKey in
  let first := query_payload (default ∅ payload) detailsLevel 0 in
  apiCall (S fuel) command (Some first) (sid (cl st)) false (isProxyUsed (cl st)) true [] st
    = Done (res1, None) st1 ->
  Success res1 = true ->
  data res1 !! key = Some (VArr page1) ->
  objects_of page1 = Some objs ->
  iface_eq (default VNil (data res1 !! "total"))
    (match data res1 !! "to" with None | Some VNil => VNum 0 | Some v => v end) = Some false ->
  apiCall (S fuel) command (Some (query_payload first detailsLevel (int_add 0 1)))
    (sid (cl st1)) false (isProxyUsed (cl st1)) true [] st1 = Done (res2, Some e) st2 ->
  ApiQuery (S fuel) command detailsLevel containerKey includeContainerKey payload st
  = Done (emptyResponse, Some e) st2.
Proof.
  intros key first H1 Hs Hd Hobjs Hne H2.
  unfold ApiQuery, genApiQuery, genApiQuery_with. fold key. fold first.
  unfold bind at 1. unfold bind at 1. cbn [self]. unfold bind at 1. rewrite H1.
  unfold lacks_key. cbn [existsb]. rewrite Hd. rewrite bool_decide_eq_true_2 by eauto.
  cbn [negb orb]. cbn [query_rounds]. rewrite Hs. cbn [negb].
  cbn [collect]. rewrite Hd. cbn [as_arr mbind option_bind]. rewrite Hobjs.
  cbn [mbind option_bind assert]. unfold bind at 1. cbn [ret].
  rewrite Hne. cbn [assert]. unfold bind at 1. cbn [ret].
  unfold bind at 1. cbn [self]. unfold bind at 1. rewrite H2. reflexivity.
Qed.

End Results.

(** ** A failed login, and the port *)

Section Sessions.
Context {P : Platform}.

(** X24.  A login that fails, in the transport, in the decoding of the
    answer or by an answer that is not a success, stores nothing: the
    client keeps the session id, the domain and the API version it had, and
    the failure is returned as [apiCall] gave it. *)
Theorem commonLoginLogic_failure_stores_nothing (fuel : nat) (credentials : gmap string value)
    (continueLastSession : bool) (domain_ : string) (readOnly : bool)
    (payload : option (gmap string value)) (st st1 : St P) (client : Client) (req : Request)
    (outcome : Err + HttpResponse) (srv' : ServerState) :
  let creds :=
    login_credentials (cl st) credentials continueLastSession domain_ readOnly payload in
  apiCall_prepare "login" (Some creds) "" (isProxyUsed (cl st)) [] st
    = Done (inr (client, req)) st1 ->
  Do client req (w_srv (wd st1)) = (outcome, srv') ->
  (forall resp loginRes,
     outcome = inr resp -> fromHTTPResponse resp "" = inr loginRes -> Success loginRes = false) ->
  commonLoginLogic (S fuel) credentials continueLastSession domain_ readOnly payload st
  = Done (match outcome with
          | inl e => (emptyResponse, Some e)
          | inr resp =>
              match fromHTTPResponse resp "" with
              | inl e => (emptyResponse, Some e)
              | inr loginRes => (with_ErrorMsg (buildGenericErrMsg loginRes) loginRes, None)
              end
          end)
      (after_send (cl st1) (wd st1) srv' "login" req)
  /\ sid (cl st1) = sid (cl st)
  /\ domain (cl st1) = domain (cl st)
  /\ apiVersion (cl st1) = apiVersion (cl st).
Proof.
  intros creds Hp HDo Hfail.
  pose proof (apiCall_prepare_quiet "login" (Some creds) "" (isProxyUsed (cl st)) [] st) as Hq.
  rewrite Hp in Hq. destruct Hq as [(Hc & _ & _) _].
  split; [|destruct (cl st), (cl st1); cbn in Hc; simplify_eq; repeat split].
  unfold commonLoginLogic. unfold bind at 1. cbn [self]. fold creds. unfold bind at 1.
  cbn [apiCall]. unfold apiCall_body. unfold bind at 1. rewrite Hp. cbn [apiCall_finish].
  rewrite apiCall_exchange_internal, HDo. cbn [fst snd].
  destruct outcome as [e|resp]; [reflexivity|].
  destruct (fromHTTPResponse resp "") as [e|loginRes] eqn:Hdec; [reflexivity|].
  rewrite (Hfail resp loginRes eq_refl Hdec). cbn [negb]. unfold bind, ret.
  replace (Success (with_ErrorMsg (buildGenericErrMsg loginRes) loginRes)) with false
    by (symmetry; destruct loginRes; exact (Hfail resp _ eq_refl Hdec)).
  reflexivity.
Qed.

(** X26.  The flag [isPortDefault_] says whether the port is 443: so the
    constructor leaves it, which also turns a port of -1 into 443, and so
    [SetPort] leaves it, which changes nothing else of the client. *)
Theorem IsPortDefault_tracks_the_port :
  (forall apiCA : ApiClientArgs,
     let c := APIClient apiCA in
     isPortDefault_ c = (port c =? DefaultPort)%Z
     /\ port c = (if (Port apiCA =? -1)%Z then DefaultPort else Port apiCA))
  /\ (forall (portToSet : Z) (st : St P),
        exists c',
          SetPort portToSet st = Done tt (mkSt c' (wd st))
          /\ port c' = portToSet
          /\ isPortDefault_ c' = (port c' =? DefaultPort)%Z
          /\ with_port 0 (with_isPortDefault_ false c')
             = with_port 0 (with_isPortDefault_ false (cl st))).
Proof.
  split.
  - intros apiCA c. subst c. unfold APIClient. cbn [isPortDefault_ port].
    destruct (Port apiCA =? -1)%Z eqn:H1; cbn [orb].
    + split; reflexivity.
    + destruct (Port apiCA =? DefaultPort)%Z eqn:H2.
      * apply Z.eqb_eq in H2. split; [reflexivity|symmetry; exact H2].
      * split; [symmetry; exact H2|reflexivity].
  - intros portToSet st. eexists. split; [reflexivity|].
    destruct (cl st). repeat split.
Qed.

End Sessions.

(** ** Runs against the simulated server *)

Import Sim.

(** C9, counterexample.  The operator refuses the changed fingerprint at
    the first verification and accepts it at the second: the two decisions
    differ although nothing changed at the server. *)
Lemma CheckFingerprint_decision_follows_operator :
  exists st1 st2,
    CheckFingerprint changed_mind = Done (false, None) st1
    /\ w_srv (wd st1) = w_srv (wd changed_mind)
    /\ CheckFingerprint st1 = Done (true, None) st2.
Proof. do 2 eexists. split; [|split]; vm_compute; reflexivity. Qed.

Lemma CheckFingerprint_idempotent_witness :
  exists st2,
    CheckFingerprint (final (CheckFingerprint accepting) accepting) = Done (true, None) st2
    /\ w_file (wd st2) = JsonMap (<["mgmt" := "CC"]> ∅)
    /\ writes (w_log (wd st2)) = [<["mgmt" := "CC"]> ∅].
Proof.
  apply (CheckFingerprint_idempotent accepting
           (final (CheckFingerprint accepting) accepting) (true, None));
    vm_compute; reflexivity.
Defined.

(** C4, counterexample.  "AB:CD" and "abcd" are equal once colons are
    removed and letters lower-cased, yet the check treats them as different:
    it asks the operator, and on the refusal reports the server untrusted. *)
Lemma CheckFingerprint_is_case_sensitive :
  ToLower (remove_colons "AB:CD") = ToLower (remove_colons "abcd")
  /\ exists st',
       CheckFingerprint recorded_upper = Done (false, None) st'
       /\ w_log (wd st') = [EvAsk "Do you accept this fingerprint?"; EvProbe "mgmt" 443].
Proof. split; [reflexivity|]. eexists. split; vm_compute; reflexivity. Qed.

Lemma CheckFingerprint_colon_insensitive_witness :
  returned (CheckFingerprint recorded_colons) = Some (true, None).
Proof.
  rewrite (CheckFingerprint_colon_insensitive recorded_colons (<["mgmt" := "AB:CD"]> ∅)
             "AB:CD" "ABCD");
    [reflexivity|reflexivity|reflexivity|reflexivity|reflexivity|discriminate|reflexivity].
Defined.

Lemma apiCall_probe_overwrites_fingerprint_witness :
  apiCall 1 "show-host" None "" false false false ["GET"]
    (mkSt (with_fingerprint "EE:FF" strict) (wd recorded_colons))
  = apiCall 1 "show-host" None "" false false false ["GET"] recorded_colons.
Proof.
  exact (proj1 (proj2 (apiCall_probe_overwrites_fingerprint 0 "show-host" None "" false false
                         false ["GET"] "GET" recorded_colons eq_refl)) "EE:FF").
Defined.

(** C2 (the code at the failing input).  Against a server whose "show-task"
    polls are all unsuccessful, [waitForTask] does not return, whatever the
    fuel: after the fifth retry the loop goes on without polling. *)
Theorem waitForTask_never_gives_up (fuel : nat) :
  waitForTask fuel "task-1" (start client failing) = OutOfFuel.
Proof.
  unfold waitForTask, waitForTask_with. unfold bind at 1.
  rewrite (poll_task_unanswered (apiCall fuel) polling_failing).
  - reflexivity.
  - intros st p s px (x & n & file & wr & stdin & log & ->).
    destruct fuel as [|fuel]; [exact I|].
    destruct p, px; vm_compute; (split; [reflexivity|]); do 6 eexists; reflexivity.
  - intros st d (x & n & file & wr & stdin & log & ->). do 6 eexists. reflexivity.
  - exists "", 0%nat, NoFile, true, [], []. reflexivity.
Qed.

(** C6.  [waitForTask] takes the parent task for complete exactly when no
    sub-task has the status "in progress".  Whatever the call that polls: on
    a successful "show-task" response whose sub-tasks have status strings,
    the wait returns (what [checkTasksStatus] makes of) that response when
    none of the strings is "in progress", and when one of them is it sleeps
    and starts over with a new poll.  The completion test of the loop holds
    exactly in the first case.  A task polled with sub-tasks "succeeded" and
    "in progress" is polled again after the sleep, and the function returns
    a successful response once the second sub-task is "succeeded". *)
Theorem waitForTask_completes_when_no_subtask_in_progress :
  (forall (P : Platform) (call : apiCallT) (fuel : nat) (taskId : string) (st st1 : St P)
          (r : APIResponse) (ts : list (gmap string value * string)),
     call "show-task" (Some (show_task_payload (VStr taskId))) (sid (cl st)) false
       (isProxyUsed (cl st)) true [] st
     = Done (r, None) st1 ->
     Success r = true ->
     data r !! "tasks"
     = Some (VArr (map (fun t => VObj (<["status" := VStr (snd t)]> (fst t))) ts)) ->
     (Forall (fun t => snd t <> "in progress") ts ->
      exists r',
        checkTasksStatus r = Some r'
        /\ waitForTask_with call (S (S fuel)) taskId st = Done (r', None) st1)
     /\ (Exists (fun t => snd t = "in progress") ts ->
         waitForTask_with call (S (S fuel)) taskId st
         = bind (Sleep (sleep (cl st1)))
             (fun _ => waitForTask_with call (S fuel) taskId) st1))
  /\ (forall ts : list (gmap string value * string),
        exists completedTasks totalTasks,
          count_tasks (map (fun t => VObj (<["status" := VStr (snd t)]> (fst t))) ts) 0 0
          = Some (completedTasks, totalTasks)
          /\ ((completedTasks =? totalTasks)%Z = true
              <-> Forall (fun t => snd t <> "in progress") ts))
  /\ exists st',
       waitForTask 3 "task-1" finishing = Done (polled ["succeeded"; "succeeded"], None) st'
       /\ Success (polled ["succeeded"; "succeeded"]) = true
       /\ story (w_log (wd st')) = ["probe"; "show-task"; "sleep"; "probe"; "show-task"]
       /\ In (EvSleep SleepTime) (w_log (wd st')).
Proof.
  split; [|split].
  - intros P call fuel taskId st st1 r ts Hcall Hr Hd.
    destruct (poll_task_round call (show_task_payload (VStr taskId)) fuel st st1 r ts
                Hcall Hr Hd) as [Hdone Hagain].
    split.
    + intros HF. destruct (scan_tasks_with_statuses ts) as (found & Hscan).
      assert (Hc : exists r', checkTasksStatus r = Some r').
      { unfold checkTasksStatus. rewrite Hd. cbn [non_nil as_arr mbind option_bind].
        rewrite Hscan. cbn [mbind option_bind]. destruct found; eauto. }
      destruct Hc as (r' & Hc). exists r'. split; [exact Hc|].
      unfold waitForTask_with. unfold bind at 1. rewrite (Hdone HF), Hc. reflexivity.
    + intros HE. unfold waitForTask_with. unfold bind at 1. rewrite (Hagain HE).
      reflexivity.
  - intros ts. destruct (count_tasks_statuses ts 0 0) as (d & Hc & Hr & Hiff).
    do 2 eexists. split; [exact Hc|]. rewrite <- Hiff. rewrite Z.eqb_eq. lia.
  - eexists. split; [vm_compute; reflexivity|].
    split; [reflexivity|]. split; [vm_compute; reflexivity|]. vm_compute. tauto.
Qed.

Lemma waitForTask_completes_when_no_subtask_in_progress_witness :
  exists st1 st2,
    apiCall 3 "show-task" (Some (show_task_payload (VStr "task-1"))) (sid (cl finishing)) false
      (isProxyUsed (cl finishing)) true [] finishing
    = Done (polled ["succeeded"; "in progress"], None) st1
    /\ waitForTask_with (apiCall 3) 3 "task-1" finishing
       = bind (Sleep (sleep (cl st1))) (fun _ => waitForTask_with (apiCall 3) 2 "task-1") st1
    /\ waitForTask_with (apiCall 3) 2 "task-1" (final (Sleep (sleep (cl st1)) st1) st1)
       = Done (polled ["succeeded"; "succeeded"], None) st2.
Proof.
  pose proof (proj1 waitForTask_completes_when_no_subtask_in_progress platform (apiCall 3))
    as Hround.
  eexists. eexists. split; [vm_compute; reflexivity|]. split.
  - apply (Hround 1%nat "task-1" finishing _ (polled ["succeeded"; "in progress"])
             [(∅, "succeeded"); (∅, "in progress")]);
      [vm_compute; reflexivity|reflexivity|reflexivity|].
    apply Exists_cons_tl, Exists_cons_hd. reflexivity.
  - match goal with |- waitForTask_with _ _ _ ?s = _ =>
      destruct (proj1 (Hround 0%nat "task-1" s _ (polled ["succeeded"; "succeeded"])
                         [(∅, "succeeded"); (∅, "succeeded")]
                         ltac:(vm_compute; reflexivity) eq_refl eq_refl))
        as (r' & Hc & Hret)
    end.
    + repeat constructor; discriminate.
    + rewrite Hret. vm_compute in Hc. injection Hc as <-. reflexivity.
Defined.

Lemma checkTasksStatus_downgrades_failed_tasks_witness :
  (exists r',
     returned (waitForTask 2 "task-1" failed_task) = Some (r', None)
     /\ Success (polled ["succeeded"; "failed"]) = true
     /\ Success r' = false)
  /\ (exists r',
        returned (waitForTask 2 "task-1" partly_failed_task) = Some (r', None)
        /\ Success (polled ["partially succeeded"; "succeeded"]) = true
        /\ Success r' = false)
  /\ returned (waitForTask 2 "task-1" succeeded_task)
     = Some (polled ["succeeded"; "succeeded"], None).
Proof.
  split; [|split].
  - destruct (checkTasksStatus_downgrades_failed_tasks (P := platform)
                (polled ["succeeded"; "failed"])
                [<["status" := VStr "succeeded"]> ∅; <["status" := VStr "failed"]> ∅]
                eq_refl) as (r' & _ & Hfail & _ & Hwait & _).
    exists r'. split; [|split; [reflexivity|]].
    + unfold waitForTask. erewrite Hwait by (vm_compute; reflexivity). reflexivity.
    + apply Hfail. apply Exists_cons_tl, Exists_cons_hd. left. reflexivity.
  - destruct (checkTasksStatus_downgrades_failed_tasks (P := platform)
                (polled ["partially succeeded"; "succeeded"])
                [<["status" := VStr "partially succeeded"]> ∅; <["status" := VStr "succeeded"]> ∅]
                eq_refl) as (r' & _ & Hfail & _ & Hwait & _).
    exists r'. split; [|split; [reflexivity|]].
    + unfold waitForTask. erewrite Hwait by (vm_compute; reflexivity). reflexivity.
    + apply Hfail. apply Exists_cons_hd. right. reflexivity.
  - destruct (checkTasksStatus_downgrades_failed_tasks (P := platform)
                (polled ["succeeded"; "succeeded"])
                [<["status" := VStr "succeeded"]> ∅; <["status" := VStr "succeeded"]> ∅]
                eq_refl) as (r' & _ & _ & Hsame & Hwait & _).
    unfold waitForTask. erewrite Hwait by (vm_compute; reflexivity).
    rewrite Hsame; [reflexivity|].
    repeat constructor; rewrite lookup_insert_eq; discriminate.
Defined.

Lemma commands_send (command : string) (req : Request) (l : list Event) :
  commands (EvSend command req :: l) = (commands l ++ [command])%list.
Proof. reflexivity. Qed.

Lemma publishes_send (command : string) (req : Request) (l : list Event) :
  publishes (EvSend command req :: l)
  = (publishes l + (if String.eqb command "publish" then 1 else 0))%nat.
Proof.
  unfold publishes. rewrite commands_send, List.filter_app, List.length_app.
  cbn [List.filter]. destruct (String.eqb command "publish"); reflexivity.
Qed.

Lemma publishes_probe (srv : string) (prt : Z) (l : list Event) :
  publishes (EvProbe srv prt :: l) = publishes l.
Proof. reflexivity. Qed.

(** One external call of the batching client against a server that answers:
    the call is counted, and the call that fills the batch is followed by
    exactly one publish, after which the count is zero. *)
Lemma ApiCall_counts (N t : Z) (fp : string) (n : nat) (log : list Event) (fuel : nat) :
  (0 <= t < N)%Z -> (N < 2 ^ 63)%Z ->
  exists fp' n' log',
    ApiCall (S (S (S fuel))) "add-host" None "" true false [] (between_calls N t fp n log)
    = Done (mkResp true "200" ∅ "", None)
        (between_calls N (if (t + 1 =? N)%Z then 0 else t + 1) fp' n' log')
    /\ publishes log' = (publishes log + (if (t + 1 =? N)%Z then 1 else 0))%nat.
Proof.
  intros Ht HN.
  assert (Hw : wrap64 (t + 1) = (t + 1)%Z).
  { unfold wrap64. rewrite Z.mod_small by lia. lia. }
  assert (Hg : (0 <? N)%Z = true) by (apply Z.ltb_lt; lia).
  assert (Hm : (t + 1 <=? N)%Z = true) by (apply Z.leb_le; lia).
  unfold ApiCall. cbn [apiCall]. unfold apiCall_body at 1. unfold bind at 1.
  set (c := counting N t "AA:BB").
  set (req := build_request c "POST" (build_url c "add-host") "add-host" "" ∅).
  set (w := @mkWorld platform (mkServer (inr "AA:BB") obliging n) NoFile true []
              (EvProbe "mgmt" 443 :: log)).
  change (apiCall_prepare "add-host" None "" false [] (between_calls N t fp n log))
    with (Done (inr ("AA:BB", req) : Err + string * Request) (mkSt c w)).
  cbn [apiCall_finish].
  assert (Hgate : gate_on false c = true) by exact Hg.
  assert (Henter : may_enter c = true).
  { unfold may_enter, c. cbn [counting totalCallsCtr with_totalCallsCtr duringPublish
      with_fingerprint batching APIClient autoPublishBatchSize]. unfold int_add.
    rewrite Hw. cbn. rewrite Hm. reflexivity. }
  assert (Hunf : unfollowed true "add-host" (mkResp true "200" ∅ ""))
    by (right; split; reflexivity).
  assert (Hcl : gone (entered c) = counting N (t + 1) "AA:BB").
  { unfold gone, entered, c, counting. cbn. unfold int_add. rewrite Hw. reflexivity. }
  destruct (t + 1 =? N)%Z eqn:Hlast.
  - apply Z.eqb_eq in Hlast.
    set (reqp := build_request c "POST" (build_url c "publish") "publish" "" ∅).
    exists "AA:BB", (S (S n)),
      (EvSend "publish" reqp :: EvProbe "mgmt" 443 :: EvSend "add-host" req
         :: EvProbe "mgmt" 443 :: log).
    split; [|rewrite publishes_send, publishes_probe, publishes_send, publishes_probe;
             cbn; lia].
    apply (apiCall_exchange_publishes (P := platform) (apiCall (S (S fuel))) (S fuel)
             "add-host" true "AA:BB" req (mkSt c w)
             (mkSt (with_duringPublish true (counting N (t + 1) "AA:BB"))
                (@mkWorld platform (mkServer (inr "AA:BB") obliging (S (S n))) NoFile true []
                   (EvSend "publish" reqp :: EvProbe "mgmt" 443 :: EvSend "add-host" req
                      :: EvProbe "mgmt" 443 :: log)))
             (mkResp true "200" ∅ "") (mkServer (inr "AA:BB") obliging (S n))
             (mkResp true "200" ∅ "") (mkResp true "200" ∅ "") None);
      try assumption; try reflexivity.
    + cbn [cl]. rewrite Hcl. unfold publish_due, counting.
      cbn [totalCallsCtr with_totalCallsCtr duringPublish with_fingerprint batching APIClient
           autoPublishBatchSize]. cbn. rewrite Hlast, Z.rem_same by lia. rewrite Hg.
      reflexivity.
    + cbn [cl]. rewrite Hcl. subst reqp req w c. vm_compute. reflexivity.
  - apply Z.eqb_neq in Hlast.
    exists "AA:BB", (S n), (EvSend "add-host" req :: EvProbe "mgmt" 443 :: log).
    split; [|rewrite publishes_send, publishes_probe; cbn; lia].
    unfold between_calls. rewrite <- Hcl.
    apply (apiCall_exchange_counted (P := platform) (apiCall (S (S fuel))) (S fuel)
             "add-host" true "AA:BB" req (mkSt c w)
             (mkResp true "200" ∅ "") (mkServer (inr "AA:BB") obliging (S n))
             (mkResp true "200" ∅ ""));
      try assumption; try reflexivity.
    cbn [cl]. rewrite Hcl. unfold publish_due, counting.
    cbn [totalCallsCtr with_totalCallsCtr duringPublish with_fingerprint batching APIClient
         autoPublishBatchSize]. cbn. rewrite Z.rem_small by lia.
    replace (t + 1 =? 0)%Z with false by (symmetry; apply Z.eqb_neq; lia).
    rewrite andb_false_r. reflexivity.
Qed.

(** X16.  Against a server that answers every request, [k] external calls
    in a row leave the counter at [k] modulo the batch size and have issued
    one publish per completed batch. *)
Lemma calls_publish_once_per_batch (N : Z) (k : nat) :
  (0 < N < 2 ^ 63)%Z ->
  forall (t : Z) fp n log, (0 <= t < N)%Z ->
  exists fp' n' log',
    calls k (between_calls N t fp n log)
    = Done tt (between_calls N ((t + Z.of_nat k) mod N) fp' n' log')
    /\ publishes log' = (publishes log + Z.to_nat ((t + Z.of_nat k) / N))%nat.
Proof.
  intros HN. induction k as [|k IH]; intros t fp n log Ht.
  - exists fp, n, log. cbn [calls]. rewrite Z.add_0_r, Z.mod_small, Z.div_small by lia.
    split; [reflexivity|]. cbn. lia.
  - cbn [calls]. unfold bind at 1.
    destruct (ApiCall_counts N t fp n log 0 Ht ltac:(lia)) as (fp1 & n1 & log1 & -> & Hp1).
    destruct (t + 1 =? N)%Z eqn:Hlast.
    + apply Z.eqb_eq in Hlast.
      destruct (IH 0%Z fp1 n1 log1 ltac:(lia)) as (fp' & n' & log' & -> & Hp).
      exists fp', n', log'.
      replace ((t + Z.of_nat (S k)) mod N) with ((0 + Z.of_nat k) mod N)
        by (replace (t + Z.of_nat (S k))%Z with (0 + Z.of_nat k + 1 * N)%Z by lia;
            rewrite Z_mod_plus_full; reflexivity).
      split; [reflexivity|]. rewrite Hp, Hp1.
      replace (t + Z.of_nat (S k))%Z with (0 + Z.of_nat k + 1 * N)%Z by lia.
      rewrite Z.div_add by lia.
      rewrite Z2Nat.inj_add by (try apply Z.div_pos; lia). cbn. lia.
    + apply Z.eqb_neq in Hlast.
      destruct (IH (t + 1)%Z fp1 n1 log1 ltac:(lia)) as (fp' & n' & log' & -> & Hp).
      exists fp', n', log'.
      replace (t + Z.of_nat (S k))%Z with (t + 1 + Z.of_nat k)%Z by lia.
      split; [reflexivity|]. rewrite Hp, Hp1. lia.
Qed.

(** C1 (the code at the failing input).  With a batch of one, an external
    call whose request fails in the transport is counted, but returns before
    the publish test: no publish is issued, the counter stays at the batch
    size, and the next external call is never admitted. *)
Theorem autopublish_skipped_after_transport_error :
  let r := ApiCall 2 "add-host" None "" true false [] dropped in
  returned r = Some (emptyResponse, Some "connection reset by peer")
  /\ totalCallsCtr (cl (final r dropped)) = 1%Z
  /\ autoPublishBatchSize (cl (final r dropped)) = 1%Z
  /\ activeCallsCtr (cl (final r dropped)) = 0%Z
  /\ commands (w_log (wd (final r dropped))) = ["add-host"]
  /\ forall fuel, ApiCall fuel "add-host" None "" true false [] (final r dropped) = OutOfFuel.
Proof.
  intros r. repeat (split; [vm_compute; reflexivity|]).
  intros fuel. destruct fuel as [|fuel]; [reflexivity|].
  unfold ApiCall. cbn [apiCall]. unfold apiCall_body. unfold bind at 1.
  assert (Hp : exists client req s,
             apiCall_prepare "add-host" None "" false [] (final r dropped)
             = Done (inr (client, req)) s
             /\ gate_on false (cl s) = true /\ may_enter (cl s) = false).
  { do 3 eexists. split; [vm_compute; reflexivity|]. split; vm_compute; reflexivity. }
  destruct Hp as (client & req & s & -> & Hg & Hm).
  cbn [apiCall_finish]. apply apiCall_exchange_blocked; assumption.
Qed.

(** On the path the claim describes, calls that all get a response: with a
    batch of two, four calls are followed by a publish after the second and
    after the fourth, and the counter is back at zero. *)
Lemma autopublish_once_per_batch :
  commands (w_log (wd (final (calls 4 steady) steady)))
  = ["add-host"; "add-host"; "publish"; "add-host"; "add-host"; "publish"]
  /\ totalCallsCtr (cl (final (calls 4 steady) steady)) = 0%Z
  /\ commands (w_log (wd (final (calls 3 steady) steady)))
     = ["add-host"; "add-host"; "publish"; "add-host"]
  /\ totalCallsCtr (cl (final (calls 3 steady) steady)) = 1%Z.
Proof. repeat split; vm_compute; reflexivity. Qed.

(** C3, counterexample.  The second page of a listing is a protocol
    failure: the query does not return it, the process exits with status 1
    after the second request. *)
Lemma ApiQuery_exits_on_failed_page :
  let r := ApiQuery 3 "show-hosts" "standard" "objects" false None paging_broken in
  r = Exit 1 (final r paging_broken)
  /\ commands (w_log (wd (final r paging_broken))) = ["show-hosts"; "show-hosts"].
Proof. split; vm_compute; reflexivity. Qed.

Lemma protocol_failure_returned_or_fatal_witness :
  returned (ApiCall 1 "show-hosts" None "" true false [] refused)
  = Some (mkResp false "500" ∅ "APICall failed with status code 500", None).
Proof.
  pose (p := apiCall_prepare "show-hosts" None "" false [] refused).
  destruct (protocol_failure_returned_or_fatal (P := platform) "show-hosts"
              (handle_of p) (request_of p) refused (final p refused)
              (mkResp false "500" ∅ "") (mkServer (inr "AA:BB") failing 1)
              (mkResp false "500" ∅ "") eq_refl eq_refl eq_refl) as (_ & H & _).
  unfold ApiCall. rewrite (H 0%nat None "" true false false [] eq_refl eq_refl).
  reflexivity.
Defined.

(** C5, counterexample.  The login response names a task; the login sends
    the one request and does not poll the task, where the same call made
    with task waiting would. *)
Lemma login_does_not_wait_for_tasks :
  let creds := login_credentials (cl logging_in) admin false "" false None in
  commands (w_log (wd (final (ApiLogin 3 "admin" "secret" false "" false None logging_in)
                         logging_in))) = ["login"]
  /\ (fst <$> returned (ApiLogin 3 "admin" "secret" false "" false None logging_in))
     = Some (mkResp true "200" session "")
  /\ commands (w_log (wd (final (apiCall 3 "login" (Some creds) "" true false true [] logging_in)
                            logging_in))) = ["login"; "show-task"].
Proof. repeat split; vm_compute; reflexivity. Qed.

Lemma commonLoginLogic_stores_session_witness :
  exists c',
    cl (final (ApiLogin 1 "admin" "secret" false "" false None logging_in) logging_in) = c'
    /\ sid c' = "S1" /\ apiVersion c' = "1.9" /\ totalCallsCtr c' = 0%Z.
Proof.
  pose (p := apiCall_prepare "login"
               (Some (login_credentials (cl logging_in) admin false "" false None)) ""
               false [] logging_in).
  destruct (commonLoginLogic_stores_session (P := platform) 0 admin false "" false None
              logging_in (final p logging_in) (handle_of p) (request_of p)
              (mkResp true "200" session "") (mkServer (inr "AA:BB") login_server 1)
              (mkResp true "200" session "") "S1" "1.9"
              eq_refl eq_refl eq_refl eq_refl eq_refl (fun _ => eq_refl))
    as (c' & Hrun & _ & Hsid & _ & Hver & Htot & _).
  exists c'. unfold ApiLogin. change (<["password" := _]> _) with admin.
  rewrite Hrun. cbn [final after_send cl].
  split; [reflexivity|]. split; [exact Hsid|]. split; [exact Hver|exact Htot].
Defined.

(** C8.  Whatever the server answers, the requests of the pagination
    engine ask, round after round, for limit 50 at offset 50 times the round
    index (in the arithmetic of Go's [int]) with the details level given; a
    round whose response has [total] equal to [to] is the last one.  For a
    listing of 120 objects served 50 at a time that makes three rounds, at
    offsets 0, 50 and 100, and the last response holds the 120 objects under
    the container key. *)
Theorem genApiQuery_pages_by_fifty :
  (forall (P : Platform) fuel command detailsLevel containerKeys payload (st : St P),
     exists sent n,
       requests (w_log (wd (final
         (genApiQuery fuel command detailsLevel containerKeys payload st) st)))
       = (requests (w_log (wd st)) ++ sent)%list
       /\ map (fun req => asked (req_body req)) sent
          = map (fun k => (Some (VInt 50), Some (VInt (wrap64 (Z.of_nat k * 50))),
                           Some (VStr detailsLevel))) (seq 0 n))
  /\ (forall (P : Platform) call fuel command detailsLevel containerKeys payload iterations
        allObjects serverResponse apiRes allObjects' apiRes' total (st : St P),
        Success apiRes = true ->
        data apiRes !! "total" = Some (VNum total) ->
        data apiRes !! "to" = Some (VNum total) ->
        collect containerKeys allObjects apiRes = Some (allObjects', apiRes') ->
        query_rounds call (S fuel) command detailsLevel containerKeys payload iterations
          allObjects serverResponse apiRes st
        = Done ((serverResponse ++ [apiRes'])%list, None) st)
  /\ (forall k : nat, (Z.of_nat k * 50 < 2 ^ 63)%Z -> wrap64 (Z.of_nat k * 50) = (Z.of_nat k * 50)%Z)
  /\ (let r := genApiQuery 3 "show-hosts" "standard" ["objects"] None paging in
      map asked (map req_body (requests (w_log (wd (final r paging)))))
      = [(Some (VInt 50), Some (VInt 0), Some (VStr "standard"));
         (Some (VInt 50), Some (VInt 50), Some (VStr "standard"));
         (Some (VInt 50), Some (VInt 100), Some (VStr "standard"))]
      /\ exists rounds final_round objects,
           returned r = Some (rounds, None)
           /\ length rounds = 3%nat
           /\ last rounds = Some final_round
           /\ data final_round !! "objects" = Some (VObjs objects)
           /\ length objects = 120%nat).
Proof.
  split; [|split; [|split]].
  - intros. apply genApiQuery_requests.
  - intros P call fuel command dl keys payload it all sr apiRes all' apiRes' total st
      Hs Htot Hto Hcol.
    cbn [query_rounds]. rewrite Hs, Htot, Hto, Hcol. cbn [negb default].
    unfold bind, assert, ret, id. cbn [iface_eq]. rewrite Z.eqb_refl. reflexivity.
  - intros k Hk. unfold wrap64. rewrite Z.mod_small by lia. lia.
  - intros r. split; [vm_compute; reflexivity|].
    exists (match returned r with Some (rounds, _) => rounds | None => [] end).
    exists (default emptyResponse
              (last (match returned r with Some (rounds, _) => rounds | None => [] end))).
    exists (default []
              (as_objs (data (default emptyResponse
                 (last (match returned r with Some (rounds, _) => rounds | None => [] end)))
                 !! "objects"))).
    repeat split; vm_compute; reflexivity.
Qed.

Lemma genApiQuery_pages_by_fifty_witness :
  query_rounds (apiCall 0) 1 "show-hosts" "standard" ["objects"] ∅ 0
    (<["objects" := []]> ∅) [] (mkResp true "200" (<["total" := VNum 0]>
       (<["to" := VNum 0]> (<["objects" := VArr []]> ∅))) "") paging
  = Done ([mkResp true "200" (<["objects" := VObjs []]> (<["total" := VNum 0]>
       (<["to" := VNum 0]> (<["objects" := VArr []]> ∅)))) ""], None) paging.
Proof.
  exact (proj1 (proj2 genApiQuery_pages_by_fifty) platform (apiCall 0) 0%nat "show-hosts"
           "standard" ["objects"] ∅ 0%Z (<["objects" := []]> ∅) []
           (mkResp true "200" (<["total" := VNum 0]>
              (<["to" := VNum 0]> (<["objects" := VArr []]> ∅))) "")
           _ _ 0%Z paging eq_refl eq_refl eq_refl eq_refl).
Defined.

(** *** Calls against the simulated server *)

(** An internal call of the client that ignores certificates, made without
    waiting for tasks: the server is probed, the request is sent and the
    answer of the server's handler comes back. *)
Lemma internal_call_served (fuel : nat) (command : string) (p : gmap string value)
    (x : string) (h : nat -> Request -> Err + APIResponse) (n : nat) (file : FileContent)
    (wr : bool) (stdin : list string) (log : list Event) :
  let req := build_request client "POST" (build_url client command) command "" p in
  apiCall (S fuel) command (Some p) "" false false true []
    (mkSt (with_fingerprint x client) (mkWorld (mkServer (inr "AA:BB") h n) file wr stdin log))
  = Done (match h n req with
          | inl e => (emptyResponse, Some e)
          | inr res =>
              (if negb (Success res) then with_ErrorMsg (buildGenericErrMsg res) res else res,
               None)
          end)
      (mkSt (with_fingerprint "AA:BB" client)
         (mkWorld (mkServer (inr "AA:BB") h (S n)) file wr stdin
            (EvSend command req :: EvProbe "mgmt" 443 :: log))).
Proof.
  intros req. cbn [apiCall]. unfold apiCall_body. unfold bind at 1.
  assert (Hp : apiCall_prepare command (Some p) "" false []
                 (mkSt (with_fingerprint x client)
                    (mkWorld (mkServer (inr "AA:BB") h n) file wr stdin log))
               = Done (inr ("AA:BB", req))
                   (mkSt (with_fingerprint "AA:BB" client)
                      (mkWorld (mkServer (inr "AA:BB") h n) file wr stdin
                         (EvProbe "mgmt" 443 :: log)))).
  { reflexivity. }
  rewrite Hp. cbn [apiCall_finish]. rewrite apiCall_exchange_internal.
  cbn [wd w_srv cl]. unfold after_send. cbn [Do platform fst snd served handler cert
    w_file w_writable w_stdin w_log fromHTTPResponse].
  destruct (h n req); reflexivity.
Qed.

Lemma req_body_build_request (c : ApiClient) (reqMethod url command s : string)
    (p : gmap string value) :
  req_body (build_request c reqMethod url command s p) = p.
Proof. unfold build_request. destruct (String.eqb command "login"); reflexivity. Qed.

Lemma page_query (total : Z) (dl : string) (k : nat) (req : Request) :
  (Z.of_nat k * 50 < 2 ^ 62)%Z ->
  req_body req = query_payload ∅ dl (Z.of_nat k) ->
  page total req = inr (page_from total (50 * Z.of_nat k)).
Proof.
  intros Hk Hb. unfold page. rewrite Hb. unfold query_payload.
  rewrite (lookup_insert_ne _ "details-level" "offset") by discriminate.
  rewrite lookup_insert_eq.
  rewrite (lookup_insert_ne _ "details-level" "limit") by discriminate.
  rewrite (lookup_insert_ne _ "offset" "limit") by discriminate.
  rewrite lookup_insert_eq.
  assert (Ho : int_mul (Z.of_nat k) Limit = (50 * Z.of_nat k)%Z).
  { unfold int_mul, Limit, wrap64. rewrite Z.mod_small by lia. lia. }
  rewrite Ho. unfold ok, page_from, Limit, span. rewrite map_map. reflexivity.
Qed.

Lemma objects_of_objs (l : list (gmap string value)) : objects_of (map VObj l) = Some l.
Proof.
  induction l as [|m l IH]; [reflexivity|]. cbn [map objects_of as_obj mbind option_bind].
  rewrite IH. reflexivity.
Qed.

Lemma map_seq_from {A} (f : nat -> A) (a s b : nat) :
  map f (seq (a + s) b) = map (fun i => f (a + i)%nat) (seq s b).
Proof.
  revert s. induction b as [|b IH]; intros s; [reflexivity|].
  cbn [seq map]. f_equal. replace (S (a + s)) with (a + S s)%nat by lia. apply IH.
Qed.

Lemma span_app (a b : nat) : (span 0 a ++ span (Z.of_nat a) b)%list = span 0 (a + b).
Proof.
  unfold span. rewrite seq_app, map_app. f_equal.
  replace (1 + a)%nat with (a + 1)%nat by lia. rewrite map_seq_from.
  apply map_ext. intros i. f_equal. lia.
Qed.

Lemma page_from_lookup (total o : Z) :
  data (page_from total o) !! "objects"
  = Some (VArr (map VObj (span o (Z.to_nat (Z.min total (o + 50) - o)))))
  /\ data (page_from total o) !! "total" = Some (VNum total)
  /\ data (page_from total o) !! "to" = Some (VNum (Z.min total (o + 50)))
  /\ Success (page_from total o) = true.
Proof. repeat split. Qed.

Lemma query_rounds_step {P : Platform} (call : apiCallT) (fuel : nat)
    (command detailsLevel : string) (containerKeys : list string) (payload : gmap string value)
    (iterations : Z) (allObjects : gmap string (list (gmap string value)))
    (serverResponse : list APIResponse) (apiRes : APIResponse) :
  query_rounds call (S fuel) command detailsLevel containerKeys payload iterations allObjects
    serverResponse apiRes
  = if negb (Success apiRes) then os_Exit 1
    else
      bind (assert (collect containerKeys allObjects apiRes))
        (fun '(allObjects', apiRes') =>
           bind (assert (iface_eq (default VNil (data apiRes !! "total"))
                           (match data apiRes !! "to" with
                            | None | Some VNil => VNum 0
                            | Some v => v
                            end)))
             (fun stop : bool =>
                if stop then ret ((serverResponse ++ [apiRes'])%list, None)
                else
                  bind self
                    (fun c =>
                       bind (call command
                               (Some (query_payload payload detailsLevel (int_add iterations 1)))
                               (sid c) false (isProxyUsed c) true [])
                         (fun '(apiRes'', err) =>
                            match err with
                            | Some e => ret ([], Some e)
                            | None =>
                                query_rounds call fuel command detailsLevel containerKeys
                                  (query_payload payload detailsLevel (int_add iterations 1))
                                  (int_add iterations 1) allObjects'
                                  (serverResponse ++ [apiRes'])%list apiRes''
                            end)))).
Proof. reflexivity. Qed.

(** The rounds of the pagination loop over a listing, from round [k] on:
    the objects of the pages are appended to those of the rounds before, and
    the loop ends with the page that reaches the total. *)
Lemma query_rounds_listing (total : Z) (command dl : string) (f : nat) :
  (0 <= total < 2 ^ 62)%Z ->
  forall (j k : nat) (allObjects : gmap string (list (gmap string value)))
         (serverResponse : list APIResponse) (x : string) (n : nat) (file : FileContent)
         (wr : bool) (stdin : list string) (log : list Event),
    (50 * Z.of_nat k <= total)%Z ->
    (total <= 50 * Z.of_nat k + 50 * (Z.of_nat j + 1))%Z ->
    allObjects !! "objects" = Some (span 0 (50 * k)) ->
    exists (responses : list APIResponse) (final : APIResponse) (st' : St platform),
      query_rounds (apiCall (S f)) (S j) command dl ["objects"]
        (query_payload ∅ dl (Z.of_nat k)) (Z.of_nat k) allObjects serverResponse
        (page_from total (50 * Z.of_nat k))
        (mkSt (with_fingerprint x client)
           (mkWorld (mkServer (inr "AA:BB") (fun _ => page total) n) file wr stdin log))
      = Done ((serverResponse ++ responses ++ [final])%list, None) st'
      /\ Z.of_nat (length responses) + 1 = Z.max 1 ((total - 50 * Z.of_nat k + 49) / 50)
      /\ data final !! "objects" = Some (VObjs (span 0 (Z.to_nat total)))
      /\ length (requests (w_log (wd st'))) = (length (requests log) + length responses)%nat.
Proof.
  intros Htot.
  assert (Hlast : forall (k : nat) all sr (s : St platform),
            (50 * Z.of_nat k <= total <= 50 * Z.of_nat k + 50)%Z ->
            all !! "objects" = Some (span 0 (50 * k)) ->
            forall j,
            exists (responses : list APIResponse) (final : APIResponse) (st' : St platform),
              query_rounds (apiCall (S f)) (S j) command dl ["objects"]
                (query_payload ∅ dl (Z.of_nat k)) (Z.of_nat k) all sr
                (page_from total (50 * Z.of_nat k)) s
              = Done ((sr ++ responses ++ [final])%list, None) st'
              /\ Z.of_nat (length responses) + 1
                 = Z.max 1 ((total - 50 * Z.of_nat k + 49) / 50)
              /\ data final !! "objects" = Some (VObjs (span 0 (Z.to_nat total)))
              /\ length (requests (w_log (wd st')))
                 = (length (requests (w_log (wd s))) + length responses)%nat).
  { intros k all sr s Hk Hall j. rewrite query_rounds_step.
    destruct (page_from_lookup total (50 * Z.of_nat k)) as (Ho & Ht & Hto & Hs).
    rewrite Hs. cbn [negb]. rewrite Ht, Hto. cbn [default]. unfold id.
    cbn [collect]. rewrite Ho. cbn [as_arr mbind option_bind]. rewrite objects_of_objs.
    cbn [mbind option_bind]. rewrite Hall. cbn [default]. unfold id.
    cbn [assert]. unfold bind at 1. cbn [ret iface_eq].
    replace (Z.min total (50 * Z.of_nat k + 50)) with total by lia.
    rewrite Z.eqb_refl. cbn [assert]. unfold bind at 1. cbn [ret].
    exists [], (setData (<["objects" := VObjs (span 0 (50 * k) ++ span (50 * Z.of_nat k)
                                              (Z.to_nat (total - 50 * Z.of_nat k)))%list]>
                          (data (page_from total (50 * Z.of_nat k))))
                  (page_from total (50 * Z.of_nat k))), s.
    split; [reflexivity|]. split; [|split].
    - cbn [length]. assert ((total - 50 * Z.of_nat k + 49) / 50 < 2)%Z
        by (apply Z.div_lt_upper_bound; lia).
      lia.
    - cbn [setData data]. rewrite lookup_insert_eq. do 2 f_equal.
      replace (50 * Z.of_nat k)%Z with (Z.of_nat (50 * k)) by lia.
      rewrite span_app. f_equal. lia.
    - cbn [length]. lia. }
  induction j as [|j IH]; intros k all sr x n file wr stdin log Hk Hj Hall.
  - apply Hlast; [lia|exact Hall].
  - destruct (Z_le_gt_dec total (50 * Z.of_nat k + 50)) as [Hend|Hmore].
    + apply Hlast; [lia|exact Hall].
    + rewrite query_rounds_step.
      destruct (page_from_lookup total (50 * Z.of_nat k)) as (Ho & Ht & Hto & Hs).
      rewrite Hs. cbn [negb]. rewrite Ht, Hto. cbn [default]. unfold id.
      cbn [collect]. rewrite Ho. cbn [as_arr mbind option_bind]. rewrite objects_of_objs.
      cbn [mbind option_bind]. rewrite Hall. cbn [default]. unfold id.
      cbn [assert]. unfold bind at 1. cbn [ret iface_eq].
      replace (Z.min total (50 * Z.of_nat k + 50)) with (50 * Z.of_nat k + 50)%Z by lia.
      replace (total =? 50 * Z.of_nat k + 50)%Z with false by (symmetry; apply Z.eqb_neq; lia).
      cbn [assert]. unfold bind at 1. cbn [ret].
      unfold bind at 1. cbn [self]. unfold bind at 1.
      assert (Hit : int_add (Z.of_nat k) 1 = Z.of_nat (S k)).
      { unfold int_add, wrap64. rewrite Z.mod_small by lia. lia. }
      rewrite Hit, query_payload_again.
      change (sid (cl _)) with "". change (isProxyUsed (cl _)) with false.
      rewrite internal_call_served.
      rewrite (page_query total dl (S k)) by (try apply req_body_build_request; lia).
      destruct (page_from_lookup total (50 * Z.of_nat (S k))) as (_ & _ & _ & Hs').
      rewrite Hs'. cbn [negb].
      set (all' := <["objects" := _]> all).
      set (res' := setData _ _).
      destruct (IH (S k) all' (sr ++ [res'])%list "AA:BB" (S n) file wr stdin
                  (EvSend command
                     (build_request client "POST" (build_url client command) command ""
                        (query_payload ∅ dl (Z.of_nat (S k))))
                   :: EvProbe "mgmt" 443 :: log))
        as (responses & final & st' & Hrun & Hlen & Hfinal & Hreq).
      * lia.
      * lia.
      * subst all'. rewrite lookup_insert_eq. f_equal.
        replace (50 * Z.of_nat k)%Z with (Z.of_nat (50 * k)) by lia.
        replace (Z.to_nat (Z.of_nat (50 * k) + 50 - Z.of_nat (50 * k))) with 50%nat by lia.
        rewrite span_app. f_equal. lia.
      * exists (res' :: responses), final, st'.
        split; [rewrite Hrun, <- app_assoc; reflexivity|].
        split; [|split; [exact Hfinal|]].
        -- cbn [length].
           replace (total - 50 * Z.of_nat k + 49)%Z
             with ((total - 50 * Z.of_nat (S k) + 49) + 1 * 50)%Z by lia.
           rewrite Z.div_add by lia.
           assert (1 <= (total - 50 * Z.of_nat (S k) + 49) / 50)%Z
             by (apply Z.div_le_lower_bound; lia).
           lia.
        -- rewrite Hreq. rewrite requests_send. cbn [requests]. rewrite List.length_app.
           cbn [length].
           change (requests (EvProbe "mgmt" 443 :: log)) with (requests log). lia.
Qed.

(** X19.  Against a server that serves a listing of [total] objects fifty
    at a time, a query returns every object of the listing once and in
    order: the last response holds the objects 1 to [total] under the
    container key, after one round per fifty objects (one round for an
    empty listing) and as many requests. *)
Theorem genApiQuery_collects_every_object (total : Z) (command detailsLevel : string)
    (fuel : nat) :
  (0 <= total < 2 ^ 62)%Z ->
  (0 < fuel)%nat ->
  (total <= 50 * Z.of_nat fuel)%Z ->
  exists (responses : list APIResponse) (final : APIResponse) (st' : St platform),
    genApiQuery fuel command detailsLevel ["objects"] None (listing total)
    = Done (responses, None) st'
    /\ Z.of_nat (length responses) = Z.max 1 ((total + 49) / 50)
    /\ last responses = Some final
    /\ data final !! "objects" = Some (VObjs (span 0 (Z.to_nat total)))
    /\ length (requests (w_log (wd st'))) = length responses.
Proof.
  intros Htot Hfuel Hrounds. destruct fuel as [|f]; [lia|].
  unfold genApiQuery, genApiQuery_with, listing, start.
  unfold bind at 1. cbn [self]. unfold bind at 1.
  change (sid (cl _)) with "". change (isProxyUsed (cl _)) with false.
  change (default ∅ None) with (∅ : gmap string value).
  change client with (with_fingerprint "" client) at 1.
  rewrite internal_call_served.
  rewrite (page_query total detailsLevel 0) by (try apply req_body_build_request; lia).
  destruct (page_from_lookup total (50 * Z.of_nat 0)) as (Ho & _ & _ & Hs).
  rewrite Hs. cbn [negb].
  unfold lacks_key. cbn [existsb]. rewrite Ho.
  rewrite bool_decide_eq_true_2 by eauto. cbn [negb orb foldl].
  destruct (query_rounds_listing total command detailsLevel f Htot f 0
              (<["objects" := []]> ∅) [] "AA:BB" 1 NoFile true []
              [EvSend command
                 (build_request client "POST" (build_url client command) command ""
                    (query_payload ∅ detailsLevel 0)); EvProbe "mgmt" 443])
    as (responses & final & st' & Hrun & Hlen & Hfinal & Hreq); [lia|lia|reflexivity|].
  change (Z.of_nat 0) with 0%Z in *. rewrite Hrun.
  exists (responses ++ [final])%list, final, st'.
  split; [reflexivity|]. split; [|split; [|split]].
  - rewrite List.length_app. cbn [length].
    replace (total - 50 * 0 + 49)%Z with (total + 49)%Z in Hlen by lia. lia.
  - apply last_snoc.
  - exact Hfinal.
  - rewrite Hreq, List.length_app. cbn. lia.
Qed.

Lemma query_rounds_bare (command dl : string) (f : nat) :
  forall (j : nat) (payload : gmap string value) (iterations : Z)
         (allObjects : gmap string (list (gmap string value)))
         (serverResponse : list APIResponse) (x : string) (n : nat) (file : FileContent)
         (wr : bool) (stdin : list string) (log : list Event),
    query_rounds (apiCall f) j command dl ["objects"] payload iterations allObjects
      serverResponse uncounted_page
      (mkSt (with_fingerprint x client)
         (mkWorld (mkServer (inr "AA:BB") bare n) file wr stdin log))
    = OutOfFuel.
Proof.
  induction j as [|j IH]; intros payload it all sr x n file wr stdin log; [reflexivity|].
  rewrite query_rounds_step.
  change (Success uncounted_page) with true. cbn [negb].
  change (data uncounted_page !! "total") with (@None value).
  change (data uncounted_page !! "to") with (@None value).
  cbn [default iface_eq assert].
  change (collect ["objects"] all uncounted_page)
    with (Some (<["objects" := (default [] (all !! "objects") ++ [])%list]> all,
                setData (<["objects" := VObjs (default [] (all !! "objects") ++ [])%list]>
                           (data uncounted_page)) uncounted_page)).
  cbn [assert]. unfold bind at 1. cbn [ret]. unfold bind at 1. cbn [ret].
  unfold bind at 1. cbn [self]. unfold bind at 1.
  change (sid (cl _)) with "". change (isProxyUsed (cl _)) with false.
  destruct f as [|f]; [reflexivity|].
  rewrite internal_call_served. cbn [bare]. change (Success uncounted_page) with true.
  cbn [negb]. apply IH.
Qed.

(** X20.  The pagination loop ends only on a response whose "total" equals
    its "to".  Against a server whose responses carry the container key and
    neither count, the nil total is compared with a zero "to" and found
    different in every round: the query asks for page after page and never
    returns. *)
Theorem genApiQuery_never_ends_without_total (fuel : nat) (command detailsLevel : string)
    (payload : option (gmap string value)) :
  genApiQuery fuel command detailsLevel ["objects"] payload (start client bare) = OutOfFuel.
Proof.
  unfold genApiQuery, genApiQuery_with, start.
  unfold bind at 1. cbn [self]. unfold bind at 1.
  change (sid (cl _)) with "". change (isProxyUsed (cl _)) with false.
  destruct fuel as [|f]; [reflexivity|].
  change client with (with_fingerprint "" client) at 1.
  rewrite internal_call_served. cbn [bare]. change (Success uncounted_page) with true.
  cbn [negb]. change (lacks_key ["objects"] uncounted_page) with false. cbv iota.
  apply query_rounds_bare.
Qed.

(** *** Instances *)

Lemma apiCall_rejects_unknown_method_witness :
  apiCall 1 "show-hosts" None "" true false false ["get"] refused
  = Done (emptyResponse, Some "invalid HTTP method: get") refused.
Proof.
  apply (apiCall_rejects_unknown_method (P := platform) 0 "show-hosts" None "" true false false
           "get" [] refused).
  intros [H|[H|[H|[H|[]]]]]; discriminate H.
Defined.

Lemma apiCall_prepare_builds_request_witness :
  req_header (request_of (apiCall_prepare "login" None "S1" false [] logging_in)) !! "X-chkp-sid"
  = None
  /\ req_header (request_of (apiCall_prepare "show-hosts" None "S1" false [] logging_in))
       !! "X-chkp-sid" = Some "S1".
Proof.
  split.
  - pose (p := apiCall_prepare "login" None "S1" false [] logging_in).
    destruct (apiCall_prepare_builds_request (P := platform) "login" None "S1" false []
                logging_in (final p logging_in) (handle_of p) (request_of p) eq_refl)
      as (_ & _ & _ & _ & H).
    exact (H "X-chkp-sid").
  - pose (p := apiCall_prepare "show-hosts" None "S1" false [] logging_in).
    destruct (apiCall_prepare_builds_request (P := platform) "show-hosts" None "S1" false []
                logging_in (final p logging_in) (handle_of p) (request_of p) eq_refl)
      as (_ & _ & _ & _ & H).
    exact (H "X-chkp-sid").
Defined.

Lemma apiCall_prepare_never_compares_record_witness :
  exists r st',
    apiCall_prepare "show-hosts" None "" false [] changed_mind = Done (inr r) st'
    /\ w_file (wd st') = JsonMap (<["mgmt" := "AA"]> ∅)
    /\ w_stdin (wd st') = ["n"; "y"]
    /\ fingerprint (cl st') = "CC".
Proof.
  do 2 eexists. split.
  - apply (apiCall_prepare_never_compares_record (P := platform) "show-hosts" None "" false []
             "POST" changed_mind (<["mgmt" := "AA"]> ∅) "AA" "CC" "");
      reflexivity.
  - repeat split.
Defined.

Lemma apiCall_prepare_records_first_contact_witness :
  exists r st',
    apiCall_prepare "show-hosts" None "" false [] unrecorded = Done (inr r) st'
    /\ w_file (wd st') = JsonMap (<["mgmt" := "CC"]> ∅)
    /\ w_stdin (wd st') = ["n"].
Proof.
  do 2 eexists. split.
  - apply (apiCall_prepare_records_first_contact (P := platform) "show-hosts" None "" false []
             "POST" unrecorded ∅ "CC" "");
      reflexivity.
  - repeat split.
Defined.

Lemma apiCall_unreadable_fingerprint_file_witness :
  exists e st',
    apiCall 1 "show-hosts" None "" true false false [] unreadable = Done (emptyResponse, Some e) st'
    /\ requests (w_log (wd st')) = [].
Proof.
  destruct (apiCall_unreadable_fingerprint_file (P := platform) 0 "show-hosts" None "" true
              false false [] "POST" unreadable "CC" eq_refl eq_refl (or_introl eq_refl) eq_refl)
    as (e & H & _).
  exists e. eexists. split; [exact H|reflexivity].
Defined.

Lemma apiCall_null_fingerprint_file_panics_witness :
  returned (apiCall 1 "show-hosts" None "" true false false [] null_file) = None.
Proof.
  rewrite (apiCall_null_fingerprint_file_panics (P := platform) 0 "show-hosts" None "" true
             false false [] "POST" null_file "CC" eq_refl eq_refl eq_refl eq_refl).
  reflexivity.
Defined.

Lemma CheckFingerprint_accepting_records_configured_witness :
  exists st',
    CheckFingerprint changed = Done (true, None) st'
    /\ w_file (wd st') = JsonMap (<["mgmt" := "AA"]> (<["mgmt" := "BB"]> ∅)).
Proof.
  destruct (CheckFingerprint_accepting_records_configured (P := platform) changed
              (<["mgmt" := "BB"]> ∅) "CC")
    as (st' & H & _ & Hf & _).
  - reflexivity.
  - reflexivity.
  - reflexivity.
  - reflexivity.
  - reflexivity.
  - discriminate.
  - discriminate.
  - right. discriminate.
  - exists st'. split; [exact H|exact Hf].
Defined.

Lemma CheckFingerprint_refusal_leaves_record_witness :
  exists st',
    CheckFingerprint unrecorded = Done (false, None) st'
    /\ w_file (wd st') = JsonMap (<["mgmt" := ""]> ∅).
Proof.
  eexists. split.
  - apply (CheckFingerprint_refusal_leaves_record (P := platform) unrecorded ∅ "CC");
      try reflexivity; try discriminate. left. reflexivity.
  - reflexivity.
Defined.

Lemma CheckFingerprint_trusts_when_save_fails_witness :
  exists st',
    CheckFingerprint read_only = Done (true, None) st'
    /\ w_file (wd st') = JsonMap (<["mgmt" := "AA"]> ∅)
    /\ fingerprint (cl st') = "CC".
Proof.
  eexists. split.
  - apply (CheckFingerprint_trusts_when_save_fails (P := platform) read_only
             (<["mgmt" := "AA"]> ∅) "AA" "CC");
      try reflexivity; try discriminate. right. discriminate.
  - split; reflexivity.
Defined.

Lemma saveFingerprintToFile_then_load_witness :
  loadFingerprintFromFile (final (saveFingerprintToFile "other" "DD" changed_mind) changed_mind)
  = Done ("DD", None) (final (saveFingerprintToFile "other" "DD" changed_mind) changed_mind).
Proof.
  exact (proj1 (saveFingerprintToFile_then_load (P := platform) "other" "DD" changed_mind
                  (final (saveFingerprintToFile "other" "DD" changed_mind) changed_mind)
                  eq_refl)).
Defined.

Lemma CheckFingerprint_verdicts_witness :
  probe (w_srv (wd changed_mind)) "mgmt" 443
  = inr (fingerprint (cl (final (CheckFingerprint accepting) accepting))).
Proof.
  pose proof (CheckFingerprint_verdicts (P := platform) accepting) as H.
  change (CheckFingerprint accepting)
    with (Done (A := bool * option Err) (true, None) (final (CheckFingerprint accepting) accepting))
    in H.
  destruct H as [_ H]. exact (H eq_refl eq_refl).
Defined.

Lemma ApiQuery_indexes_objects_witness :
  exists r st',
    ApiQuery 1 "show-hosts" "standard" "" false None (listing 2) = Done (r, None) st'
    /\ data r !! "0" = Some (VObj (host 1))
    /\ data r !! "1" = Some (VObj (host 2))
    /\ data r !! "total" = None.
Proof.
  pose (run := genApiQuery 1 "show-hosts" "standard" ["objects"] None (listing 2)).
  pose (rs := match returned run with Some (rs, _) => rs | None => [] end).
  pose (r := default emptyResponse (last rs)).
  destruct (ApiQuery_indexes_objects (P := platform) 1 "show-hosts" "standard" "" None
              (listing 2) (final run (listing 2)) rs r [host 1; host 2])
    as (d & Hrun & Hat & Honly).
  - vm_compute. reflexivity.
  - vm_compute. reflexivity.
  - reflexivity.
  - vm_compute. reflexivity.
  - exists (setData d r), (final run (listing 2)). split; [exact Hrun|].
    cbn [setData data]. split; [exact (Hat 0%nat (host 1) eq_refl)|].
    split; [exact (Hat 1%nat (host 2) eq_refl)|].
    destruct (d !! "total") as [v|] eqn:Hv; [|reflexivity].
    destruct (Honly "total" v Hv) as (i & x & Hi & _).
    exfalso. revert Hi. unfold Itoa.
    destruct (Z.to_int (Z.of_nat i)) as [u|u]; destruct u; discriminate.
Defined.

Lemma ApiQuery_swallows_first_transport_error_witness :
  returned (ApiQuery 1 "show-hosts" "standard" "objects" true None cut_off)
  = Some (emptyResponse, None).
Proof.
  rewrite (ApiQuery_swallows_first_transport_error (P := platform) 1 "show-hosts" "standard"
             "objects" true None cut_off
             (final (ApiQuery 1 "show-hosts" "standard" "objects" true None cut_off) cut_off)
             emptyResponse "connection reset by peer");
    [reflexivity|vm_compute; reflexivity].
Defined.

Lemma ApiQuery_returns_later_transport_error_witness :
  returned (ApiQuery 2 "show-hosts" "standard" "objects" true None cut_short)
  = Some (emptyResponse, Some "connection reset by peer").
Proof.
  pose (first := query_payload ∅ "standard" 0).
  pose (run1 := apiCall 2 "show-hosts" (Some first) "" false false true [] cut_short).
  pose (res1 := match returned run1 with Some (r, _) => r | None => emptyResponse end).
  pose (st1 := final run1 cut_short).
  pose (run2 := apiCall 2 "show-hosts" (Some (query_payload first "standard" (int_add 0 1))) ""
                  false false true [] st1).
  rewrite (ApiQuery_returns_later_transport_error (P := platform) 1 "show-hosts" "standard"
             "objects" true None cut_short st1 (final run2 st1) res1 emptyResponse
             "connection reset by peer"
             (map VObj (span 0 50)) (span 0 50)).
  - reflexivity.
  - vm_compute. reflexivity.
  - reflexivity.
  - vm_compute. reflexivity.
  - vm_compute. reflexivity.
  - vm_compute. reflexivity.
  - vm_compute. reflexivity.
Defined.

Lemma ApiCall_restores_active_calls_witness :
  activeCallsCtr (cl (final (ApiCall 3 "add-host" None "" true false [] steady) steady)) = 0%Z
  /\ totalCallsCtr (cl (final (ApiCall 3 "add-host" None "" true false [] steady) steady)) = 1%Z.
Proof.
  pose (run := ApiCall 3 "add-host" None "" true false [] steady).
  destruct (ApiCall_restores_active_calls (P := platform) 3 "add-host" None "" true false []
              steady (final run steady) (mkResp true "200" ∅ "", None)) as [H _].
  - vm_compute. reflexivity.
  - vm_compute. split; [discriminate|reflexivity].
  - split; [|vm_compute; reflexivity].
    unfold same_but_fingerprint_and_count in H.
    apply (f_equal activeCallsCtr) in H. exact H.
Defined.

Lemma ApiCall_with_batching_off_witness :
  ApiCall 2 "add-host" None "" true false [] (final (DisableAutoPublish dropped) dropped)
  = apiCall 2 "add-host" None "" true false true [] (final (DisableAutoPublish dropped) dropped).
Proof.
  apply (ApiCall_with_batching_off (P := platform) 2 "add-host" None "" true false []
           (final (DisableAutoPublish dropped) dropped)).
  right. exists dropped. reflexivity.
Defined.


Lemma genApiQuery_collects_every_object_witness :
  exists responses final st',
    genApiQuery 3 "show-hosts" "standard" ["objects"] None (listing 120)
    = Done (responses, None) st'
    /\ Z.of_nat (length responses) = Z.max 1 ((120 + 49) / 50)
    /\ last responses = Some final
    /\ data final !! "objects" = Some (VObjs (span 0 (Z.to_nat 120)))
    /\ length (requests (w_log (wd st'))) = length responses.
Proof.
  apply (genApiQuery_collects_every_object 120 "show-hosts" "standard" 3); lia.
Defined.

Lemma count_tasks_needs_every_status_witness :
  exists completedTasks : Z,
    count_tasks [VObj (<["status" := VStr "succeeded"]> ∅); VObj ∅] 0 0
    = Some (completedTasks, 2%Z)
    /\ (completedTasks =? 2)%Z = false.
Proof.
  destruct (count_tasks_needs_every_status [<["status" := VStr "succeeded"]> ∅; ∅])
    as (c & Hc & Hiff).
  - constructor; [right; right; exists "succeeded"; reflexivity|].
    constructor; [left; reflexivity|constructor].
  - exists c. split; [exact Hc|].
    destruct (c =? 2)%Z eqn:E; [|reflexivity].
    apply Hiff in E. inversion E as [|? ? _ E']. inversion E' as [|? ? (s & Hs & _) _].
    discriminate Hs.
Defined.

Lemma commonLoginLogic_failure_stores_nothing_witness :
  returned (ApiLogin 1 "admin" "secret" false "" false None refused)
  = Some (mkResp false "500" ∅ "APICall failed with status code 500", None)
  /\ sid (cl (final (ApiLogin 1 "admin" "secret" false "" false None refused) refused)) = "".
Proof.
  pose (p := apiCall_prepare "login"
               (Some (login_credentials (cl refused) admin false "" false None)) ""
               false [] refused).
  destruct (commonLoginLogic_failure_stores_nothing (P := platform) 0 admin false "" false None
              refused (final p refused) (handle_of p) (request_of p)
              (inr (mkResp false "500" ∅ "")) (mkServer (inr "AA:BB") failing 1)
              eq_refl eq_refl) as (Hrun & Hsid & _).
  - intros resp loginRes H1 H2. injection H1 as <-. injection H2 as <-. reflexivity.
  - unfold ApiLogin. change (<["password" := _]> _) with admin. rewrite Hrun.
    split; reflexivity.
Defined.

Lemma calls_publish_once_per_batch_witness :
  exists fp' n' log',
    calls 5 (between_calls 2 0 "" 0 []) = Done tt (between_calls 2 1 fp' n' log')
    /\ publishes log' = 2%nat.
Proof.
  destruct (calls_publish_once_per_batch 2 5 ltac:(lia) 0 "" 0%nat [] ltac:(lia))
    as (fp' & n' & log' & H & Hp).
  exists fp', n', log'. split; [exact H|exact Hp].
Defined.

Lemma waitForTask_recovers_within_five_retries_witness :
  exists st',
    waitForTask_with (apiCall 1) 4 "task-1" (start client recovering)
    = Done (polled ["succeeded"], None) st'
    /\ served (w_srv (wd st')) = 3%nat.
Proof.
  destruct (waitForTask_recovers_within_five_retries (P := platform) (apiCall 1)
              (fun k st => (k <= 2)%nat /\ failures_left k st)
              (fun st => served (w_srv (wd st)) = 3%nat)
              (polled ["succeeded"]) [task "succeeded"] 1%Z "task-1")
    with (n := 2%nat) (fuel := 4%nat) (st := start client recovering)
    as (st' & Hrun & Hpost).
  - intros k st [Hk (x & file & wr & stdin & log & ->)].
    change (sid (cl _)) with "". change (isProxyUsed (cl _)) with false.
    rewrite internal_call_served.
    destruct k as [|[|k]]; [| |lia].
    + do 2 eexists. split; [reflexivity|]. split; [reflexivity|].
      split; [lia|]. do 5 eexists. reflexivity.
    + do 2 eexists. split; [reflexivity|]. split; [reflexivity|].
      split; [lia|]. do 5 eexists. reflexivity.
  - intros st [_ (x & file & wr & stdin & log & ->)].
    change (sid (cl _)) with "". change (isProxyUsed (cl _)) with false.
    rewrite internal_call_served. eexists. split; reflexivity.
  - intros k st d [Hk (x & file & wr & stdin & log & ->)].
    split; [exact Hk|]. do 5 eexists. reflexivity.
  - reflexivity.
  - reflexivity.
  - reflexivity.
  - lia.
  - lia.
  - split; [lia|]. exists "", NoFile, true, [], []. reflexivity.
  - exists st'. split; [exact Hrun|exact Hpost].
Defined.
